(** * The collectd Java bridge (src/java.c): a shallow embedding

    The bridge hosts one JVM inside the collectd daemon.  It converts
    native records to managed objects and back ([ctoj_*], [jtoc_*]),
    keeps a per-thread attach counter, a registry of callbacks, and drives
    configuration, initialisation and shutdown of the Java plugins.

    Conventions of the embedding.

    - A C integer of width [w] is a [Z]; where the C code converts or
      computes at a fixed width the wrap-around is written with [wrap].
    - A [double] is only ever carried around by the bridge, never computed
      with: it is represented by its 64-bit pattern.
    - A managed object is described by the class and constructor arguments
      it was created with and by the ordered record of the [void] methods
      invoked on it; a reference to it is local or global.
    - The JVM answers look-ups and allocations through a table of
      functions, [JNIEnv]; a [NULL] result is [None].
    - The conversion functions return [Ok], or [Failed] with the lines
      they wrote with [ERROR] (the C functions return [NULL] or [-1]).
      They are followed for the object they return and for the lines they
      write: the local references they release on the way are not part of
      [trace], which holds the DeleteLocalRef calls of the entry points
      themselves.  Lines written with [DEBUG], which exist only in a
      debugging build, are left out.
    - The entry points run in a state monad over [world]; the calls made
      to the collaborators are appended to [trace].  [None] stands for a
      run that does not return: a failed [assert] or a [NULL] dereference.
    - Callbacks and constructors invoked in the JVM are taken to return
      without calling back into the bridge, and one native thread is
      followed. *)

From Stdlib Require Import ZArith List String Bool Lia DecimalString HexString.
Import ListNotations.

#[local] Set Warnings "-register-all".

Local Open Scope Z_scope.
Local Open Scope list_scope.

(** ** Machine integers *)

(** The signed [w]-bit integer congruent to [x]. *)
Definition wrap (w : Z) (x : Z) : Z :=
  (x + 2 ^ (w - 1)) mod 2 ^ w - 2 ^ (w - 1).

Definition to_jlong (x : Z) : Z := wrap 64 x.
Definition to_int (x : Z) : Z := wrap 32 x.
(** [counter_t] is [unsigned long long]. *)
Definition to_counter (x : Z) : Z := x mod 2 ^ 64.
(** [time_t] is taken to be the 64-bit signed type of the LP64 targets. *)
Definition to_time_t (x : Z) : Z := wrap 64 x.

(** What [printf] writes for [%i] and for [%#x]. *)
Definition string_of_Z (i : Z) : string :=
  NilZero.string_of_int (Z.to_int i).

Definition hex_of_Z (i : Z) : string :=
  let u := i mod 2 ^ 32 in
  if u =? 0 then "0"%string else HexString.of_Z u.

(** ** Managed references and objects *)

Definition jclass := string.

Record jmethodID := MethodID {
  m_class : jclass;
  m_name : string;
  m_sig : string
}.

Inductive ref_kind := LocalRef | GlobalRef.

Inductive jobject :=
| JRef (k : ref_kind) (d : jdata)
with jdata :=
| DString (s : string)
| DArray (elems : list jobject)
| DObject (cls : jclass) (init : list jvalue)
          (calls : list (jmethodID * list jvalue))
with jvalue :=
| JV_boolean (b : bool)
| JV_int (i : Z)
| JV_long (j : Z)
| JV_double (bits : Z)
| JV_object (o : jobject).

Definition ref_kind_of (o : jobject) : ref_kind :=
  match o with JRef k _ => k end.

Definition ref_data (o : jobject) : jdata :=
  match o with JRef _ d => d end.

(** The record of [void] calls received by the object behind a reference. *)
Definition obj_calls (o : jobject) : list (jmethodID * list jvalue) :=
  match ref_data o with
  | DObject _ _ calls => calls
  | _ => []
  end.

(** The JNI call [CallVoidMethod (jvm_env, o, m, args...)]. *)
Definition CallVoidMethod (o : jobject) (m : jmethodID) (args : list jvalue)
  : jobject :=
  match o with
  | JRef k (DObject c i calls) => JRef k (DObject c i (calls ++ [(m, args)]))
  | _ => o
  end.

(** The JNI call [NewGlobalRef (jvm_env, o)]: a global reference to the
    object [o] refers to. *)
Definition NewGlobalRef (o : jobject) : jobject :=
  JRef GlobalRef (ref_data o).

(** ** Native records (collectd's plugin.h and liboconfig's oconfig.h) *)

(** [value_t] is an 8-byte union of [counter_t] and [gauge_t]. *)
Definition value_t := Z.

Record data_source_t := {
  dsrc_name : string;
  dsrc_type : Z;
  dsrc_min : Z;
  dsrc_max : Z
}.

Record data_set_t := {
  ds_type : string;
  ds_ds : list data_source_t
}.

Definition ds_num (ds : data_set_t) : Z := Z.of_nat (List.length (ds_ds ds)).

Record value_list_t := {
  vl_values : list value_t;
  vl_time : Z;
  vl_interval : Z;
  vl_host : string;
  vl_plugin : string;
  vl_plugin_instance : string;
  vl_type : string;
  vl_type_instance : string
}.

Definition values_len (vl : value_list_t) : Z := Z.of_nat (List.length (vl_values vl)).

Inductive oconfig_value_t :=
| OCONFIG_TYPE_STRING (s : string)
| OCONFIG_TYPE_NUMBER (bits : Z)
| OCONFIG_TYPE_BOOLEAN (b : Z)
| OCONFIG_TYPE_other (tag : Z).

Inductive oconfig_item_t :=
| OConfigItem (key : string) (values : list oconfig_value_t)
              (children : list oconfig_item_t).

Definition ci_key (ci : oconfig_item_t) : string :=
  match ci with OConfigItem k _ _ => k end.
Definition ci_values (ci : oconfig_item_t) : list oconfig_value_t :=
  match ci with OConfigItem _ v _ => v end.
Definition ci_children (ci : oconfig_item_t) : list oconfig_item_t :=
  match ci with OConfigItem _ _ c => c end.

(** ** The bridge's own records *)

Record cjni_callback_info_t := {
  cbi_name : string;
  cbi_type : Z;
  cbi_class : option jclass;
  cbi_object : option jobject;
  cbi_method : option jmethodID
}.

Definition CB_TYPE_CONFIG : Z := 1.
Definition CB_TYPE_INIT : Z := 2.
Definition CB_TYPE_READ : Z := 3.
Definition CB_TYPE_WRITE : Z := 4.
Definition CB_TYPE_SHUTDOWN : Z := 5.

Record java_plugin_class_t := {
  jpc_name : string;
  jpc_class : option jclass;
  jpc_object : option jobject
}.

Record java_plugin_config_t := {
  jcfg_name : string;
  jcfg_ci : option oconfig_item_t
}.

Record user_data_t := {
  ud_data : option cjni_callback_info_t
}.

(** ** Calls to the collaborators *)

Inductive severity := LOG_ERR | LOG_WARNING | LOG_NOTICE | LOG_INFO | LOG_DEBUG.

Inductive event :=
| EvAttachCurrentThread (status : Z)
| EvDetachCurrentThread (status : Z)
| EvDestroyJavaVM
| EvNewGlobalRef (o : jobject)
| EvDeleteGlobalRef (o : jobject)
| EvDeleteLocalRef (o : jobject)
| EvCallIntMethod (o : jobject) (m : jmethodID) (args : list jvalue) (ret : Z)
| Ev_plugin_dispatch_values (vl : value_list_t) (status : Z)
| Ev_plugin_register_complex_read (name : string) (cbi : cjni_callback_info_t)
| Ev_plugin_register_write (name : string) (cbi : cjni_callback_info_t)
| Ev_plugin_unregister_read (name : string)
| Ev_plugin_log (level : severity) (msg : string).

(** ** The JVM's function tables *)

Record JNIEnv := {
  FindClass_ok : string -> bool;
  GetMethodID_ok : jclass -> string -> string -> bool;
  NewStringUTF_ok : string -> bool;
  NewObject_ok : jclass -> jmethodID -> list jvalue -> bool;
  GetObjectClass : jobject -> option jclass;
  GetStringUTFChars : jobject -> option string;
  CallObjectMethod : jobject -> jmethodID -> option jobject;
  CallLongMethod : jobject -> jmethodID -> Z;
  CallDoubleMethod : jobject -> jmethodID -> Z;
  GetObjectArrayElement : jobject -> Z -> option jobject;
  (** the status a managed callback returns, given what happened so far *)
  CallIntMethod_status :
    list event -> jobject -> jmethodID -> list jvalue -> Z
}.

Definition FindClass (env : JNIEnv) (name : string) : option jclass :=
  if FindClass_ok env name then Some name else None.

Definition GetMethodID (env : JNIEnv) (c : jclass) (name sig : string)
  : option jmethodID :=
  if GetMethodID_ok env c name sig then Some (MethodID c name sig) else None.

Definition NewStringUTF (env : JNIEnv) (s : string) : option jobject :=
  if NewStringUTF_ok env s then Some (JRef LocalRef (DString s)) else None.

Definition NewObject (env : JNIEnv) (c : jclass) (m : jmethodID)
  (args : list jvalue) : option jobject :=
  if NewObject_ok env c m args then Some (JRef LocalRef (DObject c args []))
  else None.

Record JavaVM := {
  AttachCurrentThread : list event -> Z * JNIEnv;
  DetachCurrentThread : list event -> Z
}.

(** ** The daemon and the C library *)

Inductive alloc_site :=
| calloc_values | malloc_cbi | strdup_cbi_name | realloc_java_callbacks
| malloc_cjni_env | realloc_jvm_argv | strdup_jvm_arg
| realloc_java_classes_list | strdup_class_name
| strdup_block_name | realloc_java_plugin_configs | oconfig_clone_ci.

(** What java.c takes from plugin.h, common.h and the C library: constants,
    the schema registry, the dispatcher, and whether an allocation
    succeeds. *)
Record collectd := {
  DS_TYPE_COUNTER : Z;
  DS_TYPE_GAUGE : Z;
  DATA_MAX_NAME_LEN : nat;
  VALUE_LIST_INIT : value_list_t;
  plugin_get_ds : string -> option data_set_t;
  plugin_dispatch_values_status : list event -> value_list_t -> Z;
  alloc_ok : alloc_site -> bool
}.

(** [sstrncpy (dest, src, n)] of common.c: copy at most [n - 1] characters
    and terminate the buffer. *)
Definition sstrncpy (src : string) (n : nat) : string :=
  substring 0 (n - 1) src.

(** ** Results of the conversion functions *)

Inductive res (A : Type) :=
| Ok (a : A)
| Failed (log : list string)
| Undefined.

Arguments Ok {A} a.
Arguments Failed {A} log.
Arguments Undefined {A}.

(** [if (x == NULL) { ERROR (msg); return (failure); }] *)
Definition nonnull {A B : Type} (x : option A) (msg : string)
  (k : A -> res B) : res B :=
  match x with
  | Some a => k a
  | None => Failed [msg]
  end.

(** [if (status != 0) { ERROR (msg); return (failure); }] after a call to
    another conversion function, which has logged its own lines. *)
Definition checked {A B : Type} (x : res A) (msg : string)
  (k : A -> res B) : res B :=
  match x with
  | Ok a => k a
  | Failed l => Failed (l ++ [msg])
  | Undefined => Undefined
  end.

Declare Scope res_scope.
Delimit Scope res_scope with res.

Notation "'let?' x ':=' e 'orelse' msg 'in' k" :=
  (nonnull e msg (fun x => k))
  (at level 10, x name, e at level 100, msg at level 100,
   k at level 200) : res_scope.

Notation "'try' x ':=' e 'orelse' msg 'in' k" :=
  (checked e msg (fun x => k))
  (at level 10, x name, e at level 100, msg at level 100,
   k at level 200) : res_scope.

Local Open Scope res_scope.

(** ** C to Java conversion functions *)

Section Marshal.

Variable host : collectd.
Variable jvm_env : JNIEnv.

Definition ctoj_string (str : option string) (class_ptr : jclass)
  (object_ptr : jobject) (method_name : string) : res jobject :=
  let? o_string :=
    NewStringUTF jvm_env (match str with Some s => s | None => ""%string end)
    orelse "java plugin: ctoj_string: NewStringUTF failed."%string in
  let? m_set :=
    GetMethodID jvm_env class_ptr method_name "(Ljava/lang/String;)V"
    orelse ("java plugin: ctoj_string: Cannot find method `void "
            ++ method_name ++ " (String)'.")%string in
  Ok (CallVoidMethod object_ptr m_set [JV_object o_string]).

Definition ctoj_int (value : Z) (class_ptr : jclass) (object_ptr : jobject)
  (method_name : string) : res jobject :=
  let? m_set := GetMethodID jvm_env class_ptr method_name "(I)V"
    orelse ("java plugin: ctoj_int: Cannot find method `void "
            ++ method_name ++ " (int)'.")%string in
  Ok (CallVoidMethod object_ptr m_set [JV_int value]).

Definition ctoj_long (value : Z) (class_ptr : jclass) (object_ptr : jobject)
  (method_name : string) : res jobject :=
  let? m_set := GetMethodID jvm_env class_ptr method_name "(J)V"
    orelse ("java plugin: ctoj_long: Cannot find method `void "
            ++ method_name ++ " (long)'.")%string in
  Ok (CallVoidMethod object_ptr m_set [JV_long value]).

Definition ctoj_double (value : Z) (class_ptr : jclass) (object_ptr : jobject)
  (method_name : string) : res jobject :=
  let? m_set := GetMethodID jvm_env class_ptr method_name "(D)V"
    orelse ("java plugin: ctoj_double: Cannot find method `void "
            ++ method_name ++ " (double)'.")%string in
  Ok (CallVoidMethod object_ptr m_set [JV_double value]).

(** [return (NewObject (...))]: a [NULL] here is returned without a line. *)
Definition returned {A : Type} (x : option A) : res A :=
  match x with
  | Some a => Ok a
  | None => Failed []
  end.

(** The two views of the union [value_t]. *)
Definition value_counter (v : value_t) : Z := to_counter v.
Definition value_gauge (v : value_t) : Z := v mod 2 ^ 64.

Definition ctoj_jlong_to_number (value : Z) : res jobject :=
  let? c_long := FindClass jvm_env "java.lang.Long"
    orelse "java plugin: ctoj_jlong_to_number: Looking up the java.lang.Long class failed."%string in
  let? m_long_constructor := GetMethodID jvm_env c_long "<init>" "(J)V"
    orelse "java plugin: ctoj_jlong_to_number: Looking up the `Long (long)' constructor failed."%string in
  returned (NewObject jvm_env c_long m_long_constructor [JV_long value]).

Definition ctoj_jdouble_to_number (value : Z) : res jobject :=
  let? c_double := FindClass jvm_env "java.lang.Double"
    orelse "java plugin: ctoj_jdouble_to_number: Looking up the java.lang.Double class failed."%string in
  let? m_double_constructor := GetMethodID jvm_env c_double "<init>" "(D)V"
    orelse "java plugin: ctoj_jdouble_to_number: Looking up the `Double (double)' constructor failed."%string in
  returned (NewObject jvm_env c_double m_double_constructor [JV_double value]).

Definition ctoj_value_to_number (value : value_t) (ds_type : Z) : res jobject :=
  if ds_type =? DS_TYPE_COUNTER host then
    ctoj_jlong_to_number (to_jlong (value_counter value))
  else if ds_type =? DS_TYPE_GAUGE host then
    ctoj_jdouble_to_number (value_gauge value)
  else Failed [].

Definition ctoj_data_source (dsrc : data_source_t) : res jobject :=
  let? c_datasource := FindClass jvm_env "org.collectd.api.DataSource"
    orelse "java plugin: ctoj_data_source: FindClass (org.collectd.api.DataSource) failed."%string in
  let? m_datasource_constructor := GetMethodID jvm_env c_datasource "<init>" "()V"
    orelse "java plugin: ctoj_data_source: Cannot find the `DataSource ()' constructor."%string in
  let? o_datasource := NewObject jvm_env c_datasource m_datasource_constructor []
    orelse "java plugin: ctoj_data_source: Creating a new DataSource instance failed."%string in
  try o_datasource :=
    ctoj_string (Some (dsrc_name dsrc)) c_datasource o_datasource "setName"
    orelse "java plugin: ctoj_data_source: ctoj_string (setName) failed."%string in
  try o_datasource :=
    ctoj_int (dsrc_type dsrc) c_datasource o_datasource "setType"
    orelse "java plugin: ctoj_data_source: ctoj_int (setType) failed."%string in
  try o_datasource :=
    ctoj_double (dsrc_min dsrc) c_datasource o_datasource "setMin"
    orelse "java plugin: ctoj_data_source: ctoj_double (setMin) failed."%string in
  try o_datasource :=
    ctoj_double (dsrc_max dsrc) c_datasource o_datasource "setMax"
    orelse "java plugin: ctoj_data_source: ctoj_double (setMax) failed."%string in
  Ok o_datasource.

Definition ctoj_oconfig_value (ocvalue : oconfig_value_t) : res jobject :=
  let? c_ocvalue := FindClass jvm_env "org.collectd.api.OConfigValue"
    orelse "java plugin: ctoj_oconfig_value: FindClass (org.collectd.api.OConfigValue) failed."%string in
  match ocvalue with
  | OCONFIG_TYPE_BOOLEAN b =>
      let tmp_boolean := if b =? 0 then false else true in
      let? m_ocvalue_constructor := GetMethodID jvm_env c_ocvalue "<init>" "(Z)V"
        orelse "java plugin: ctoj_oconfig_value: Cannot find the `OConfigValue (boolean)' constructor."%string in
      returned (NewObject jvm_env c_ocvalue m_ocvalue_constructor
                  [JV_boolean tmp_boolean])
  | OCONFIG_TYPE_STRING s =>
      let? m_ocvalue_constructor :=
        GetMethodID jvm_env c_ocvalue "<init>" "(Ljava/lang/String;)V"
        orelse "java plugin: ctoj_oconfig_value: Cannot find the `OConfigValue (String)' constructor."%string in
      let? o_argument := NewStringUTF jvm_env s
        orelse "java plugin: ctoj_oconfig_value: Creating a String object failed."%string in
      let? o_ocvalue :=
        NewObject jvm_env c_ocvalue m_ocvalue_constructor [JV_object o_argument]
        orelse "java plugin: ctoj_oconfig_value: Creating an OConfigValue object failed."%string in
      Ok o_ocvalue
  | OCONFIG_TYPE_NUMBER number =>
      let? m_ocvalue_constructor :=
        GetMethodID jvm_env c_ocvalue "<init>" "(Ljava/lang/Number;)V"
        orelse "java plugin: ctoj_oconfig_value: Cannot find the `OConfigValue (Number)' constructor."%string in
      try o_argument := ctoj_jdouble_to_number number
        orelse "java plugin: ctoj_oconfig_value: Creating a Number object failed."%string in
      let? o_ocvalue :=
        NewObject jvm_env c_ocvalue m_ocvalue_constructor [JV_object o_argument]
        orelse "java plugin: ctoj_oconfig_value: Creating an OConfigValue object failed."%string in
      Ok o_ocvalue
  | OCONFIG_TYPE_other _ => Failed []
  end.

(** The first loop of [ctoj_oconfig_item]:
    [for (i = 0; i < ci->values_num; i++)]. *)
Fixpoint ctoj_oconfig_item_values (m_addvalue : jmethodID)
  (values : list oconfig_value_t) (o_ocitem : jobject) : res jobject :=
  match values with
  | [] => Ok o_ocitem
  | v :: rest =>
      try o_value := ctoj_oconfig_value v
        orelse "java plugin: ctoj_oconfig_item: Creating an OConfigValue object failed."%string in
      ctoj_oconfig_item_values m_addvalue rest
        (CallVoidMethod o_ocitem m_addvalue [JV_object o_value])
  end.

(** The second loop of [ctoj_oconfig_item]:
    [for (i = 0; i < ci->children_num; i++)], over the recursive call
    [self].  The method handle the source passes to [CallVoidMethod] in
    this loop is [m_addvalue]. *)
Fixpoint ctoj_oconfig_item_children (self : oconfig_item_t -> res jobject)
  (m_addvalue : jmethodID) (children : list oconfig_item_t)
  (o_ocitem : jobject) : res jobject :=
  match children with
  | [] => Ok o_ocitem
  | child :: rest =>
      try o_child := self child
        orelse "java plugin: ctoj_oconfig_item: Creating an OConfigItem object failed."%string in
      ctoj_oconfig_item_children self m_addvalue rest
        (CallVoidMethod o_ocitem m_addvalue [JV_object o_child])
  end.

Fixpoint ctoj_oconfig_item (ci : oconfig_item_t) : res jobject :=
  match ci with
  | OConfigItem key values children =>
  let? c_ocitem := FindClass jvm_env "org.collectd.api.OConfigItem"
    orelse "java plugin: ctoj_oconfig_item: FindClass (org.collectd.api.OConfigItem) failed."%string in
  let? m_ocitem_constructor :=
    GetMethodID jvm_env c_ocitem "<init>" "(Ljava/lang/String;)V"
    orelse "java plugin: ctoj_oconfig_item: Cannot find the `OConfigItem (String)' constructor."%string in
  let? m_addvalue :=
    GetMethodID jvm_env c_ocitem "addValue" "(Lorg/collectd/api/OConfigValue;)V"
    orelse "java plugin: ctoj_oconfig_item: Cannot find the `addValue (OConfigValue)' method."%string in
  let? m_addchild :=
    GetMethodID jvm_env c_ocitem "addChild" "(Lorg/collectd/api/OConfigItem;)V"
    orelse "java plugin: ctoj_oconfig_item: Cannot find the `addChild (OConfigItem)' method."%string in
  let? o_key := NewStringUTF jvm_env key
    orelse "java plugin: ctoj_oconfig_item: Creating String object failed."%string in
  let? o_ocitem := NewObject jvm_env c_ocitem m_ocitem_constructor [JV_object o_key]
    orelse "java plugin: ctoj_oconfig_item: Creating an OConfigItem object failed."%string in
  (* Call OConfigItem.addValue for each value *)
  match ctoj_oconfig_item_values m_addvalue values o_ocitem with
  | Ok o_ocitem =>
      (* Call OConfigItem.addChild for each child *)
      ctoj_oconfig_item_children ctoj_oconfig_item m_addvalue children o_ocitem
  | Failed l => Failed l
  | Undefined => Undefined
  end
  end.

Fixpoint ctoj_data_set_sources (ds : data_set_t) (m_add : jmethodID)
  (sources : list data_source_t) (o_dataset : jobject) : res jobject :=
  match sources with
  | [] => Ok o_dataset
  | dsrc :: rest =>
      try o_datasource := ctoj_data_source dsrc
        orelse ("java plugin: ctoj_data_set: ctoj_data_source ("
                ++ ds_type ds ++ "." ++ dsrc_name dsrc ++ ") failed")%string in
      ctoj_data_set_sources ds m_add rest
        (CallVoidMethod o_dataset m_add [JV_object o_datasource])
  end.

Definition ctoj_data_set (ds : data_set_t) : res jobject :=
  let? c_dataset := FindClass jvm_env "org.collectd.api.DataSet"
    orelse "java plugin: ctoj_data_set: Looking up the org.collectd.api.DataSet class failed."%string in
  let? m_constructor :=
    GetMethodID jvm_env c_dataset "<init>" "(Ljava.lang.String;)V"
    orelse "java plugin: ctoj_data_set: Looking up the `DataSet (String)' constructor failed."%string in
  let? m_add :=
    GetMethodID jvm_env c_dataset "addDataSource" "(Lorg.collectd.api.DataSource;)V"
    orelse "java plugin: ctoj_data_set: Looking up the `addDataSource (DataSource)' method failed."%string in
  let? o_type := NewStringUTF jvm_env (ds_type ds)
    orelse "java plugin: ctoj_data_set: Creating a String object failed."%string in
  let? o_dataset := NewObject jvm_env c_dataset m_constructor [JV_object o_type]
    orelse "java plugin: ctoj_data_set: Creating a DataSet object failed."%string in
  ctoj_data_set_sources ds m_add (ds_ds ds) o_dataset.

Definition ctoj_value_list_add_value (value : value_t) (ds_type : Z)
  (class_ptr : jclass) (object_ptr : jobject) : res jobject :=
  let? m_addvalue :=
    GetMethodID jvm_env class_ptr "addValue" "(Ljava/lang/Number;)V"
    orelse "java plugin: ctoj_value_list_add_value: Cannot find method `void addValue (Number)'."%string in
  try o_number := ctoj_value_to_number value ds_type
    orelse "java plugin: ctoj_value_list_add_value: ctoj_value_to_number failed."%string in
  Ok (CallVoidMethod object_ptr m_addvalue [JV_object o_number]).

Definition ctoj_value_list_add_data_set (c_valuelist : jclass)
  (o_valuelist : jobject) (ds : data_set_t) : res jobject :=
  let? m_setdataset :=
    GetMethodID jvm_env c_valuelist "setDataSet" "(Lorg.collectd.api.DataSet;)V"
    orelse "java plugin: ctoj_value_list_add_data_set: Cannot find the `void setDataSet (DataSet)' method."%string in
  try o_dataset := ctoj_data_set ds
    orelse ("java plugin: ctoj_value_list_add_data_set: ctoj_data_set ("
            ++ ds_type ds ++ ") failed.")%string in
  Ok (CallVoidMethod o_valuelist m_setdataset [JV_object o_dataset]).

(** The loop [for (i = 0; i < vl->values_len; i++)] of [ctoj_value_list];
    [ds->ds[i]] is read without a bound check. *)
Fixpoint ctoj_value_list_values (ds : data_set_t) (c_valuelist : jclass)
  (values : list value_t) (i : nat) (o_valuelist : jobject) : res jobject :=
  match values with
  | [] => Ok o_valuelist
  | v :: rest =>
      match nth_error (ds_ds ds) i with
      | None => Undefined
      | Some dsrc =>
          try o_valuelist :=
            ctoj_value_list_add_value v (dsrc_type dsrc) c_valuelist o_valuelist
            orelse "java plugin: ctoj_value_list: ctoj_value_list_add_value failed."%string in
          ctoj_value_list_values ds c_valuelist rest (S i) o_valuelist
      end
  end.

Definition ctoj_value_list (ds : data_set_t) (vl : value_list_t) : res jobject :=
  let? c_valuelist := FindClass jvm_env "org.collectd.api.ValueList"
    orelse "java plugin: ctoj_value_list: FindClass (org.collectd.api.ValueList) failed."%string in
  let? m_valuelist_constructor := GetMethodID jvm_env c_valuelist "<init>" "()V"
    orelse "java plugin: ctoj_value_list: Cannot find the `ValueList ()' constructor."%string in
  let? o_valuelist := NewObject jvm_env c_valuelist m_valuelist_constructor []
    orelse "java plugin: ctoj_value_list: Creating a new ValueList instance failed."%string in
  try o_valuelist := ctoj_value_list_add_data_set c_valuelist o_valuelist ds
    orelse "java plugin: ctoj_value_list: ctoj_value_list_add_data_set failed."%string in
  let SET_STRING (str method_name : string) (o : jobject) (k : jobject -> res jobject) :=
    checked (ctoj_string (Some str) c_valuelist o method_name)
      ("java plugin: ctoj_value_list: jtoc_string (" ++ method_name ++ ") failed.")%string
      k in
  SET_STRING (vl_host vl) "setHost"%string o_valuelist (fun o_valuelist =>
  SET_STRING (vl_plugin vl) "setPlugin"%string o_valuelist (fun o_valuelist =>
  SET_STRING (vl_plugin_instance vl) "setPluginInstance"%string o_valuelist (fun o_valuelist =>
  SET_STRING (vl_type vl) "setType"%string o_valuelist (fun o_valuelist =>
  SET_STRING (vl_type_instance vl) "setTypeInstance"%string o_valuelist (fun o_valuelist =>
  (* Set the `time' member. Java stores time in milliseconds. *)
  try o_valuelist :=
    ctoj_long (to_jlong (to_jlong (vl_time vl) * to_jlong 1000))
      c_valuelist o_valuelist "setTime"
    orelse "java plugin: ctoj_value_list: ctoj_long (setTime) failed."%string in
  (* Set the `interval' member.. *)
  try o_valuelist :=
    ctoj_long (to_jlong (vl_interval vl)) c_valuelist o_valuelist "setInterval"
    orelse "java plugin: ctoj_value_list: ctoj_long (setInterval) failed."%string in
  ctoj_value_list_values ds c_valuelist (vl_values vl) 0 o_valuelist))))).

(** ** Java to C conversion functions *)

Definition jtoc_string (buffer_size : nat) (class_ptr : jclass)
  (object_ptr : jobject) (method_name : string) : res string :=
  let? method_id :=
    GetMethodID jvm_env class_ptr method_name "()Ljava/lang/String;"
    orelse ("java plugin: jtoc_string: Cannot find method `String "
            ++ method_name ++ " ()'.")%string in
  let? string_obj := CallObjectMethod jvm_env object_ptr method_id
    orelse ("java plugin: jtoc_string: CallObjectMethod ("
            ++ method_name ++ ") failed.")%string in
  let? c_str := GetStringUTFChars jvm_env string_obj
    orelse "java plugin: jtoc_string: GetStringUTFChars failed."%string in
  Ok (sstrncpy c_str buffer_size).

Definition jtoc_long (class_ptr : jclass) (object_ptr : jobject)
  (method_name : string) : res Z :=
  let? method_id := GetMethodID jvm_env class_ptr method_name "()J"
    orelse ("java plugin: jtoc_long: Cannot find method `long "
            ++ method_name ++ " ()'.")%string in
  Ok (to_jlong (CallLongMethod jvm_env object_ptr method_id)).

Definition jtoc_double (class_ptr : jclass) (object_ptr : jobject)
  (method_name : string) : res Z :=
  let? method_id := GetMethodID jvm_env class_ptr method_name "()D"
    orelse ("java plugin: jtoc_string: Cannot find method `double "
            ++ method_name ++ " ()'.")%string in
  Ok (CallDoubleMethod jvm_env object_ptr method_id).

(** [GetObjectClass] is not checked here: a [NULL] class goes straight
    into [GetMethodID]. *)
Definition jtoc_value (ds_type : Z) (object_ptr : jobject) : res value_t :=
  match GetObjectClass jvm_env object_ptr with
  | None => Undefined
  | Some class_ptr =>
      if ds_type =? DS_TYPE_COUNTER host then
        try tmp_long := jtoc_long class_ptr object_ptr "longValue"
          orelse "java plugin: jtoc_value: jtoc_long failed."%string in
        Ok (to_counter tmp_long)
      else
        try tmp_double := jtoc_double class_ptr object_ptr "doubleValue"
          orelse "java plugin: jtoc_value: jtoc_double failed."%string in
        Ok tmp_double
  end.

(** The loop [for (i = 0; i < values_num; i++)] of [jtoc_values_array]. *)
Fixpoint jtoc_values_array_loop (o_number_array : jobject)
  (sources : list data_source_t) (i : Z) : res (list value_t) :=
  match sources with
  | [] => Ok []
  | dsrc :: rest =>
      let? o_number := GetObjectArrayElement jvm_env o_number_array i
        orelse ("java plugin: jtoc_values_array: GetObjectArrayElement ("
                ++ string_of_Z i ++ ") failed.")%string in
      try v := jtoc_value (dsrc_type dsrc) o_number
        orelse ("java plugin: jtoc_values_array: jtoc_value ("
                ++ string_of_Z i ++ ") failed.")%string in
      match jtoc_values_array_loop o_number_array rest (i + 1) with
      | Ok vs => Ok (v :: vs)
      | Failed l => Failed l
      | Undefined => Undefined
      end
  end.

Definition jtoc_values_array (ds : data_set_t) (vl : value_list_t)
  (class_ptr : jclass) (object_ptr : jobject) : res value_list_t :=
  let? m_getvalues := GetMethodID jvm_env class_ptr "getValues" "()Ljava/util/List;"
    orelse "java plugin: jtoc_values_array: Cannot find method `List getValues ()'."%string in
  let? o_list := CallObjectMethod jvm_env object_ptr m_getvalues
    orelse "java plugin: jtoc_values_array: CallObjectMethod (getValues) failed."%string in
  match GetObjectClass jvm_env o_list with
  | None => Undefined
  | Some c_list =>
  let? m_toarray := GetMethodID jvm_env c_list "toArray" "()[Ljava/lang/Object;"
    orelse "java plugin: jtoc_values_array: Cannot find method `Object[] toArray ()'."%string in
  let? o_number_array := CallObjectMethod jvm_env o_list m_toarray
    orelse "java plugin: jtoc_values_array: CallObjectMethod (toArray) failed."%string in
  if negb (alloc_ok host calloc_values) then
    Failed ["java plugin: jtoc_values_array: calloc failed."%string]
  else
    match jtoc_values_array_loop o_number_array (ds_ds ds) 0 with
    | Ok values =>
        Ok {| vl_values := values;
              vl_time := vl_time vl;
              vl_interval := vl_interval vl;
              vl_host := vl_host vl;
              vl_plugin := vl_plugin vl;
              vl_plugin_instance := vl_plugin_instance vl;
              vl_type := vl_type vl;
              vl_type_instance := vl_type_instance vl |}
    | Failed l => Failed l
    | Undefined => Undefined
    end
  end.

Definition jtoc_value_list (vl : value_list_t) (object_ptr : jobject)
  : res value_list_t :=
  let? class_ptr := GetObjectClass jvm_env object_ptr
    orelse "java plugin: jtoc_value_list: GetObjectClass failed."%string in
  let SET_STRING {B : Type} (method : string) (k : string -> res B) :=
    checked (jtoc_string (DATA_MAX_NAME_LEN host) class_ptr object_ptr method)
      ("java plugin: jtoc_value_list: jtoc_string (" ++ method ++ ") failed.")%string
      k in
  SET_STRING "getType"%string (fun type =>
  let? ds := plugin_get_ds host type
    orelse ("java plugin: jtoc_value_list: Data-set `" ++ type
            ++ "' is not defined. Please consult the types.db(5) manpage for mor information.")%string in
  SET_STRING "getHost"%string (fun host_ =>
  SET_STRING "getPlugin"%string (fun plugin =>
  SET_STRING "getPluginInstance"%string (fun plugin_instance =>
  SET_STRING "getTypeInstance"%string (fun type_instance =>
  try tmp_long := jtoc_long class_ptr object_ptr "getTime"
    orelse "java plugin: jtoc_value_list: jtoc_long (getTime) failed."%string in
  (* Java measures time in milliseconds. *)
  let time := to_time_t (Z.quot tmp_long (to_jlong 1000)) in
  try tmp_long := jtoc_long class_ptr object_ptr "getInterval"
    orelse "java plugin: jtoc_value_list: jtoc_long (getInterval) failed."%string in
  let interval := to_int tmp_long in
  try vl := jtoc_values_array ds
      {| vl_values := vl_values vl;
         vl_time := time;
         vl_interval := interval;
         vl_host := host_;
         vl_plugin := plugin;
         vl_plugin_instance := plugin_instance;
         vl_type := type;
         vl_type_instance := type_instance |}
      class_ptr object_ptr
    orelse "java plugin: jtoc_value_list: jtoc_values_array failed."%string in
  Ok vl))))).

End Marshal.

(** ** Global variables of java.c and the state monad of the entry points *)

Record cjni_jvm_env_t := {
  jvm_env : option JNIEnv;
  reference_counter : Z
}.

Record world := {
  jvm : option JavaVM;
  (** the value [pthread_getspecific (jvm_env_key)] has in this thread *)
  jvm_env_key : option cjni_jvm_env_t;
  jvm_argv : list string;
  java_classes_list : list java_plugin_class_t;
  java_plugin_configs : list java_plugin_config_t;
  java_callbacks : list cjni_callback_info_t;
  trace : list event
}.

Definition set_jvm (v : option JavaVM) (w : world) : world :=
  {| jvm := v; jvm_env_key := jvm_env_key w; jvm_argv := jvm_argv w;
     java_classes_list := java_classes_list w;
     java_plugin_configs := java_plugin_configs w;
     java_callbacks := java_callbacks w; trace := trace w |}.

Definition set_jvm_env_key (v : option cjni_jvm_env_t) (w : world) : world :=
  {| jvm := jvm w; jvm_env_key := v; jvm_argv := jvm_argv w;
     java_classes_list := java_classes_list w;
     java_plugin_configs := java_plugin_configs w;
     java_callbacks := java_callbacks w; trace := trace w |}.

Definition set_jvm_argv (v : list string) (w : world) : world :=
  {| jvm := jvm w; jvm_env_key := jvm_env_key w; jvm_argv := v;
     java_classes_list := java_classes_list w;
     java_plugin_configs := java_plugin_configs w;
     java_callbacks := java_callbacks w; trace := trace w |}.

Definition set_java_classes_list (v : list java_plugin_class_t) (w : world)
  : world :=
  {| jvm := jvm w; jvm_env_key := jvm_env_key w; jvm_argv := jvm_argv w;
     java_classes_list := v;
     java_plugin_configs := java_plugin_configs w;
     java_callbacks := java_callbacks w; trace := trace w |}.

Definition set_java_plugin_configs (v : list java_plugin_config_t) (w : world)
  : world :=
  {| jvm := jvm w; jvm_env_key := jvm_env_key w; jvm_argv := jvm_argv w;
     java_classes_list := java_classes_list w;
     java_plugin_configs := v;
     java_callbacks := java_callbacks w; trace := trace w |}.

Definition set_java_callbacks (v : list cjni_callback_info_t) (w : world)
  : world :=
  {| jvm := jvm w; jvm_env_key := jvm_env_key w; jvm_argv := jvm_argv w;
     java_classes_list := java_classes_list w;
     java_plugin_configs := java_plugin_configs w;
     java_callbacks := v; trace := trace w |}.

Definition set_trace (v : list event) (w : world) : world :=
  {| jvm := jvm w; jvm_env_key := jvm_env_key w; jvm_argv := jvm_argv w;
     java_classes_list := java_classes_list w;
     java_plugin_configs := java_plugin_configs w;
     java_callbacks := java_callbacks w; trace := v |}.

Definition M (A : Type) : Type := world -> option (A * world).

Definition ret {A : Type} (a : A) : M A := fun w => Some (a, w).

Definition bind {A B : Type} (m : M A) (k : A -> M B) : M B :=
  fun w =>
    match m w with
    | Some (a, w') => k a w'
    | None => None
    end.

(** A failed [assert], a [NULL] dereference: the call does not return. *)
Definition abort {A : Type} : M A := fun _ => None.

Definition read {A : Type} (f : world -> A) : M A := fun w => Some (f w, w).

Definition update (f : world -> world) : M unit := fun w => Some (tt, f w).

Definition emit (e : event) : M unit :=
  update (fun w => set_trace (trace w ++ [e]) w).

Definition assert (b : bool) : M unit := if b then ret tt else abort.

Declare Scope M_scope.
Delimit Scope M_scope with M.

Notation "x <- m ;; k" := (bind m (fun x => k))
  (at level 61, m at next level, right associativity) : M_scope.
Notation "m ;; k" := (bind m (fun _ => k))
  (at level 61, right associativity) : M_scope.

Local Open Scope M_scope.

Definition ERROR (msg : string) : M unit := emit (Ev_plugin_log LOG_ERR msg).
Definition WARNING (msg : string) : M unit := emit (Ev_plugin_log LOG_WARNING msg).
Definition NOTICE (msg : string) : M unit := emit (Ev_plugin_log LOG_NOTICE msg).

(** The lines a failed conversion wrote with [ERROR]. *)
Fixpoint ERRORS (log : list string) : M unit :=
  match log with
  | [] => ret tt
  | msg :: rest => ERROR msg ;; ERRORS rest
  end.

(** [CallIntMethod (jvm_env, object, method, args...)] on a registered
    callback; the JVM is entered with a [NULL] object or method only at
    the price of a crash. *)
Definition CallIntMethod (env : JNIEnv) (object : option jobject)
  (method : option jmethodID) (args : list jvalue) : M Z :=
  match object, method with
  | Some o, Some m =>
      t <- read trace ;;
      let status := CallIntMethod_status env t o m args in
      emit (EvCallIntMethod o m args status) ;;
      ret status
  | _, _ => abort
  end.

(** [DeleteGlobalRef (jvm_env, object)].  A [NULL] reference releases
    nothing: [cjni_shutdown] tests for it before the call, and JNI ignores
    it elsewhere. *)
Definition DeleteGlobalRef (object : option jobject) : M unit :=
  match object with
  | Some o => emit (EvDeleteGlobalRef o)
  | None => ret tt
  end.

Definition dquote : string :=
  String (Ascii.Ascii false true false false false true false false) EmptyString.

Section Bridge.

Variable host : collectd.

Definition plugin_dispatch_values (vl : value_list_t) : M Z :=
  t <- read trace ;;
  let status := plugin_dispatch_values_status host t vl in
  emit (Ev_plugin_dispatch_values vl status) ;;
  ret status.

(** *** Functions accessible from Java *)

Definition cjni_api_dispatch_values (env : JNIEnv) (java_vl : jobject) : M Z :=
  match jtoc_value_list host env (VALUE_LIST_INIT host) java_vl with
  | Failed log =>
      ERRORS log ;;
      ERROR "java plugin: cjni_api_dispatch_values: jtoc_value_list failed." ;;
      ret (-1)
  | Undefined => abort
  | Ok vl =>
      status <- plugin_dispatch_values vl ;;
      ret status
  end.

(** *** Allocation of callback descriptors *)

Definition cjni_callback_info_create (env : JNIEnv) (o_name o_callback : jobject)
  (type : Z) : M (option cjni_callback_info_t) :=
  let signature : option (string * string) :=
    if type =? CB_TYPE_CONFIG then
      Some ("Config", "(Lorg/collectd/api/OConfigItem;)I")%string
    else if type =? CB_TYPE_INIT then Some ("Init", "()I")%string
    else if type =? CB_TYPE_READ then Some ("Read", "()I")%string
    else if type =? CB_TYPE_WRITE then
      Some ("Write", "(Lorg/collectd/api/ValueList;)I")%string
    else if type =? CB_TYPE_SHUTDOWN then Some ("Shutdown", "()I")%string
    else None in
  match signature with
  | None =>
      ERROR ("java plugin: cjni_callback_info_create: Unknown type: "
             ++ hex_of_Z type) ;;
      ret None
  | Some (method_name, method_signature) =>
  match GetStringUTFChars env o_name with
  | None =>
      ERROR "java plugin: cjni_callback_info_create: GetStringUTFChars failed." ;;
      ret None
  | Some c_name =>
  if negb (alloc_ok host malloc_cbi) then
    ERROR "java plugin: cjni_callback_info_create: malloc failed." ;;
    ret None
  else if negb (alloc_ok host strdup_cbi_name) then
    (* the source also unlocks java_callbacks_lock here, which it does not
       hold; locks are outside this single-thread model *)
    ERROR "java plugin: cjni_callback_info_create: strdup failed." ;;
    ret None
  else
  match GetObjectClass env o_callback with
  | None =>
      ERROR "java plugin: cjni_callback_info_create: GetObjectClass failed." ;;
      ret None
  | Some class =>
  (* cbi->object = o_callback; *)
  let object := o_callback in
  match GetMethodID env class method_name method_signature with
  | None =>
      ERROR ("java plugin: cjni_callback_info_create: Cannot find the `"
             ++ method_name ++ "' method with signature `"
             ++ method_signature ++ "'.") ;;
      ret None
  | Some method =>
      (* the value of NewGlobalRef is not used *)
      emit (EvNewGlobalRef o_callback) ;;
      ret (Some {| cbi_name := c_name;
                   cbi_type := type;
                   cbi_class := Some class;
                   cbi_object := Some object;
                   cbi_method := Some method |})
  end end end end.

Definition cjni_callback_register (env : JNIEnv) (o_name o_callback : jobject)
  (type : Z) : M Z :=
  r <- cjni_callback_info_create env o_name o_callback type ;;
  match r with
  | None => ret (-1)
  | Some cbi =>
      if negb (alloc_ok host realloc_java_callbacks) then
        ERROR "java plugin: cjni_callback_register: realloc failed." ;;
        DeleteGlobalRef (cbi_object cbi) ;;
        ret (-1)
      else
        update (fun w => set_java_callbacks (java_callbacks w ++ [cbi]) w) ;;
        ret 0
  end.

Definition cjni_api_register_config (env : JNIEnv) (o_name o_config : jobject)
  : M Z :=
  cjni_callback_register env o_name o_config CB_TYPE_CONFIG.

Definition cjni_api_register_init (env : JNIEnv) (o_name o_config : jobject)
  : M Z :=
  cjni_callback_register env o_name o_config CB_TYPE_INIT.

Definition cjni_api_register_shutdown (env : JNIEnv)
  (o_name o_shutdown : jobject) : M Z :=
  cjni_callback_register env o_name o_shutdown CB_TYPE_SHUTDOWN.

Definition cjni_api_register_read (env : JNIEnv) (o_name o_read : jobject)
  : M Z :=
  r <- cjni_callback_info_create env o_name o_read CB_TYPE_READ ;;
  match r with
  | None => ret (-1)
  | Some cbi =>
      emit (Ev_plugin_register_complex_read (cbi_name cbi) cbi) ;;
      emit (EvDeleteLocalRef o_read) ;;
      ret 0
  end.

Definition cjni_api_register_write (env : JNIEnv) (o_name o_write : jobject)
  : M Z :=
  r <- cjni_callback_info_create env o_name o_write CB_TYPE_WRITE ;;
  match r with
  | None => ret (-1)
  | Some cbi =>
      emit (Ev_plugin_register_write (cbi_name cbi) cbi) ;;
      emit (EvDeleteLocalRef o_write) ;;
      ret 0
  end.

(** *** Thread attachment *)

(** Increase the reference counter to the JVM for this thread. If it was
    zero, attach the JVM first. *)
Definition cjni_thread_attach : M (option JNIEnv) :=
  slot <- read jvm_env_key ;;
  allocated <-
    match slot with
    | Some cjni_env => ret (Some cjni_env)
    | None =>
        if negb (alloc_ok host malloc_cjni_env) then ret None
        else
          let cjni_env := {| jvm_env := None; reference_counter := 0 |} in
          update (set_jvm_env_key (Some cjni_env)) ;;
          ret (Some cjni_env)
    end ;;
  match allocated with
  | None =>
      ERROR "java plugin: cjni_thread_attach: malloc failed." ;;
      ret None
  | Some cjni_env =>
      if 0 <? reference_counter cjni_env then
        update (set_jvm_env_key
                  (Some {| jvm_env := jvm_env cjni_env;
                           reference_counter :=
                             to_int (reference_counter cjni_env + 1) |})) ;;
        (* assert (jvm_env != NULL); *)
        match jvm_env cjni_env with
        | Some env => ret (Some env)
        | None => abort
        end
      else
        assert (match jvm_env cjni_env with None => true | Some _ => false end) ;;
        vm <- read jvm ;;
        match vm with
        | None => abort
        | Some vm =>
            t <- read trace ;;
            let (status, env) := AttachCurrentThread vm t in
            emit (EvAttachCurrentThread status) ;;
            if negb (status =? 0) then
              ERROR ("java plugin: cjni_thread_attach: AttachCurrentThread failed with status "
                     ++ string_of_Z status ++ ".") ;;
              ret None
            else
              update (set_jvm_env_key
                        (Some {| jvm_env := Some env; reference_counter := 1 |})) ;;
              ret (Some env)
        end
  end.

(** Decrease the reference counter of this thread. If it reaches zero,
    detach from the JVM. *)
Definition cjni_thread_detach : M Z :=
  slot <- read jvm_env_key ;;
  match slot with
  | None =>
      ERROR "java plugin: cjni_thread_detach: pthread_getspecific failed." ;;
      ret (-1)
  | Some cjni_env =>
      assert (0 <? reference_counter cjni_env) ;;
      assert (match jvm_env cjni_env with Some _ => true | None => false end) ;;
      let counter := to_int (reference_counter cjni_env - 1) in
      update (set_jvm_env_key
                (Some {| jvm_env := jvm_env cjni_env;
                         reference_counter := counter |})) ;;
      if 0 <? counter then ret 0
      else
        vm <- read jvm ;;
        match vm with
        | None => abort
        | Some vm =>
            t <- read trace ;;
            let status := DetachCurrentThread vm t in
            emit (EvDetachCurrentThread status) ;;
            (if negb (status =? 0) then
               ERROR ("java plugin: cjni_thread_detach: DetachCurrentThread failed with status "
                      ++ string_of_Z status ++ ".")
             else ret tt) ;;
            update (set_jvm_env_key
                      (Some {| jvm_env := None; reference_counter := 0 |})) ;;
            ret 0
        end
  end.

(** *** Configuration *)

Definition cjni_config_add_jvm_arg (ci : oconfig_item_t) : M Z :=
  match ci_values ci with
  | [OCONFIG_TYPE_STRING arg] =>
      if negb (alloc_ok host realloc_jvm_argv) then
        ERROR "java plugin: realloc failed." ;; ret (-1)
      else if negb (alloc_ok host strdup_jvm_arg) then
        ERROR "java plugin: strdup failed." ;; ret (-1)
      else
        update (fun w => set_jvm_argv (jvm_argv w ++ [arg]) w) ;;
        ret 0
  | _ =>
      WARNING "java plugin: `JVMArg' needs exactly one string argument." ;;
      ret (-1)
  end.

Definition cjni_config_load_plugin (ci : oconfig_item_t) : M Z :=
  match ci_values ci with
  | [OCONFIG_TYPE_STRING name] =>
      if negb (alloc_ok host realloc_java_classes_list) then
        ERROR "java plugin: realloc failed." ;; ret (-1)
      else if negb (alloc_ok host strdup_class_name) then
        ERROR "java plugin: strdup failed." ;; ret (-1)
      else
        update (fun w =>
                  set_java_classes_list
                    (java_classes_list w
                     ++ [{| jpc_name := name; jpc_class := None;
                            jpc_object := None |}]) w) ;;
        ret 0
  | _ =>
      WARNING "java plugin: `LoadPlugin' needs exactly one string argument." ;;
      ret (-1)
  end.

(** [strcmp (a, b) == 0] *)
Definition streq (a b : string) : bool := String.eqb a b.

Definition cjni_config_plugin_block (ci : oconfig_item_t) : M Z :=
  match ci_values ci with
  | [OCONFIG_TYPE_STRING value] =>
      if negb (alloc_ok host strdup_block_name) then
        ERROR "java plugin: cjni_config_plugin_block: strdup faiiled." ;;
        ret (-1)
      else
        let name := value in
        configs <- read java_plugin_configs ;;
        if existsb (fun c => streq (jcfg_name c) name) configs then
          WARNING ("java plugin: There is more than one <Plugin "
                   ++ dquote ++ name ++ dquote
                   ++ "> block. This is currently not supported - "
                   ++ "only the first block will be used!") ;;
          ret 0
        else if negb (alloc_ok host realloc_java_plugin_configs) then
          ERROR "java plugin: cjni_config_plugin_block: realloc failed." ;;
          ret (-1)
        else if negb (alloc_ok host oconfig_clone_ci) then
          ERROR ("java plugin: cjni_config_plugin_block: oconfig_clone failed for `"
                 ++ name ++ "'.") ;;
          ret (-1)
        else
          update (fun w =>
                    set_java_plugin_configs
                      (java_plugin_configs w
                       ++ [{| jcfg_name := name; jcfg_ci := Some ci |}]) w) ;;
          ret 0
  | _ =>
      WARNING "java plugin: `Plugin' blocks need exactly one string argument." ;;
      ret (-1)
  end.

Definition tolower (c : Ascii.ascii) : Ascii.ascii :=
  let n := Ascii.nat_of_ascii c in
  if andb (Nat.leb 65 n) (Nat.leb n 90) then Ascii.ascii_of_nat (n + 32) else c.

Fixpoint lowercase (s : string) : string :=
  match s with
  | EmptyString => EmptyString
  | String c rest => String (tolower c) (lowercase rest)
  end.

(** [strcasecmp (a, b) == 0] *)
Definition strcaseeq (a b : string) : bool :=
  String.eqb (lowercase a) (lowercase b).

(** The loop of [cjni_config] over [ci->children], with the two counters. *)
Fixpoint cjni_config_children (children : list oconfig_item_t)
  (success errors : Z) : M (Z * Z) :=
  match children with
  | [] => ret (success, errors)
  | child :: rest =>
      if strcaseeq "JVMArg" (ci_key child) then
        status <- cjni_config_add_jvm_arg child ;;
        if status =? 0 then cjni_config_children rest (success + 1) errors
        else cjni_config_children rest success (errors + 1)
      else if strcaseeq "LoadPlugin" (ci_key child) then
        status <- cjni_config_load_plugin child ;;
        if status =? 0 then cjni_config_children rest (success + 1) errors
        else cjni_config_children rest success (errors + 1)
      else if strcaseeq "Plugin" (ci_key child) then
        status <- cjni_config_plugin_block child ;;
        if status =? 0 then cjni_config_children rest (success + 1) errors
        else cjni_config_children rest success (errors + 1)
      else
        WARNING ("java plugin: Option `" ++ ci_key child
                 ++ "' not allowed here.") ;;
        cjni_config_children rest success (errors + 1)
  end.

Definition cjni_config (ci : oconfig_item_t) : M Z :=
  counters <- cjni_config_children (ci_children ci) 0 0 ;;
  let (success, errors) := counters in
  if andb (success =? 0) (0 <? errors) then
    ERROR "java plugin: All statements failed." ;;
    ret (-1)
  else ret 0.

(** *** Callbacks handed to the daemon *)

(** Free the data contained in the [user_data_t] pointer passed to
    [cjni_read] and [cjni_write]. In particular, delete the global
    reference to the Java object. *)
Definition cjni_callback_info_destroy (arg : option cjni_callback_info_t)
  : M unit :=
  match arg with
  | None => ret tt
  | Some cbi =>
      r <- cjni_thread_attach ;;
      match r with
      | None =>
          ERROR "java plugin: cjni_callback_info_destroy: cjni_thread_attach failed."
      | Some env =>
          DeleteGlobalRef (cbi_object cbi) ;;
          _ <- cjni_thread_detach ;;
          ret tt
      end
  end.

(** Call the CB_TYPE_READ callback pointed to by the [user_data_t]
    pointer. *)
Definition cjni_read (ud : option user_data_t) : M Z :=
  vm <- read jvm ;;
  match vm with
  | None =>
      ERROR "java plugin: cjni_read: jvm == NULL" ;;
      ret (-1)
  | Some _ =>
  match ud with
  | None | Some {| ud_data := None |} =>
      ERROR "java plugin: cjni_read: Invalid user data." ;;
      ret (-1)
  | Some {| ud_data := Some cbi |} =>
      r <- cjni_thread_attach ;;
      match r with
      | None => ret (-1)
      | Some env =>
          status <- CallIntMethod env (cbi_object cbi) (cbi_method cbi) [] ;;
          status <- cjni_thread_detach ;;
          if negb (status =? 0) then
            ERROR "java plugin: cjni_read: cjni_thread_detach failed." ;;
            ret (-1)
          else ret status
      end
  end end.

(** Call the CB_TYPE_WRITE callback pointed to by the [user_data_t]
    pointer. *)
Definition cjni_write (ds : data_set_t) (vl : value_list_t)
  (ud : option user_data_t) : M Z :=
  vm <- read jvm ;;
  match vm with
  | None =>
      ERROR "java plugin: cjni_write: jvm == NULL" ;;
      ret (-1)
  | Some _ =>
  match ud with
  | None | Some {| ud_data := None |} =>
      ERROR "java plugin: cjni_write: Invalid user data." ;;
      ret (-1)
  | Some {| ud_data := Some cbi |} =>
      r <- cjni_thread_attach ;;
      match r with
      | None => ret (-1)
      | Some env =>
          match ctoj_value_list host env ds vl with
          | Undefined => abort
          | Failed log =>
              ERRORS log ;;
              ERROR "java plugin: cjni_write: ctoj_value_list failed." ;;
              ret (-1)
          | Ok vl_java =>
              status <- CallIntMethod env (cbi_object cbi) (cbi_method cbi)
                          [JV_object vl_java] ;;
              emit (EvDeleteLocalRef vl_java) ;;
              status <- cjni_thread_detach ;;
              if negb (status =? 0) then
                ERROR "java plugin: cjni_write: cjni_thread_detach failed." ;;
                ret (-1)
              else ret status
          end
      end
  end end.

(** *** Loading, configuring, initialising and shutting down the plugins *)

Definition cjni_load_plugins_class (env : JNIEnv) (class : java_plugin_class_t)
  : M java_plugin_class_t :=
  let c := FindClass env (jpc_name class) in
  let class := {| jpc_name := jpc_name class; jpc_class := c;
                  jpc_object := jpc_object class |} in
  match c with
  | None =>
      ERROR ("java plugin: cjni_load_plugins: FindClass ("
             ++ jpc_name class ++ ") failed.") ;;
      ret class
  | Some c =>
      match GetMethodID env c "<init>" "()V" with
      | None =>
          ERROR ("java plugin: cjni_load_plugins: Could not find the constructor for `"
                 ++ jpc_name class ++ "'.") ;;
          ret class
      | Some constructor_id =>
          let o := NewObject env c constructor_id [] in
          let class := {| jpc_name := jpc_name class; jpc_class := Some c;
                          jpc_object := o |} in
          match o with
          | None =>
              ERROR ("java plugin: cjni_load_plugins: Could create a new `"
                     ++ jpc_name class ++ "' object.") ;;
              ret class
          | Some o =>
              (* the value of NewGlobalRef is not used *)
              emit (EvNewGlobalRef o) ;;
              ret class
          end
      end
  end.

Fixpoint cjni_load_plugins_loop (env : JNIEnv)
  (classes : list java_plugin_class_t) : M (list java_plugin_class_t) :=
  match classes with
  | [] => ret []
  | class :: rest =>
      class' <- cjni_load_plugins_class env class ;;
      rest' <- cjni_load_plugins_loop env rest ;;
      ret (class' :: rest')
  end.

(** Iterate over [java_classes_list] and create one object of each class. *)
Definition cjni_load_plugins (env : JNIEnv) : M Z :=
  classes <- read java_classes_list ;;
  classes' <- cjni_load_plugins_loop env classes ;;
  update (set_java_classes_list classes') ;;
  ret 0.

(** The inner loop of [cjni_config_plugins]: the first callback of type
    [CB_TYPE_CONFIG] registered under [name]. *)
Fixpoint find_config_callback (name : string)
  (callbacks : list cjni_callback_info_t) : option cjni_callback_info_t :=
  match callbacks with
  | [] => None
  | cb :: rest =>
      if negb (cbi_type cb =? CB_TYPE_CONFIG) then find_config_callback name rest
      else if streq name (cbi_name cb) then Some cb
      else find_config_callback name rest
  end.

Fixpoint cjni_config_plugins_loop (env : JNIEnv)
  (configs : list java_plugin_config_t) : M unit :=
  match configs with
  | [] => ret tt
  | cfg :: rest =>
      match jcfg_ci cfg with
      | None => cjni_config_plugins_loop env rest
      | Some ci =>
          callbacks <- read java_callbacks ;;
          match find_config_callback (jcfg_name cfg) callbacks with
          | None =>
              NOTICE ("java plugin: Configuration for `" ++ jcfg_name cfg
                      ++ "' is present, but no such configuration callback has been registered.") ;;
              cjni_config_plugins_loop env rest
          | Some cb =>
              match ctoj_oconfig_item env ci with
              | Undefined => abort
              | Failed log =>
                  ERRORS log ;;
                  ERROR "java plugin: cjni_config_plugins: ctoj_oconfig_item failed." ;;
                  cjni_config_plugins_loop env rest
              | Ok o_ocitem =>
                  status <- CallIntMethod env (cbi_object cb) (cbi_method cb)
                              [JV_object o_ocitem] ;;
                  WARNING ("java plugin: Config callback for `" ++ jcfg_name cfg
                           ++ "' returned status " ++ string_of_Z status ++ ".") ;;
                  cjni_config_plugins_loop env rest
              end
          end
      end
  end.

(** Iterate over [java_plugin_configs] and [java_callbacks] and call all
    config callback methods for which a configuration is available. *)
Definition cjni_config_plugins (env : JNIEnv) : M Z :=
  configs <- read java_plugin_configs ;;
  cjni_config_plugins_loop env configs ;;
  ret 0.

Fixpoint cjni_init_plugins_loop (env : JNIEnv)
  (callbacks : list cjni_callback_info_t) : M unit :=
  match callbacks with
  | [] => ret tt
  | cb :: rest =>
      if negb (cbi_type cb =? CB_TYPE_INIT) then cjni_init_plugins_loop env rest
      else
        status <- CallIntMethod env (cbi_object cb) (cbi_method cb) [] ;;
        (if negb (status =? 0) then
           ERROR ("java plugin: Initializing `" ++ cbi_name cb
                  ++ "' failed with status " ++ string_of_Z status
                  ++ ". Removing read function.") ;;
           emit (Ev_plugin_unregister_read (cbi_name cb))
         else ret tt) ;;
        cjni_init_plugins_loop env rest
  end.

(** Iterate over [java_callbacks] and call all CB_TYPE_INIT callbacks. *)
Definition cjni_init_plugins (env : JNIEnv) : M Z :=
  callbacks <- read java_callbacks ;;
  cjni_init_plugins_loop env callbacks ;;
  ret 0.

Fixpoint cjni_shutdown_plugins_loop (env : JNIEnv)
  (callbacks : list cjni_callback_info_t) : M unit :=
  match callbacks with
  | [] => ret tt
  | cb :: rest =>
      if negb (cbi_type cb =? CB_TYPE_SHUTDOWN) then
        cjni_shutdown_plugins_loop env rest
      else
        status <- CallIntMethod env (cbi_object cb) (cbi_method cb) [] ;;
        (if negb (status =? 0) then
           ERROR ("java plugin: Shutting down `" ++ cbi_name cb
                  ++ "' failed with status " ++ string_of_Z status ++ ". ")
         else ret tt) ;;
        cjni_shutdown_plugins_loop env rest
  end.

(** Iterate over [java_callbacks] and call all CB_TYPE_SHUTDOWN callbacks. *)
Definition cjni_shutdown_plugins (env : JNIEnv) : M Z :=
  callbacks <- read java_callbacks ;;
  cjni_shutdown_plugins_loop env callbacks ;;
  ret 0.

(** The loop of [cjni_shutdown] over [java_callbacks]. *)
Fixpoint cjni_shutdown_callbacks (callbacks : list cjni_callback_info_t)
  : M unit :=
  match callbacks with
  | [] => ret tt
  | cb :: rest =>
      DeleteGlobalRef (cbi_object cb) ;;
      cjni_shutdown_callbacks rest
  end.

(** The loop of [cjni_shutdown] over [java_classes_list]. *)
Fixpoint cjni_shutdown_classes (classes : list java_plugin_class_t) : M unit :=
  match classes with
  | [] => ret tt
  | class :: rest =>
      DeleteGlobalRef (jpc_object class) ;;
      cjni_shutdown_classes rest
  end.

Definition cjni_shutdown : M Z :=
  vm <- read jvm ;;
  match vm with
  | None => ret 0
  | Some vm =>
      t <- read trace ;;
      let (status, env) := AttachCurrentThread vm t in
      emit (EvAttachCurrentThread status) ;;
      if negb (status =? 0) then
        ERROR ("java plugin: cjni_shutdown: AttachCurrentThread failed with status "
               ++ string_of_Z status ++ ".") ;;
        ret (-1)
      else
        (* Execute all the shutdown functions registered by plugins. *)
        _ <- cjni_shutdown_plugins env ;;
        (* Release all the global references to callback functions *)
        callbacks <- read java_callbacks ;;
        cjni_shutdown_callbacks callbacks ;;
        update (set_java_callbacks []) ;;
        (* Release all the global references to directly loaded classes. *)
        classes <- read java_classes_list ;;
        cjni_shutdown_classes classes ;;
        update (set_java_classes_list []) ;;
        (* Destroy the JVM *)
        emit EvDestroyJavaVM ;;
        update (set_jvm None) ;;
        (* pthread_key_delete (jvm_env_key); *)
        update (set_jvm_env_key None) ;;
        (* Free the JVM argument list *)
        update (set_jvm_argv []) ;;
        (* Free the copied configuration *)
        update (set_java_plugin_configs []) ;;
        ret 0
  end.

End Bridge.

(** ** The remaining entry points: logging, data sets, start-up *)

(** The levels of plugin.h, as numbers. *)
Definition LOG_level (level : severity) : Z :=
  match level with
  | LOG_ERR => 3
  | LOG_WARNING => 4
  | LOG_NOTICE => 5
  | LOG_INFO => 6
  | LOG_DEBUG => 7
  end.

Definition severity_of_level (i : Z) : severity :=
  if i =? 3 then LOG_ERR
  else if i =? 4 then LOG_WARNING
  else if i =? 5 then LOG_NOTICE
  else if i =? 6 then LOG_INFO
  else LOG_DEBUG.

(** The table [jni_api_functions]: name and signature of the native
    methods handed to [RegisterNatives]. *)
Definition jni_api_functions : list (string * string) :=
  [ ("DispatchValues", "(Lorg/collectd/api/ValueList;)I");
    ("GetDS", "(Ljava/lang/String;)Lorg/collectd/api/DataSet;");
    ("RegisterConfig",
     "(Ljava/lang/String;Lorg/collectd/api/CollectdConfigInterface;)I");
    ("RegisterInit",
     "(Ljava/lang/String;Lorg/collectd/api/CollectdInitInterface;)I");
    ("RegisterRead",
     "(Ljava/lang/String;Lorg/collectd/api/CollectdReadInterface;)I");
    ("RegisterWrite",
     "(Ljava/lang/String;Lorg/collectd/api/CollectdWriteInterface;)I");
    ("RegisterShutdown",
     "(Ljava/lang/String;Lorg/collectd/api/CollectdShutdownInterface;)I");
    ("Log", "(ILjava/lang/String;)V") ]%string.

(** What start-up asks of the thread library and of the JVM library: the
    status of [pthread_key_create], the status, JVM and context
    [JNI_CreateJavaVM] gives for a list of options, and the status of
    [RegisterNatives] for a class and a table. *)
Record launcher := {
  pthread_key_create_status : Z;
  JNI_CreateJavaVM : list string -> Z * JavaVM * JNIEnv;
  RegisterNatives_status : jclass -> list (string * string) -> Z
}.

Section Lifecycle.

Variable host : collectd.
Variable sys : launcher.

Definition cjni_api_log (env : JNIEnv) (severity : Z) (o_message : jobject)
  : M unit :=
  match GetStringUTFChars env o_message with
  | None => ERROR "java plugin: cjni_api_log: GetStringUTFChars failed."
  | Some c_str =>
      let severity :=
        if severity <? LOG_level LOG_ERR then LOG_level LOG_ERR else severity in
      let severity :=
        if LOG_level LOG_DEBUG <? severity then LOG_level LOG_DEBUG
        else severity in
      emit (Ev_plugin_log (severity_of_level severity) c_str)
  end.

Definition cjni_api_get_ds (env : JNIEnv) (o_string_type : jobject)
  : M (option jobject) :=
  match GetStringUTFChars env o_string_type with
  | None =>
      ERROR "java plugin: cjni_api_get_ds: GetStringUTFChars failed." ;;
      ret None
  | Some ds_name =>
      match plugin_get_ds host ds_name with
      | None => ret None
      | Some ds =>
          match ctoj_data_set env ds with
          | Ok o_dataset => ret (Some o_dataset)
          | Failed log => ERRORS log ;; ret None
          | Undefined => abort
          end
      end
  end.

(** Register the native functions with the JVM. *)
Definition cjni_init_native (env : JNIEnv) : M Z :=
  match FindClass env "org.collectd.api.CollectdAPI" with
  | None =>
      ERROR "cjni_init_native: Cannot find API class `org.collectd.api.CollectdAPI'." ;;
      ret (-1)
  | Some api_class_ptr =>
      let status := RegisterNatives_status sys api_class_ptr jni_api_functions in
      if negb (status =? 0) then
        ERROR ("cjni_init_native: RegisterNatives failed with status "
               ++ string_of_Z status ++ ".") ;;
        ret (-1)
      else ret 0
  end.

(** Initialization: Create a JVM, load all configured classes and call
    their config and init callback methods. *)
Definition cjni_init : M Z :=
  vm <- read jvm ;;
  match vm with
  | Some _ => ret 0
  | None =>
      let status := pthread_key_create_status sys in
      if negb (status =? 0) then
        ERROR ("java plugin: cjni_init: pthread_key_create failed with status "
               ++ string_of_Z status ++ ".") ;;
        ret (-1)
      else
        (* a new key holds NULL in every thread *)
        update (set_jvm_env_key None) ;;
        argv <- read jvm_argv ;;
        let '(status, vm, env) := JNI_CreateJavaVM sys argv in
        if negb (status =? 0) then
          ERROR ("cjni_init: JNI_CreateJavaVM failed with status "
                 ++ string_of_Z status ++ ".") ;;
          ret (-1)
        else
          update (set_jvm (Some vm)) ;;
          status <- cjni_init_native env ;;
          if negb (status =? 0) then
            ERROR "cjni_init: cjni_init_native failed." ;;
            ret (-1)
          else
            _ <- cjni_load_plugins env ;;
            _ <- cjni_config_plugins env ;;
            _ <- cjni_init_plugins env ;;
            ret 0
  end.

End Lifecycle.

(** ** Reading a trace and a managed object *)

Definition is_attach (e : event) : bool :=
  match e with EvAttachCurrentThread _ => true | _ => false end.

Definition is_detach (e : event) : bool :=
  match e with EvDetachCurrentThread _ => true | _ => false end.

(** How many times the runtime attach, and the runtime detach, were called. *)
Definition attach_calls (t : list event) : nat := List.length (filter is_attach t).
Definition detach_calls (t : list event) : nat := List.length (filter is_detach t).

(** The value lists handed to [plugin_dispatch_values], oldest first. *)
Definition dispatch_calls (t : list event) : list value_list_t :=
  flat_map (fun e => match e with
                     | Ev_plugin_dispatch_values vl _ => [vl]
                     | _ => []
                     end) t.

(** The references handed to [DeleteGlobalRef], oldest first. *)
Definition deleted_global_refs (t : list event) : list jobject :=
  flat_map (fun e => match e with EvDeleteGlobalRef o => [o] | _ => [] end) t.

(** The callback invocations: object, method and returned status. *)
Definition int_calls (t : list event) : list (jobject * jmethodID * Z) :=
  flat_map (fun e => match e with
                     | EvCallIntMethod o m _ ret => [(o, m, ret)]
                     | _ => []
                     end) t.

(** The names handed to [plugin_unregister_read], oldest first. *)
Definition unregistered_reads (t : list event) : list string :=
  flat_map (fun e => match e with
                     | Ev_plugin_unregister_read name => [name]
                     | _ => []
                     end) t.

(** The lines logged at a given level, oldest first. *)
Definition logged (level : severity) (t : list event) : list string :=
  flat_map (fun e => match e, level with
                     | Ev_plugin_log LOG_ERR msg, LOG_ERR
                     | Ev_plugin_log LOG_WARNING msg, LOG_WARNING
                     | Ev_plugin_log LOG_NOTICE msg, LOG_NOTICE
                     | Ev_plugin_log LOG_INFO msg, LOG_INFO
                     | Ev_plugin_log LOG_DEBUG msg, LOG_DEBUG => [msg]
                     | _, _ => []
                     end) t.

(** The attach count of the calling thread. *)
Definition attach_count (w : world) : Z :=
  match jvm_env_key w with
  | Some cjni_env => reference_counter cjni_env
  | None => 0
  end.

(** The runtime context the calling thread holds. *)
Definition attached_env (w : world) : option JNIEnv :=
  match jvm_env_key w with
  | Some cjni_env => jvm_env cjni_env
  | None => None
  end.

(** The invariant of the per-thread record: the thread holds a runtime
    context exactly when its counter is positive, and the counter has room
    for one more attach. *)
Definition thread_state_ok (w : world) : Prop :=
  match jvm_env_key w with
  | None => True
  | Some cjni_env =>
      (reference_counter cjni_env = 0 /\ jvm_env cjni_env = None)
      \/ (0 < reference_counter cjni_env < 2 ^ 31 - 1
          /\ jvm_env cjni_env <> None)
  end.

(** What the runtime detach appends to the trace. *)
Definition detach_events (vm : JavaVM) (t : list event) : list event :=
  let status := DetachCurrentThread vm t in
  EvDetachCurrentThread status
  :: (if status =? 0 then []
      else [Ev_plugin_log LOG_ERR
              ("java plugin: cjni_thread_detach: DetachCurrentThread failed with status "
               ++ string_of_Z status ++ ".")%string]).

(** The objects a managed object received through the method [name]. *)
Definition objects_passed_to (name : string) (o : jobject) : list jobject :=
  flat_map (fun call => match call with
                        | (m, [JV_object a]) =>
                            if String.eqb (m_name m) name then [a] else []
                        | _ => []
                        end) (obj_calls o).

(** The [long] a managed object received through the method [name]. *)
Definition long_passed_to (name : string) (o : jobject) : option Z :=
  match find (fun call => String.eqb (m_name (fst call)) name) (obj_calls o) with
  | Some (_, [JV_long j]) => Some j
  | _ => None
  end.

(** The object after the method [m] was called on it with each of [args]
    in turn. *)
Definition add_all (m : jmethodID) (args : list jobject) (o : jobject) : jobject :=
  fold_left (fun acc a => CallVoidMethod acc m [JV_object a]) args o.

(** The references a list of descriptors or classes holds. *)
Definition held (objects : list (option jobject)) : list jobject :=
  flat_map (fun o => match o with Some o => [o] | None => [] end) objects.

Definition is_type (type : Z) (cb : cjni_callback_info_t) : bool :=
  cbi_type cb =? type.

Inductive thread_op := attach | detach.

(** A thread issuing a sequence of attach and detach operations. *)
Fixpoint thread_ops (host : collectd) (ops : list thread_op) : M unit :=
  match ops with
  | [] => ret tt
  | attach :: rest => _ <- cjni_thread_attach host ;; thread_ops host rest
  | detach :: rest => _ <- cjni_thread_detach ;; thread_ops host rest
  end.

(** The references handed to [NewGlobalRef], oldest first. *)
Definition new_global_refs (t : list event) : list jobject :=
  flat_map (fun e => match e with EvNewGlobalRef o => [o] | _ => [] end) t.

(** The references handed to [DeleteLocalRef], oldest first. *)
Definition deleted_local_refs (t : list event) : list jobject :=
  flat_map (fun e => match e with EvDeleteLocalRef o => [o] | _ => [] end) t.

(** The arguments of the well-formed JVMArg children of a configuration
    block, and the names of its well-formed LoadPlugin children, in the
    order of the block. *)
Definition jvm_args_of (children : list oconfig_item_t) : list string :=
  flat_map (fun child =>
              if strcaseeq "JVMArg" (ci_key child) then
                match ci_values child with
                | [OCONFIG_TYPE_STRING arg] => [arg]
                | _ => []
                end
              else []) children.

Definition load_plugins_of (children : list oconfig_item_t) : list string :=
  flat_map (fun child =>
              if strcaseeq "JVMArg" (ci_key child) then []
              else if strcaseeq "LoadPlugin" (ci_key child) then
                match ci_values child with
                | [OCONFIG_TYPE_STRING name] => [name]
                | _ => []
                end
              else []) children.

(** A native value carried by no more than 64 bits. *)
Definition value_ok (v : value_t) : Prop := 0 <= v < 2 ^ 64.

(** The managed DataSource and DataSet that stand for a native data
    source and a native data set. *)
Definition managed_data_source (dsrc : data_source_t) : jobject :=
  let c := "org.collectd.api.DataSource"%string in
  JRef LocalRef
    (DObject c []
       [ (MethodID c "setName" "(Ljava/lang/String;)V",
          [JV_object (JRef LocalRef (DString (dsrc_name dsrc)))]);
         (MethodID c "setType" "(I)V", [JV_int (dsrc_type dsrc)]);
         (MethodID c "setMin" "(D)V", [JV_double (dsrc_min dsrc)]);
         (MethodID c "setMax" "(D)V", [JV_double (dsrc_max dsrc)]) ]).

Definition managed_data_set (ds : data_set_t) : jobject :=
  let c := "org.collectd.api.DataSet"%string in
  JRef LocalRef
    (DObject c [JV_object (JRef LocalRef (DString (ds_type ds)))]
       (map (fun dsrc =>
               (MethodID c "addDataSource" "(Lorg.collectd.api.DataSource;)V",
                [JV_object (managed_data_source dsrc)]))
          (ds_ds ds))).

(** The java.lang.Long and the java.lang.Double holding a number. *)
Definition managed_long (j : Z) : jobject :=
  JRef LocalRef (DObject "java.lang.Long"%string [JV_long j] []).

Definition managed_double (bits : Z) : jobject :=
  JRef LocalRef (DObject "java.lang.Double"%string [JV_double bits] []).

(** The callback invocations with the arguments they received. *)
Definition callback_calls (t : list event)
  : list (jobject * jmethodID * list jvalue * Z) :=
  flat_map (fun e => match e with
                     | EvCallIntMethod o m args ret => [(o, m, args, ret)]
                     | _ => []
                     end) t.


(** A descriptor and a callback invocation that belong together. *)
Definition invoked (cb : cjni_callback_info_t) (args : list jvalue)
  (call : jobject * jmethodID * list jvalue * Z) : Prop :=
  let '(o, m, args', _) := call in
  cbi_object cb = Some o /\ cbi_method cb = Some m /\ args' = args.

(** The managed OConfigValue and OConfigItem that stand for a native
    configuration value and a native configuration node; there is none
    for a value whose type is not string, number or boolean, nor for a
    node that holds such a value anywhere below it. *)
Definition managed_oconfig_value (ocvalue : oconfig_value_t) : option jobject :=
  let c := "org.collectd.api.OConfigValue"%string in
  match ocvalue with
  | OCONFIG_TYPE_STRING s =>
      Some (JRef LocalRef
              (DObject c [JV_object (JRef LocalRef (DString s))] []))
  | OCONFIG_TYPE_NUMBER number =>
      Some (JRef LocalRef (DObject c [JV_object (managed_double number)] []))
  | OCONFIG_TYPE_BOOLEAN b =>
      Some (JRef LocalRef (DObject c [JV_boolean (negb (b =? 0))] []))
  | OCONFIG_TYPE_other _ => None
  end.

Fixpoint all_some {A : Type} (l : list (option A)) : option (list A) :=
  match l with
  | [] => Some []
  | None :: _ => None
  | Some a :: rest =>
      match all_some rest with
      | Some rest' => Some (a :: rest')
      | None => None
      end
  end.

Fixpoint managed_oconfig_item (ci : oconfig_item_t) : option jobject :=
  match ci with
  | OConfigItem key values children =>
      let c := "org.collectd.api.OConfigItem"%string in
      match all_some (map managed_oconfig_value values),
            all_some (map managed_oconfig_item children) with
      | Some vs, Some cs =>
          Some (JRef LocalRef
                  (DObject c [JV_object (JRef LocalRef (DString key))]
                     (map (fun a =>
                             (MethodID c "addValue"
                                "(Lorg/collectd/api/OConfigValue;)V",
                              [JV_object a]))
                        (vs ++ cs))))
      | _, _ => None
      end
  end.

(** The managed ValueList that stands for a native value list, its data
    set and the managed numbers of its values. *)
Definition managed_value_list (ds : data_set_t) (vl : value_list_t)
  (numbers : list jobject) : jobject :=
  let c := "org.collectd.api.ValueList"%string in
  let str s := [JV_object (JRef LocalRef (DString s))] in
  JRef LocalRef
    (DObject c []
       ([ (MethodID c "setDataSet" "(Lorg.collectd.api.DataSet;)V",
           [JV_object (managed_data_set ds)]);
          (MethodID c "setHost" "(Ljava/lang/String;)V", str (vl_host vl));
          (MethodID c "setPlugin" "(Ljava/lang/String;)V", str (vl_plugin vl));
          (MethodID c "setPluginInstance" "(Ljava/lang/String;)V",
           str (vl_plugin_instance vl));
          (MethodID c "setType" "(Ljava/lang/String;)V", str (vl_type vl));
          (MethodID c "setTypeInstance" "(Ljava/lang/String;)V",
           str (vl_type_instance vl));
          (MethodID c "setTime" "(J)V",
           [JV_long (to_jlong (to_jlong (vl_time vl) * to_jlong 1000))]);
          (MethodID c "setInterval" "(J)V",
           [JV_long (to_jlong (vl_interval vl))]) ]
        ++ map (fun n => (MethodID c "addValue" "(Ljava/lang/Number;)V",
                          [JV_object n]))
             numbers)).

(** ** A JVM and a daemon to run the model on concrete inputs *)

Module Sim.

Local Open Scope string_scope.

(** The last arguments a method called [name] received. *)
Definition last_call (name : string) (o : jobject) : option (list jvalue) :=
  fold_left (fun acc call =>
               if String.eqb (m_name (fst call)) name then Some (snd call)
               else acc)
            (obj_calls o) None.

(** [getX] answers what [setX] stored. *)
Definition setter_of (getter : string) : string :=
  ("set" ++ substring 3 (String.length getter - 3) getter)%string.

Definition class_of (o : jobject) : jclass :=
  match ref_data o with
  | DString _ => "java/lang/String"%string
  | DArray _ => "[Ljava/lang/Object;"%string
  | DObject c _ _ => c
  end.

Definition call_object (o : jobject) (m : jmethodID) : option jobject :=
  if String.eqb (m_name m) "getValues" then
    Some (JRef LocalRef (DArray (objects_passed_to "addValue" o)))
  else if String.eqb (m_name m) "toArray" then Some o
  else
    match last_call (setter_of (m_name m)) o with
    | Some [JV_object v] => Some v
    | _ => None
    end.

Definition call_long (o : jobject) (m : jmethodID) : Z :=
  match ref_data o with
  | DObject _ [JV_long j] _ => j
  | _ =>
      match last_call (setter_of (m_name m)) o with
      | Some [JV_long j] => j
      | _ => 0
      end
  end.

Definition call_double (o : jobject) (m : jmethodID) : Z :=
  match ref_data o with
  | DObject _ [JV_double d] _ => d
  | _ => 0
  end.

(** Every look-up and allocation succeeds, a getter returns what the
    matching setter stored last, and a callback returns [status]. *)
Definition env_returning (status : Z) : JNIEnv :=
  {| FindClass_ok := fun _ => true;
     GetMethodID_ok := fun _ _ _ => true;
     NewStringUTF_ok := fun _ => true;
     NewObject_ok := fun _ _ _ => true;
     GetObjectClass := fun o => Some (class_of o);
     GetStringUTFChars :=
       fun o => match ref_data o with DString s => Some s | _ => None end;
     CallObjectMethod := call_object;
     CallLongMethod := call_long;
     CallDoubleMethod := call_double;
     GetObjectArrayElement :=
       fun o i => match ref_data o with
                  | DArray elems => nth_error elems (Z.to_nat i)
                  | _ => None
                  end;
     CallIntMethod_status := fun _ _ _ _ => status |}.

Definition env : JNIEnv := env_returning 0.

(** A JVM whose class loader finds no class. *)
Definition env_without_classes : JNIEnv :=
  {| FindClass_ok := fun _ => false;
     GetMethodID_ok := fun _ _ _ => true;
     NewStringUTF_ok := fun _ => true;
     NewObject_ok := fun _ _ _ => true;
     GetObjectClass := fun o => Some (class_of o);
     GetStringUTFChars :=
       fun o => match ref_data o with DString s => Some s | _ => None end;
     CallObjectMethod := call_object;
     CallLongMethod := call_long;
     CallDoubleMethod := call_double;
     GetObjectArrayElement := fun _ _ => None;
     CallIntMethod_status := fun _ _ _ _ => 0 |}.

(** A JVM whose objects have no class. *)
Definition env_without_object_class : JNIEnv :=
  {| FindClass_ok := fun _ => true;
     GetMethodID_ok := fun _ _ _ => true;
     NewStringUTF_ok := fun _ => true;
     NewObject_ok := fun _ _ _ => true;
     GetObjectClass := fun _ => None;
     GetStringUTFChars := fun _ => None;
     CallObjectMethod := fun _ _ => None;
     CallLongMethod := fun _ _ => 0;
     CallDoubleMethod := fun _ _ => 0;
     GetObjectArrayElement := fun _ _ => None;
     CallIntMethod_status := fun _ _ _ _ => 0 |}.

Definition vm_with (e : JNIEnv) : JavaVM :=
  {| AttachCurrentThread := fun _ => (0, e);
     DetachCurrentThread := fun _ => 0 |}.

Definition vm : JavaVM := vm_with env.

(** The data set of the spec's end-to-end example. *)
Definition ds : data_set_t :=
  {| ds_type := "example";
     ds_ds := [ {| dsrc_name := "count"; dsrc_type := 0;
                   dsrc_min := 0; dsrc_max := 0 |};
                {| dsrc_name := "ratio"; dsrc_type := 1;
                   dsrc_min := 0; dsrc_max := 0 |} ] |}.

(** [count = 5], [ratio = 2.5] (bit pattern 0x4004000000000000),
    [time = 1000 s], [interval = 10 s]. *)
Definition vl : value_list_t :=
  {| vl_values := [5; 4612811918334230528];
     vl_time := 1000;
     vl_interval := 10;
     vl_host := "localhost";
     vl_plugin := "java";
     vl_plugin_instance := "";
     vl_type := "example";
     vl_type_instance := "" |}.

Definition host : collectd :=
  {| DS_TYPE_COUNTER := 0;
     DS_TYPE_GAUGE := 1;
     DATA_MAX_NAME_LEN := 64;
     VALUE_LIST_INIT :=
       {| vl_values := []; vl_time := 0; vl_interval := 10;
          vl_host := "localhost"; vl_plugin := ""; vl_plugin_instance := "";
          vl_type := ""; vl_type_instance := "" |};
     plugin_get_ds :=
       fun type => if String.eqb type "example" then Some ds else None;
     plugin_dispatch_values_status := fun _ _ => 0;
     alloc_ok := fun _ => true |}.

(** The state after the JVM was created: nothing registered, the calling
    thread never attached. *)
Definition started (v : JavaVM) : world :=
  {| jvm := Some v; jvm_env_key := None; jvm_argv := [];
     java_classes_list := []; java_plugin_configs := [];
     java_callbacks := []; trace := [] |}.

(** A callback object of a plugin, through the local reference the
    registering native call received. *)
Definition plugin_object : jobject :=
  JRef LocalRef (DObject "org/example/Plugin" [] []).

Definition plugin_name : jobject := JRef LocalRef (DString "example").

(** The descriptors the registration of [plugin_object] as a Read and as
    a Write callback produces. *)
Definition read_method : jmethodID :=
  MethodID "org/example/Plugin" "Read" "()I".

Definition write_method : jmethodID :=
  MethodID "org/example/Plugin" "Write" "(Lorg/collectd/api/ValueList;)I".

Definition read_cbi : cjni_callback_info_t :=
  {| cbi_name := "example"; cbi_type := CB_TYPE_READ;
     cbi_class := Some "org/example/Plugin";
     cbi_object := Some plugin_object;
     cbi_method := Some read_method |}.

Definition write_cbi : cjni_callback_info_t :=
  {| cbi_name := "example"; cbi_type := CB_TYPE_WRITE;
     cbi_class := Some "org/example/Plugin";
     cbi_object := Some plugin_object;
     cbi_method := Some write_method |}.

(** A configuration block with one value and one child block. *)
Definition block : oconfig_item_t :=
  OConfigItem "Plugin" [OCONFIG_TYPE_STRING "example"]
    [OConfigItem "Port" [OCONFIG_TYPE_NUMBER 0] []].

(** The descriptors of an Init and of a Shutdown callback, and the state
    after both were registered and one plugin class was loaded. *)
Definition init_cbi : cjni_callback_info_t :=
  {| cbi_name := "example"; cbi_type := CB_TYPE_INIT;
     cbi_class := Some "org/example/Plugin";
     cbi_object := Some plugin_object;
     cbi_method := Some (MethodID "org/example/Plugin" "Init" "()I") |}.

Definition shutdown_cbi : cjni_callback_info_t :=
  {| cbi_name := "example"; cbi_type := CB_TYPE_SHUTDOWN;
     cbi_class := Some "org/example/Plugin";
     cbi_object := Some plugin_object;
     cbi_method := Some (MethodID "org/example/Plugin" "Shutdown" "()I") |}.

Definition loaded_class : java_plugin_class_t :=
  {| jpc_name := "org/example/Plugin";
     jpc_class := Some "org/example/Plugin";
     jpc_object := Some plugin_object |}.

Definition registered (v : JavaVM) : world :=
  set_java_classes_list [loaded_class]
    (set_java_callbacks [init_cbi; shutdown_cbi] (started v)).

(** The managed objects the conversions make of [block] and of [vl]. *)
Definition managed_block : jobject :=
  Eval vm_compute in
    match ctoj_oconfig_item env block with
    | Ok o => o
    | _ => JRef LocalRef (DString "")
    end.

Definition managed_vl : jobject :=
  Eval vm_compute in
    match ctoj_value_list host env ds vl with
    | Ok o => o
    | _ => JRef LocalRef (DString "")
    end.

(** The state after the block [block] was stored, and a second block of
    the same name. *)
Definition configured : world :=
  set_java_plugin_configs
    [{| jcfg_name := "example"; jcfg_ci := Some block |}] (started vm).

Definition duplicate_block : oconfig_item_t :=
  OConfigItem "Plugin" [OCONFIG_TYPE_STRING "example"] [].

(** The state [cjni_shutdown] leaves. *)
Definition after_shutdown : world :=
  Eval vm_compute in
    match cjni_shutdown (registered vm) with
    | Some (_, w) => w
    | None => started vm
    end.

(** The block of the java plugin in collectd.conf: two options for the
    JVM, one of them written in lower case, one class to load, an option
    that does not exist and the block of a plugin. *)
Definition java_block : oconfig_item_t :=
  OConfigItem "Plugin" [OCONFIG_TYPE_STRING "java"]
    [ OConfigItem "JVMArg"
        [OCONFIG_TYPE_STRING "-Djava.class.path=/usr/share/collectd/java"] [];
      OConfigItem "LoadPlugin" [OCONFIG_TYPE_STRING "org/example/Plugin"] [];
      OConfigItem "jvmarg" [OCONFIG_TYPE_STRING "-verbose:jni"] [];
      OConfigItem "Interval" [OCONFIG_TYPE_NUMBER 0] [];
      block ].

(** The descriptor of a Config callback, and the state in which it is
    registered, after an Init callback of the same name, for the stored
    block [block]. *)
Definition config_cbi : cjni_callback_info_t :=
  {| cbi_name := "example"; cbi_type := CB_TYPE_CONFIG;
     cbi_class := Some "org/example/Plugin";
     cbi_object := Some plugin_object;
     cbi_method :=
       Some (MethodID "org/example/Plugin" "Config"
               "(Lorg/collectd/api/OConfigItem;)I") |}.


(** The state after the configuration named two classes to load, the
    second of which the JVM below does not find. *)
Definition with_classes : world :=
  set_java_classes_list
    [ {| jpc_name := "org/example/Plugin"; jpc_class := None;
         jpc_object := None |};
      {| jpc_name := "org/example/Missing"; jpc_class := None;
         jpc_object := None |} ]
    (started vm).

Definition env_missing_one_class : JNIEnv :=
  {| FindClass_ok := fun name => negb (String.eqb name "org/example/Missing");
     GetMethodID_ok := fun _ _ _ => true;
     NewStringUTF_ok := fun _ => true;
     NewObject_ok := fun _ _ _ => true;
     GetObjectClass := fun o => Some (class_of o);
     GetStringUTFChars :=
       fun o => match ref_data o with DString s => Some s | _ => None end;
     CallObjectMethod := call_object;
     CallLongMethod := call_long;
     CallDoubleMethod := call_double;
     GetObjectArrayElement := fun _ _ => None;
     CallIntMethod_status := fun _ _ _ _ => 0 |}.

Definition managed_java_block : jobject :=
  Eval vm_compute in
    match ctoj_oconfig_item env java_block with
    | Ok o => o
    | _ => JRef LocalRef (DString "")
    end.

(** The state after the configuration of [java_block] and before
    start-up, computed by [cjni_config] and with [config_cbi] and
    [init_cbi] in the registry. *)
Definition configured_java : world :=
  Eval vm_compute in
    match cjni_config host java_block
            {| jvm := None; jvm_env_key := None; jvm_argv := [];
               java_classes_list := []; java_plugin_configs := [];
               java_callbacks := [init_cbi; config_cbi]; trace := [] |}
    with
    | Some (_, w) => set_trace [] w
    | None => started vm
    end.

(** The state after the classes of [with_classes] were loaded, the state
    after [plugin_object] was then registered as a Shutdown callback, and
    the state after it was registered as a Read callback as well. *)
Definition after_load : world :=
  Eval vm_compute in
    match cjni_load_plugins env_missing_one_class with_classes with
    | Some (_, w) => w
    | None => with_classes
    end.

Definition with_shutdown_callback : world :=
  Eval vm_compute in
    match cjni_callback_register host env_missing_one_class plugin_name
            plugin_object CB_TYPE_SHUTDOWN after_load with
    | Some (_, w) => w
    | None => after_load
    end.

Definition after_registration : world :=
  Eval vm_compute in
    match cjni_api_register_read host env_missing_one_class plugin_name
            plugin_object with_shutdown_callback with
    | Some (_, w) => w
    | None => with_shutdown_callback
    end.

(** A thread library and a JVM library that succeed, with a class path
    on which the API class is missing. *)
Definition sys_without_api : launcher :=
  {| pthread_key_create_status := 0;
     JNI_CreateJavaVM :=
       fun _ => (0, vm_with env_without_classes,
                 env_without_classes);
     RegisterNatives_status := fun _ _ => 0 |}.

End Sim.

(** * Properties *)

(** ** Machine integers *)

Lemma wrap_small (w x : Z) :
  0 < w -> - 2 ^ (w - 1) <= x < 2 ^ (w - 1) -> wrap w x = x.
Proof.
  intros Hw Hx. unfold wrap.
  assert (E : 2 ^ w = 2 * 2 ^ (w - 1)).
  { replace w with (Z.succ (w - 1)) at 1 by lia. apply Z.pow_succ_r. lia. }
  rewrite Z.mod_small; lia.
Qed.

Lemma to_int_small (x : Z) : - 2 ^ 31 <= x < 2 ^ 31 -> to_int x = x.
Proof. intros H. apply wrap_small; simpl; lia. Qed.

Lemma to_jlong_small (x : Z) : - 2 ^ 63 <= x < 2 ^ 63 -> to_jlong x = x.
Proof. intros H. apply wrap_small; simpl; lia. Qed.

(** ** Running the state monad *)

Lemma bind_run {A B : Type} (m : M A) (k : A -> M B) (w : world) :
  bind m k w = match m w with Some (a, w') => k a w' | None => None end.
Proof. reflexivity. Qed.

Lemma ERRORS_run (log : list string) (w : world) :
  ERRORS log w
  = Some (tt, set_trace (trace w ++ map (Ev_plugin_log LOG_ERR) log) w).
Proof.
  revert w. induction log as [|msg log IH]; intros w; simpl.
  - unfold ret. rewrite app_nil_r. destruct w; reflexivity.
  - unfold bind, ERROR, emit, update. rewrite IH. simpl.
    rewrite <- app_assoc. reflexivity.
Qed.

Ltac run :=
  cbv [bind ret read update emit abort assert ERROR WARNING NOTICE
       DeleteGlobalRef CallIntMethod].

(** Project the fields of an updated [world]. *)
Ltac fields :=
  cbn [jvm jvm_env_key jvm_argv java_classes_list java_plugin_configs
       java_callbacks trace set_jvm set_jvm_env_key set_jvm_argv
       set_java_classes_list set_java_plugin_configs set_java_callbacks
       set_trace jvm_env reference_counter fst snd] in *.

(** Split a successful conversion at its checks. *)
Ltac ok_steps H :=
  repeat match type of H with
  | nonnull ?x _ _ = Ok _ =>
      let E := fresh "E" in
      destruct x eqn:E; cbn [nonnull] in H; [|discriminate H]
  | checked ?x _ _ = Ok _ =>
      let E := fresh "E" in
      destruct x eqn:E; cbn [checked] in H; [|discriminate H|discriminate H]
  | match ?x with _ => _ end = Ok _ =>
      let E := fresh "E" in
      destruct x eqn:E; try discriminate H
  end.

(** ** Thread attachment *)

Section Attachment.

Variable host : collectd.

(** A thread that holds a runtime context: the nested attach. *)
Lemma cjni_thread_attach_nested (w : world) (env : JNIEnv) (counter : Z) :
  jvm_env_key w = Some {| jvm_env := Some env; reference_counter := counter |} ->
  0 < counter ->
  cjni_thread_attach host w
  = Some (Some env,
          set_jvm_env_key
            (Some {| jvm_env := Some env;
                     reference_counter := to_int (counter + 1) |}) w).
Proof.
  intros Hkey Hpos. unfold cjni_thread_attach. run. rewrite Hkey. simpl.
  apply Z.ltb_lt in Hpos. rewrite Hpos. reflexivity.
Qed.

(** A thread that holds no runtime context: the runtime attach. *)
Lemma cjni_thread_attach_first (w : world) (vm : JavaVM) :
  jvm w = Some vm ->
  alloc_ok host malloc_cjni_env = true ->
  attach_count w = 0 ->
  attached_env w = None ->
  cjni_thread_attach host w
  = let (status, env) := AttachCurrentThread vm (trace w) in
    if status =? 0 then
      Some (Some env,
            set_jvm_env_key
              (Some {| jvm_env := Some env; reference_counter := 1 |})
              (set_trace (trace w ++ [EvAttachCurrentThread status]) w))
    else
      Some (None,
            set_jvm_env_key
              (Some {| jvm_env := None; reference_counter := 0 |})
              (set_trace
                 (trace w
                  ++ [EvAttachCurrentThread status;
                      Ev_plugin_log LOG_ERR
                        ("java plugin: cjni_thread_attach: AttachCurrentThread failed with status "
                         ++ string_of_Z status ++ ".")])
                 w)).
Proof.
  intros Hjvm Halloc Hcount Henv.
  unfold attach_count, attached_env in *.
  unfold cjni_thread_attach. run.
  destruct (jvm_env_key w) as [[e c]|] eqn:Hkey; simpl in *.
  - subst. simpl. rewrite Hjvm.
    destruct (AttachCurrentThread vm (trace w)) as [status env].
    destruct (status =? 0); simpl; [reflexivity|].
    rewrite <- app_assoc. unfold set_jvm_env_key, set_trace. simpl.
    rewrite Hkey. reflexivity.
  - rewrite Halloc. cbn. rewrite Hjvm. cbn.
    destruct (AttachCurrentThread vm (trace w)) as [status env].
    destruct (status =? 0); cbn; [reflexivity|].
    rewrite <- app_assoc. reflexivity.
Qed.

(** A detach that leaves the counter positive. *)
Lemma cjni_thread_detach_nested (w : world) (env : JNIEnv) (counter : Z) :
  jvm_env_key w = Some {| jvm_env := Some env; reference_counter := counter |} ->
  1 < counter < 2 ^ 31 ->
  cjni_thread_detach w
  = Some (0,
          set_jvm_env_key
            (Some {| jvm_env := Some env; reference_counter := counter - 1 |})
            w).
Proof.
  intros Hkey Hc. unfold cjni_thread_detach. run. rewrite Hkey. simpl.
  assert (H0 : (0 <? counter) = true) by (apply Z.ltb_lt; lia).
  rewrite H0. rewrite to_int_small by lia.
  assert (H1 : (0 <? counter - 1) = true) by (apply Z.ltb_lt; lia).
  rewrite H1. reflexivity.
Qed.

(** The detach that brings the counter to zero. *)
Lemma cjni_thread_detach_last (w : world) (vm : JavaVM) (env : JNIEnv) :
  jvm w = Some vm ->
  jvm_env_key w = Some {| jvm_env := Some env; reference_counter := 1 |} ->
  cjni_thread_detach w
  = Some (0,
          set_jvm_env_key
            (Some {| jvm_env := None; reference_counter := 0 |})
            (set_trace (trace w ++ detach_events vm (trace w)) w)).
Proof.
  intros Hjvm Hkey. unfold cjni_thread_detach, detach_events. run.
  rewrite Hkey. cbn. rewrite Hjvm. cbn.
  destruct (DetachCurrentThread vm (trace w) =? 0); cbn.
  - reflexivity.
  - rewrite <- app_assoc. reflexivity.
Qed.

End Attachment.

(** ** Counting runtime attaches and detaches *)

Lemma attach_calls_app (t u : list event) :
  attach_calls (t ++ u) = (attach_calls t + attach_calls u)%nat.
Proof. unfold attach_calls. rewrite filter_app, length_app. reflexivity. Qed.

Lemma detach_calls_app (t u : list event) :
  detach_calls (t ++ u) = (detach_calls t + detach_calls u)%nat.
Proof. unfold detach_calls. rewrite filter_app, length_app. reflexivity. Qed.

Lemma int_calls_app (t u : list event) :
  int_calls (t ++ u) = int_calls t ++ int_calls u.
Proof. unfold int_calls. apply flat_map_app. Qed.

Lemma detach_events_counts (vm : JavaVM) (t : list event) :
  attach_calls (detach_events vm t) = 0%nat
  /\ detach_calls (detach_events vm t) = 1%nat
  /\ int_calls (detach_events vm t) = [].
Proof.
  unfold detach_events. cbv zeta.
  destruct (DetachCurrentThread vm t =? 0); repeat split; reflexivity.
Qed.

Section Counting.

Variable host : collectd.
Variable vm : JavaVM.

Hypothesis malloc_succeeds : alloc_ok host malloc_cjni_env = true.
Hypothesis attach_succeeds : forall t, fst (AttachCurrentThread vm t) = 0.

(** The first attach of a thread, with a JVM that accepts it. *)
Lemma cjni_thread_attach_runtime (w : world) :
  jvm w = Some vm ->
  attach_count w = 0 ->
  attached_env w = None ->
  cjni_thread_attach host w
  = Some (Some (snd (AttachCurrentThread vm (trace w))),
          set_jvm_env_key
            (Some {| jvm_env := Some (snd (AttachCurrentThread vm (trace w)));
                     reference_counter := 1 |})
            (set_trace (trace w ++ [EvAttachCurrentThread 0]) w)).
Proof.
  intros Hjvm Hc He.
  rewrite (cjni_thread_attach_first host w vm Hjvm malloc_succeeds Hc He).
  pose proof (attach_succeeds (trace w)) as Hs.
  destruct (AttachCurrentThread vm (trace w)) as [status env].
  simpl in *. subst status. reflexivity.
Qed.

Lemma attach_attach_detach_detach (w : world) :
  jvm w = Some vm ->
  attach_count w = 0 ->
  attached_env w = None ->
  exists w',
    thread_ops host [attach; attach; detach; detach] w = Some (tt, w')
    /\ attach_calls (trace w') = (attach_calls (trace w) + 1)%nat
    /\ detach_calls (trace w') = (detach_calls (trace w) + 1)%nat
    /\ attach_count w' = 0.
Proof.
  intros Hjvm Hc He. unfold thread_ops.
  rewrite bind_run, (cjni_thread_attach_runtime w Hjvm Hc He).
  set (env := snd (AttachCurrentThread vm (trace w))).
  rewrite bind_run.
  rewrite (cjni_thread_attach_nested host _ env 1)
    by first [reflexivity | lia].
  rewrite bind_run. rewrite to_int_small by (simpl; lia).
  rewrite (cjni_thread_detach_nested _ env (1 + 1))
    by first [reflexivity | simpl; lia].
  rewrite bind_run.
  rewrite (cjni_thread_detach_last _ vm env)
    by first [exact Hjvm | reflexivity].
  cbv zeta. eexists. split; [reflexivity|]. cbn [trace set_trace set_jvm_env_key].
  rewrite !attach_calls_app, !detach_calls_app.
  match goal with
  | |- context [detach_events vm ?t] =>
      destruct (detach_events_counts vm t) as (Ha & Hd & _); rewrite Ha, Hd
  end.
  repeat split; try reflexivity; cbn; lia.
Qed.

Lemma attach_detach_attach_detach (w : world) :
  jvm w = Some vm ->
  attach_count w = 0 ->
  attached_env w = None ->
  exists w',
    thread_ops host [attach; detach; attach; detach] w = Some (tt, w')
    /\ attach_calls (trace w') = (attach_calls (trace w) + 2)%nat
    /\ detach_calls (trace w') = (detach_calls (trace w) + 2)%nat
    /\ attach_count w' = 0.
Proof.
  intros Hjvm Hc He. unfold thread_ops.
  rewrite bind_run, (cjni_thread_attach_runtime w Hjvm Hc He).
  rewrite bind_run.
  rewrite (cjni_thread_detach_last _ vm _)
    by first [exact Hjvm | reflexivity].
  cbv beta iota zeta. rewrite bind_run.
  rewrite cjni_thread_attach_runtime by first [exact Hjvm | reflexivity].
  rewrite bind_run.
  rewrite (cjni_thread_detach_last _ vm _)
    by first [exact Hjvm | reflexivity].
  cbv beta iota zeta. eexists. split; [reflexivity|]. cbn [trace set_trace set_jvm_env_key].
  rewrite !attach_calls_app, !detach_calls_app.
  repeat match goal with
  | |- context [detach_calls (detach_events vm ?t)] =>
      destruct (detach_events_counts vm t) as (Ha & Hd & _);
      rewrite Ha, Hd; clear Ha Hd
  end.
  repeat split; try reflexivity; cbn; lia.
Qed.

End Counting.

(** ** The entry points [cjni_read] and [cjni_write] *)

Section EntryPoints.

Variable host : collectd.

(** The state a successful attach leaves. *)
Lemma cjni_thread_attach_success (w w1 : world) (vm : JavaVM) (env : JNIEnv) :
  jvm w = Some vm ->
  thread_state_ok w ->
  cjni_thread_attach host w = Some (Some env, w1) ->
  w1 = set_jvm_env_key
         (Some {| jvm_env := Some env;
                  reference_counter := attach_count w + 1 |})
         (set_trace
            (trace w ++ (if attach_count w =? 0
                         then [EvAttachCurrentThread 0] else []))
            w).
Proof.
  intros Hjvm Hok H.
  unfold thread_state_ok, attach_count in *.
  destruct (jvm_env_key w) as [[e c]|] eqn:Hkey; simpl in *.
  - destruct Hok as [[Hc He]|[Hc He]]; subst.
    + destruct (alloc_ok host malloc_cjni_env) eqn:Halloc.
      * rewrite (cjni_thread_attach_first host w vm Hjvm Halloc) in H
          by (unfold attach_count, attached_env; rewrite Hkey; reflexivity).
        destruct (AttachCurrentThread vm (trace w)) as [status env'].
        destruct (status =? 0) eqn:Hs; [|discriminate].
        apply Z.eqb_eq in Hs. subst status. inversion H; subst. reflexivity.
      * unfold cjni_thread_attach in H. revert H. run. rewrite Hkey. cbn.
        rewrite Hjvm. cbn.
        destruct (AttachCurrentThread vm (trace w)) as [status env'].
        destruct (status =? 0) eqn:Hs; cbn; [|discriminate].
        apply Z.eqb_eq in Hs. subst status. intros H. inversion H; subst.
        reflexivity.
    + destruct e as [env'|]; [|congruence].
      rewrite (cjni_thread_attach_nested host w env' c Hkey) in H by lia.
      inversion H; subst. rewrite to_int_small by lia.
      assert (Hz : (c =? 0) = false) by (apply Z.eqb_neq; lia).
      rewrite Hz. unfold set_jvm_env_key, set_trace. simpl.
      rewrite app_nil_r. reflexivity.
  - destruct (alloc_ok host malloc_cjni_env) eqn:Halloc.
    + rewrite (cjni_thread_attach_first host w vm Hjvm Halloc) in H
        by (unfold attach_count, attached_env; rewrite Hkey; reflexivity).
      destruct (AttachCurrentThread vm (trace w)) as [status env'].
      destruct (status =? 0) eqn:Hs; [|discriminate].
      apply Z.eqb_eq in Hs. subst status. inversion H; subst. reflexivity.
    + unfold cjni_thread_attach in H. revert H. run. rewrite Hkey. cbn.
      rewrite Halloc. cbn. discriminate.
Qed.

(** A failed attach leaves the counter at zero. *)
Lemma cjni_thread_attach_failure (w w1 : world) (vm : JavaVM) :
  jvm w = Some vm ->
  thread_state_ok w ->
  cjni_thread_attach host w = Some (None, w1) ->
  attach_count w = 0 /\ attach_count w1 = 0
  /\ detach_calls (trace w1) = detach_calls (trace w).
Proof.
  intros Hjvm Hok H.
  unfold thread_state_ok, attach_count in *.
  destruct (jvm_env_key w) as [[e c]|] eqn:Hkey; simpl in *.
  - destruct Hok as [[Hc He]|[Hc He]]; subst.
    + unfold cjni_thread_attach in H. revert H. run. rewrite Hkey. cbn.
      rewrite Hjvm. cbn.
      destruct (AttachCurrentThread vm (trace w)) as [status env'].
      destruct (status =? 0) eqn:Hs; cbn; [discriminate|].
      intros H. inversion H; subst. fields. rewrite Hkey. fields.
      repeat split. rewrite !detach_calls_app. cbn. lia.
    + destruct e as [env'|]; [|congruence].
      rewrite (cjni_thread_attach_nested host w env' c Hkey) in H by lia.
      discriminate.
  - unfold cjni_thread_attach in H. revert H. run. rewrite Hkey. cbn.
    destruct (alloc_ok host malloc_cjni_env); cbn.
    + rewrite Hjvm. cbn.
      destruct (AttachCurrentThread vm (trace w)) as [status env'].
      destruct (status =? 0) eqn:Hs; cbn; [discriminate|].
      intros H. inversion H; subst. fields.
      repeat split. rewrite !detach_calls_app. cbn. lia.
    + intros H. inversion H; subst. fields. rewrite Hkey.
      repeat split. rewrite !detach_calls_app. cbn. lia.
Qed.

(** The detach of a thread that holds a runtime context. *)
Lemma cjni_thread_detach_attached (w : world) (vm : JavaVM) (env : JNIEnv)
  (counter : Z) :
  jvm w = Some vm ->
  jvm_env_key w = Some {| jvm_env := Some env; reference_counter := counter |} ->
  0 < counter < 2 ^ 31 ->
  cjni_thread_detach w
  = Some (0,
          set_jvm_env_key
            (Some {| jvm_env := if counter =? 1 then None else Some env;
                     reference_counter := counter - 1 |})
            (set_trace
               (trace w ++ (if counter =? 1 then detach_events vm (trace w)
                            else []))
               w)).
Proof.
  intros Hjvm Hkey Hc. destruct (counter =? 1) eqn:H1.
  - apply Z.eqb_eq in H1. subst counter.
    rewrite (cjni_thread_detach_last w vm env Hjvm Hkey). reflexivity.
  - apply Z.eqb_neq in H1.
    rewrite (cjni_thread_detach_nested w env counter Hkey) by lia.
    unfold set_jvm_env_key, set_trace. simpl. rewrite app_nil_r. reflexivity.
Qed.

End EntryPoints.

Lemma thread_state_ok_range (w : world) :
  thread_state_ok w -> 0 <= attach_count w < 2 ^ 31 - 1.
Proof.
  unfold thread_state_ok, attach_count.
  destruct (jvm_env_key w) as [[e c]|]; simpl; [|lia].
  intros [[Hc _]|[Hc _]]; lia.
Qed.

(** [cjni_read] past a successful attach. *)
Lemma cjni_read_attached
  (host : collectd) (w w1 : world) (vm : JavaVM) (env : JNIEnv)
  (cbi : cjni_callback_info_t) (o : jobject) (m : jmethodID) :
  jvm w = Some vm ->
  thread_state_ok w ->
  cbi_object cbi = Some o ->
  cbi_method cbi = Some m ->
  cjni_thread_attach host w = Some (Some env, w1) ->
  exists w',
    cjni_read host (Some {| ud_data := Some cbi |}) w = Some (0, w')
    /\ int_calls (trace w')
       = int_calls (trace w)
         ++ [(o, m, CallIntMethod_status env (trace w1) o m [])]
    /\ attach_count w' = attach_count w.
Proof.
  intros Hjvm Hok Ho Hm Hattach.
  pose proof (thread_state_ok_range w Hok) as Hrange.
  pose proof (cjni_thread_attach_success host w w1 vm env Hjvm Hok Hattach)
    as Hw1.
  unfold cjni_read. run. rewrite Hjvm, Hattach, Ho, Hm.
  set (ret := CallIntMethod_status env (trace w1) o m []).
  set (w2 := set_trace (trace w1 ++ [EvCallIntMethod o m [] ret]) w1).
  assert (Hjvm2 : jvm w2 = Some vm) by (subst w2 w1; exact Hjvm).
  assert (Hkey2 : jvm_env_key w2
                  = Some {| jvm_env := Some env;
                            reference_counter := attach_count w + 1 |})
    by (subst w2 w1; reflexivity).
  rewrite (cjni_thread_detach_attached w2 vm env _ Hjvm2 Hkey2) by lia.
  cbn [negb Z.eqb]. eexists. split; [reflexivity|].
  fields. split.
  - subst w2 w1. fields. rewrite !int_calls_app.
    destruct (detach_events_counts vm
                ((trace w ++ (if attach_count w =? 0
                              then [EvAttachCurrentThread 0] else []))
                 ++ [EvCallIntMethod o m [] ret])) as (_ & _ & Hd).
    destruct (attach_count w + 1 =? 1); destruct (attach_count w =? 0);
      cbn [int_calls flat_map app]; rewrite ?Hd, ?app_nil_r; reflexivity.
  - unfold attach_count at 1. fields. lia.
Qed.

(** [cjni_read] leaves the attach count as it found it, on every path
    that returns. *)
Lemma cjni_read_balanced (host : collectd) (w w' : world) (vm : JavaVM)
  (ud : option user_data_t) (r : Z) :
  jvm w = Some vm ->
  thread_state_ok w ->
  cjni_read host ud w = Some (r, w') ->
  attach_count w' = attach_count w.
Proof.
  intros Hjvm Hok H.
  destruct ud as [[[cbi|]]|].
  - destruct (cjni_thread_attach host w) as [[[env|] w1]|] eqn:Ha.
    + destruct (cbi_object cbi) as [o|] eqn:Ho;
        [destruct (cbi_method cbi) as [m|] eqn:Hm|].
      * destruct (cjni_read_attached host w w1 vm env cbi o m
                    Hjvm Hok Ho Hm Ha) as (w2 & Hr & _ & Hc).
        rewrite Hr in H. inversion H; subst. exact Hc.
      * revert H. unfold cjni_read. run. rewrite Hjvm, Ha, Ho, Hm.
        discriminate.
      * revert H. unfold cjni_read. run. rewrite Hjvm, Ha, Ho.
        discriminate.
    + destruct (cjni_thread_attach_failure host w w1 vm Hjvm Hok Ha)
        as (H0 & H1 & _).
      revert H. unfold cjni_read. run. rewrite Hjvm, Ha.
      intros H. inversion H; subst. lia.
    + revert H. unfold cjni_read. run. rewrite Hjvm, Ha. discriminate.
  - revert H. unfold cjni_read. run. rewrite Hjvm.
    intros H. inversion H; subst. reflexivity.
  - revert H. unfold cjni_read. run. rewrite Hjvm.
    intros H. inversion H; subst. reflexivity.
Qed.

(** [cjni_write] past a successful attach and a successful conversion:
    the callback is called, the thread detached, and 0 returned. *)
Lemma cjni_write_attached (host : collectd) (w w1 : world) (vm : JavaVM)
  (env : JNIEnv) (cbi : cjni_callback_info_t) (o vl_java : jobject)
  (m : jmethodID) (ds : data_set_t) (vl : value_list_t) :
  jvm w = Some vm ->
  thread_state_ok w ->
  cbi_object cbi = Some o ->
  cbi_method cbi = Some m ->
  cjni_thread_attach host w = Some (Some env, w1) ->
  ctoj_value_list host env ds vl = Ok vl_java ->
  exists w',
    cjni_write host ds vl (Some {| ud_data := Some cbi |}) w = Some (0, w')
    /\ attach_count w' = attach_count w.
Proof.
  intros Hjvm Hok Ho Hm Hattach Hconv.
  pose proof (thread_state_ok_range w Hok) as Hrange.
  pose proof (cjni_thread_attach_success host w w1 vm env Hjvm Hok Hattach)
    as Hw1.
  unfold cjni_write. run. rewrite Hjvm, Hattach, Hconv, Ho, Hm.
  match goal with
  | |- context [cjni_thread_detach ?w2] =>
      rewrite (cjni_thread_detach_attached w2 vm env (attach_count w + 1))
        by first [subst w1; exact Hjvm | subst w1; reflexivity | lia]
  end.
  cbn [negb Z.eqb]. eexists. split; [reflexivity|].
  unfold attach_count at 1. fields. lia.
Qed.

(** [cjni_write] past a successful attach and a failed conversion: it
    returns -1 at once; the thread is not detached. *)
Lemma cjni_write_conversion_failed (host : collectd) (w w1 : world)
  (vm : JavaVM) (env : JNIEnv) (cbi : cjni_callback_info_t)
  (ds : data_set_t) (vl : value_list_t) (log : list string) :
  jvm w = Some vm ->
  thread_state_ok w ->
  cjni_thread_attach host w = Some (Some env, w1) ->
  ctoj_value_list host env ds vl = Failed log ->
  exists w',
    cjni_write host ds vl (Some {| ud_data := Some cbi |}) w = Some (-1, w')
    /\ attach_count w' = attach_count w + 1
    /\ detach_calls (trace w') = detach_calls (trace w)
    /\ int_calls (trace w') = int_calls (trace w).
Proof.
  intros Hjvm Hok Hattach Hconv.
  pose proof (cjni_thread_attach_success host w w1 vm env Hjvm Hok Hattach)
    as Hw1.
  unfold cjni_write. run. rewrite Hjvm, Hattach, Hconv, ERRORS_run.
  eexists. split; [reflexivity|]. subst w1. fields.
  split; [reflexivity|].
  rewrite !detach_calls_app, !int_calls_app.
  assert (Hlog : forall l, detach_calls (map (Ev_plugin_log LOG_ERR) l) = 0%nat
                           /\ int_calls (map (Ev_plugin_log LOG_ERR) l) = []).
  { induction l as [|x l [IH1 IH2]]; split; try reflexivity.
    - exact IH1.
    - exact IH2. }
  destruct (Hlog log) as [Hl1 Hl2]. rewrite Hl1, Hl2.
  destruct (attach_count w =? 0); cbn; rewrite ?app_nil_r; split;
    try reflexivity; lia.
Qed.

(** ** Claims on thread attachment and on the steady-state entry points *)

(** C3: with a JVM that accepts the attach, a thread that holds no runtime
    context and issues attach, attach, detach, detach performs one runtime
    attach and one runtime detach, and issuing attach, detach, attach,
    detach it performs two of each; an attach with a positive counter only
    increments the counter and returns the context the thread holds; a
    detach performs the runtime detach exactly when it brings the counter
    to zero. *)
Theorem thread_attach_reference_counting (host : collectd) (vm : JavaVM) :
  alloc_ok host malloc_cjni_env = true ->
  (forall t, fst (AttachCurrentThread vm t) = 0) ->
  (forall w,
     jvm w = Some vm -> attach_count w = 0 -> attached_env w = None ->
     (exists w',
        thread_ops host [attach; attach; detach; detach] w = Some (tt, w')
        /\ attach_calls (trace w') = (attach_calls (trace w) + 1)%nat
        /\ detach_calls (trace w') = (detach_calls (trace w) + 1)%nat)
     /\ (exists w',
           thread_ops host [attach; detach; attach; detach] w = Some (tt, w')
           /\ attach_calls (trace w') = (attach_calls (trace w) + 2)%nat
           /\ detach_calls (trace w') = (detach_calls (trace w) + 2)%nat))
  /\ (forall w env counter,
        jvm_env_key w
        = Some {| jvm_env := Some env; reference_counter := counter |} ->
        0 < counter < 2 ^ 31 - 1 ->
        cjni_thread_attach host w
        = Some (Some env,
                set_jvm_env_key
                  (Some {| jvm_env := Some env;
                           reference_counter := counter + 1 |}) w))
  /\ (forall w env counter,
        jvm w = Some vm ->
        jvm_env_key w
        = Some {| jvm_env := Some env; reference_counter := counter |} ->
        0 < counter < 2 ^ 31 ->
        exists w',
          cjni_thread_detach w = Some (0, w')
          /\ attach_count w' = counter - 1
          /\ attached_env w' = (if counter =? 1 then None else Some env)
          /\ attach_calls (trace w') = attach_calls (trace w)
          /\ detach_calls (trace w')
             = (detach_calls (trace w)
                + (if (counter =? 1)%Z then 1 else 0))%nat).
Proof.
  intros Hmalloc Hattach. split; [|split].
  - intros w Hjvm Hc He. split.
    + destruct (attach_attach_detach_detach host vm Hmalloc Hattach w Hjvm Hc He)
        as (w' & H1 & H2 & H3 & _).
      exists w'. auto.
    + destruct (attach_detach_attach_detach host vm Hmalloc Hattach w Hjvm Hc He)
        as (w' & H1 & H2 & H3 & _).
      exists w'. auto.
  - intros w env counter Hkey Hc.
    rewrite (cjni_thread_attach_nested host w env counter Hkey) by lia.
    rewrite to_int_small by lia. reflexivity.
  - intros w env counter Hjvm Hkey Hc.
    rewrite (cjni_thread_detach_attached w vm env counter Hjvm Hkey Hc).
    eexists. split; [reflexivity|].
    unfold attach_count, attached_env. fields.
    rewrite attach_calls_app, detach_calls_app.
    destruct (detach_events_counts vm (trace w)) as (Ha & Hd & _).
    destruct (counter =? 1); rewrite ?Ha, ?Hd; cbn; repeat split; lia.
Qed.

Lemma thread_attach_reference_counting_witness :
  (exists w',
     thread_ops Sim.host [attach; attach; detach; detach] (Sim.started Sim.vm)
     = Some (tt, w')
     /\ attach_calls (trace w') = 1%nat /\ detach_calls (trace w') = 1%nat)
  /\ (exists w',
        thread_ops Sim.host [attach; detach; attach; detach] (Sim.started Sim.vm)
        = Some (tt, w')
        /\ attach_calls (trace w') = 2%nat /\ detach_calls (trace w') = 2%nat).
Proof.
  exact (proj1 (thread_attach_reference_counting Sim.host Sim.vm
                  eq_refl (fun _ => eq_refl))
           (Sim.started Sim.vm) eq_refl eq_refl eq_refl).
Defined.

(** C9: on the path of [cjni_write] where the thread was attached and the
    conversion of the value list fails, the function returns -1 without
    any detach: the attach count of the thread is one more than before
    the call, no runtime detach was performed and no callback called. *)
Theorem cjni_write_conversion_failure_leaves_thread_attached
  (host : collectd) (w w1 : world) (vm : JavaVM) (env : JNIEnv)
  (cbi : cjni_callback_info_t) (ds : data_set_t) (vl : value_list_t)
  (log : list string) :
  jvm w = Some vm ->
  thread_state_ok w ->
  cjni_thread_attach host w = Some (Some env, w1) ->
  ctoj_value_list host env ds vl = Failed log ->
  exists w',
    cjni_write host ds vl (Some {| ud_data := Some cbi |}) w = Some (-1, w')
    /\ attach_count w' = attach_count w + 1
    /\ detach_calls (trace w') = detach_calls (trace w)
    /\ int_calls (trace w') = int_calls (trace w).
Proof. apply cjni_write_conversion_failed. Qed.

Lemma cjni_write_conversion_failure_leaves_thread_attached_witness :
  exists w',
    cjni_write Sim.host Sim.ds Sim.vl (Some {| ud_data := Some Sim.write_cbi |})
      (Sim.started (Sim.vm_with Sim.env_without_classes))
    = Some (-1, w')
    /\ attach_count w' = 1
    /\ detach_calls (trace w') = 0%nat
    /\ int_calls (trace w') = [].
Proof.
  exact (cjni_write_conversion_failure_leaves_thread_attached
           Sim.host (Sim.started (Sim.vm_with Sim.env_without_classes))
           (set_jvm_env_key
              (Some {| jvm_env := Some Sim.env_without_classes;
                       reference_counter := 1 |})
              (set_trace [EvAttachCurrentThread 0]
                 (Sim.started (Sim.vm_with Sim.env_without_classes))))
           (Sim.vm_with Sim.env_without_classes) Sim.env_without_classes
           Sim.write_cbi Sim.ds Sim.vl
           ["java plugin: ctoj_value_list: FindClass (org.collectd.api.ValueList) failed."%string]
           eq_refl I eq_refl eq_refl).
Defined.

(** C10: whenever [cjni_read] attaches and invokes the registered Read
    callback, it returns the status of the thread detach, which is 0,
    whatever status the managed callback returned: the status of the
    callback, recorded in the trace, does not reach the caller. *)
Theorem cjni_read_returns_detach_status
  (host : collectd) (w w1 : world) (vm : JavaVM) (env : JNIEnv)
  (cbi : cjni_callback_info_t) (o : jobject) (m : jmethodID) :
  jvm w = Some vm ->
  thread_state_ok w ->
  cbi_object cbi = Some o ->
  cbi_method cbi = Some m ->
  cjni_thread_attach host w = Some (Some env, w1) ->
  exists w',
    cjni_read host (Some {| ud_data := Some cbi |}) w = Some (0, w')
    /\ int_calls (trace w')
       = int_calls (trace w)
         ++ [(o, m, CallIntMethod_status env (trace w1) o m [])].
Proof.
  intros Hjvm Hok Ho Hm Hattach.
  destruct (cjni_read_attached host w w1 vm env cbi o m Hjvm Hok Ho Hm Hattach)
    as (w' & Hr & Hcalls & _).
  exists w'. auto.
Qed.

(** The Read callback returns 1, [cjni_read] returns 0. *)
Lemma cjni_read_returns_detach_status_witness :
  exists w',
    cjni_read Sim.host (Some {| ud_data := Some Sim.read_cbi |})
      (Sim.started (Sim.vm_with (Sim.env_returning 1)))
    = Some (0, w')
    /\ int_calls (trace w')
       = [(Sim.plugin_object, Sim.read_method, 1)].
Proof.
  exact (cjni_read_returns_detach_status
           Sim.host (Sim.started (Sim.vm_with (Sim.env_returning 1)))
           (set_jvm_env_key
              (Some {| jvm_env := Some (Sim.env_returning 1);
                       reference_counter := 1 |})
              (set_trace [EvAttachCurrentThread 0]
                 (Sim.started (Sim.vm_with (Sim.env_returning 1)))))
           (Sim.vm_with (Sim.env_returning 1)) (Sim.env_returning 1)
           Sim.read_cbi Sim.plugin_object Sim.read_method
           eq_refl I eq_refl eq_refl eq_refl).
Defined.

(** ** Dispatching values *)

Lemma dispatch_calls_app (t u : list event) :
  dispatch_calls (t ++ u) = dispatch_calls t ++ dispatch_calls u.
Proof. unfold dispatch_calls. apply flat_map_app. Qed.

Lemma dispatch_calls_log (log : list string) :
  dispatch_calls (map (Ev_plugin_log LOG_ERR) log) = [].
Proof. induction log as [|msg log IH]; [reflexivity | exact IH]. Qed.

(** What [cjni_api_dispatch_values] does, by the outcome of the
    conversion. *)
Lemma cjni_api_dispatch_values_run (host : collectd) (env : JNIEnv)
  (java_vl : jobject) (w : world) :
  cjni_api_dispatch_values host env java_vl w
  = match jtoc_value_list host env (VALUE_LIST_INIT host) java_vl with
    | Ok vl =>
        let status := plugin_dispatch_values_status host (trace w) vl in
        Some (status,
              set_trace (trace w ++ [Ev_plugin_dispatch_values vl status]) w)
    | Failed log =>
        Some (-1,
              set_trace
                (trace w
                 ++ map (Ev_plugin_log LOG_ERR)
                      (log ++ ["java plugin: cjni_api_dispatch_values: jtoc_value_list failed."%string]))
                w)
    | Undefined => None
    end.
Proof.
  unfold cjni_api_dispatch_values.
  destruct (jtoc_value_list host env (VALUE_LIST_INIT host) java_vl)
    as [vl|log|].
  - reflexivity.
  - run. rewrite ERRORS_run. fields. rewrite map_app, app_assoc. reflexivity.
  - reflexivity.
Qed.

(** C1: if the conversion of the managed value list fails,
    [cjni_api_dispatch_values] returns the non-zero status -1 and
    [plugin_dispatch_values] is not called; whenever the call has handed a
    value list to [plugin_dispatch_values], the whole conversion had
    succeeded and that value list is its result. *)
Theorem dispatch_values_never_dispatches_after_failed_conversion
  (host : collectd) (env : JNIEnv) (java_vl : jobject) (w : world) :
  (forall log,
     jtoc_value_list host env (VALUE_LIST_INIT host) java_vl = Failed log ->
     exists w',
       cjni_api_dispatch_values host env java_vl w = Some (-1, w')
       /\ -1 <> 0
       /\ dispatch_calls (trace w') = dispatch_calls (trace w))
  /\ (forall r w',
        cjni_api_dispatch_values host env java_vl w = Some (r, w') ->
        dispatch_calls (trace w') <> dispatch_calls (trace w) ->
        exists vl,
          jtoc_value_list host env (VALUE_LIST_INIT host) java_vl = Ok vl
          /\ dispatch_calls (trace w') = dispatch_calls (trace w) ++ [vl]).
Proof.
  split.
  - intros log Hfail. rewrite cjni_api_dispatch_values_run, Hfail.
    eexists. split; [reflexivity|]. split; [lia|].
    fields. rewrite dispatch_calls_app, dispatch_calls_log.
    apply app_nil_r.
  - intros r w' Hrun Hcalls. rewrite cjni_api_dispatch_values_run in Hrun.
    destruct (jtoc_value_list host env (VALUE_LIST_INIT host) java_vl)
      as [vl|log|]; [| |discriminate].
    + exists vl. split; [reflexivity|].
      inversion Hrun; subst. fields. apply dispatch_calls_app.
    + exfalso. apply Hcalls. inversion Hrun; subst. fields.
      rewrite dispatch_calls_app, dispatch_calls_log. apply app_nil_r.
Qed.

(** A managed value list whose class cannot be obtained: -1 and no
    dispatch. *)
Lemma dispatch_values_never_dispatches_after_failed_conversion_witness :
  exists w',
    cjni_api_dispatch_values Sim.host Sim.env_without_object_class
      Sim.plugin_object (Sim.started Sim.vm)
    = Some (-1, w')
    /\ -1 <> 0
    /\ dispatch_calls (trace w') = [].
Proof.
  exact (proj1 (dispatch_values_never_dispatches_after_failed_conversion
                  Sim.host Sim.env_without_object_class Sim.plugin_object
                  (Sim.started Sim.vm))
           ["java plugin: jtoc_value_list: GetObjectClass failed."%string]
           eq_refl).
Defined.

(** ** Plugin configuration blocks *)

Lemma existsb_streq_In (name : string) (configs : list java_plugin_config_t) :
  existsb (fun c => streq (jcfg_name c) name) configs = true
  <-> In name (map jcfg_name configs).
Proof.
  rewrite existsb_exists, in_map_iff. unfold streq.
  split; intros [c [H1 H2]]; exists c.
  - apply String.eqb_eq in H2. auto.
  - split; [exact H2 | apply String.eqb_eq; exact H1].
Qed.

(** Whatever its outcome, a call only ever appends to the stored list. *)
Lemma cjni_config_plugin_block_extends (host : collectd) (ci : oconfig_item_t)
  (w w' : world) (r : Z) :
  cjni_config_plugin_block host ci w = Some (r, w') ->
  java_plugin_configs w' = java_plugin_configs w
  \/ (exists name,
        ci_values ci = [OCONFIG_TYPE_STRING name]
        /\ ~ In name (map jcfg_name (java_plugin_configs w))
        /\ java_plugin_configs w'
           = java_plugin_configs w
             ++ [{| jcfg_name := name; jcfg_ci := Some ci |}]).
Proof.
  unfold cjni_config_plugin_block.
  destruct (ci_values ci) as [|[name|?|?|?] [|? ?]]; run;
    try (intros H; inversion H; subst; left; reflexivity).
  destruct (alloc_ok host strdup_block_name); cbn;
    [|intros H; inversion H; subst; left; reflexivity].
  destruct (existsb (fun c => streq (jcfg_name c) name) (java_plugin_configs w))
    eqn:Hdup; [intros H; inversion H; subst; left; reflexivity|].
  destruct (alloc_ok host realloc_java_plugin_configs); cbn;
    [|intros H; inversion H; subst; left; reflexivity].
  destruct (alloc_ok host oconfig_clone_ci); cbn;
    [|intros H; inversion H; subst; left; reflexivity].
  intros H. inversion H; subst. right. exists name. repeat split.
  intros Hin. apply existsb_streq_In in Hin. congruence.
Qed.

(** C2: when the name of a Plugin block equals the name of a block
    already stored, [cjni_config_plugin_block] returns 0, writes one
    warning and changes nothing else: the stored list, and in it the first
    block of that name, is as it was. *)
Theorem duplicate_plugin_block_is_discarded
  (host : collectd) (ci : oconfig_item_t) (name : string) (w : world) :
  ci_values ci = [OCONFIG_TYPE_STRING name] ->
  alloc_ok host strdup_block_name = true ->
  In name (map jcfg_name (java_plugin_configs w)) ->
  exists msg w',
    cjni_config_plugin_block host ci w = Some (0, w')
    /\ w' = set_trace (trace w ++ [Ev_plugin_log LOG_WARNING msg]) w
    /\ java_plugin_configs w' = java_plugin_configs w
    /\ find (fun c => streq (jcfg_name c) name) (java_plugin_configs w')
       = find (fun c => streq (jcfg_name c) name) (java_plugin_configs w)
    /\ logged LOG_WARNING (trace w') = logged LOG_WARNING (trace w) ++ [msg].
Proof.
  intros Hvalues Halloc Hin. apply existsb_streq_In in Hin.
  unfold cjni_config_plugin_block. rewrite Hvalues, Halloc. run. cbn [negb].
  rewrite Hin. eexists. eexists. split; [reflexivity|].
  split; [reflexivity|]. split; [reflexivity|]. split; [reflexivity|].
  fields. unfold logged. rewrite flat_map_app. reflexivity.
Qed.

Lemma duplicate_plugin_block_is_discarded_witness :
  exists msg w',
    cjni_config_plugin_block Sim.host Sim.duplicate_block Sim.configured
    = Some (0, w')
    /\ w' = set_trace (trace Sim.configured ++ [Ev_plugin_log LOG_WARNING msg])
              Sim.configured
    /\ java_plugin_configs w' = java_plugin_configs Sim.configured
    /\ find (fun c => streq (jcfg_name c) "example") (java_plugin_configs w')
       = find (fun c => streq (jcfg_name c) "example")
           (java_plugin_configs Sim.configured)
    /\ logged LOG_WARNING (trace w')
       = logged LOG_WARNING (trace Sim.configured) ++ [msg].
Proof.
  exact (duplicate_plugin_block_is_discarded Sim.host Sim.duplicate_block
           "example" Sim.configured eq_refl eq_refl (or_introl eq_refl)).
Defined.

(** ** Callback descriptors *)

(** C7: the descriptor a successful [cjni_callback_info_create] produces
    holds, in its object field, the reference the caller passed in;
    [NewGlobalRef] was called on it and its value dropped, so when the
    caller's reference is a local one the descriptor does not hold the
    global reference. *)
Theorem callback_descriptor_holds_the_callers_reference
  (host : collectd) (env : JNIEnv) (o_name o_callback : jobject) (type : Z)
  (w w' : world) (cbi : cjni_callback_info_t) :
  cjni_callback_info_create host env o_name o_callback type w
  = Some (Some cbi, w') ->
  cbi_object cbi = Some o_callback
  /\ w' = set_trace (trace w ++ [EvNewGlobalRef o_callback]) w
  /\ (ref_kind_of o_callback = LocalRef ->
      cbi_object cbi <> Some (NewGlobalRef o_callback)).
Proof.
  unfold cjni_callback_info_create.
  destruct (if type =? CB_TYPE_CONFIG then _ else _) as [[method_name sig]|];
    run; [|discriminate].
  destruct (GetStringUTFChars env o_name); [|discriminate].
  destruct (alloc_ok host malloc_cbi); cbn [negb]; [|discriminate].
  destruct (alloc_ok host strdup_cbi_name); cbn [negb]; [|discriminate].
  destruct (GetObjectClass env o_callback); [|discriminate].
  destruct (GetMethodID env j method_name sig); [|discriminate].
  intros H. inversion H; subst. cbn [cbi_object].
  split; [reflexivity|]. split; [reflexivity|].
  intros Hlocal Heq. inversion Heq as [Hobj].
  destruct o_callback as [k d]. cbn in Hlocal, Hobj. subst k. discriminate.
Qed.

Lemma callback_descriptor_holds_the_callers_reference_witness :
  cbi_object Sim.read_cbi = Some Sim.plugin_object
  /\ set_trace [EvNewGlobalRef Sim.plugin_object] (Sim.started Sim.vm)
     = set_trace (trace (Sim.started Sim.vm)
                  ++ [EvNewGlobalRef Sim.plugin_object])
         (Sim.started Sim.vm)
  /\ (ref_kind_of Sim.plugin_object = LocalRef ->
      cbi_object Sim.read_cbi <> Some (NewGlobalRef Sim.plugin_object)).
Proof.
  exact (callback_descriptor_holds_the_callers_reference
           Sim.host Sim.env Sim.plugin_name Sim.plugin_object CB_TYPE_READ
           (Sim.started Sim.vm)
           (set_trace [EvNewGlobalRef Sim.plugin_object] (Sim.started Sim.vm))
           Sim.read_cbi eq_refl).
Defined.

(** ** Initialising the plugins *)

Lemma set_trace_twice (t u : list event) (w : world) :
  set_trace (trace (set_trace (trace w ++ t) w) ++ u) (set_trace (trace w ++ t) w)
  = set_trace (trace w ++ (t ++ u)) w.
Proof. unfold set_trace. simpl. rewrite app_assoc. reflexivity. Qed.

Lemma set_trace_nil (w : world) : set_trace (trace w ++ []) w = w.
Proof. unfold set_trace. rewrite app_nil_r. destruct w; reflexivity. Qed.

Lemma unregistered_reads_app (t u : list event) :
  unregistered_reads (t ++ u) = unregistered_reads t ++ unregistered_reads u.
Proof. unfold unregistered_reads. apply flat_map_app. Qed.

Lemma logged_app (level : severity) (t u : list event) :
  logged level (t ++ u) = logged level t ++ logged level u.
Proof. unfold logged. apply flat_map_app. Qed.

(** The loop of [cjni_init_plugins]: the events it appends. *)
Lemma cjni_init_plugins_loop_spec (env : JNIEnv)
  (callbacks : list cjni_callback_info_t) :
  (forall cb, In cb callbacks -> cbi_type cb = CB_TYPE_INIT ->
              cbi_object cb <> None /\ cbi_method cb <> None) ->
  forall w,
  exists evs,
    cjni_init_plugins_loop env callbacks w
    = Some (tt, set_trace (trace w ++ evs) w)
    /\ Forall2 (fun cb call => cbi_object cb = Some (fst (fst call))
                               /\ cbi_method cb = Some (snd (fst call)))
         (filter (is_type CB_TYPE_INIT) callbacks) (int_calls evs)
    /\ unregistered_reads evs
       = map (fun p => cbi_name (fst p))
           (filter (fun p => negb (snd (snd p) =? 0))
              (combine (filter (is_type CB_TYPE_INIT) callbacks)
                 (int_calls evs)))
    /\ List.length (logged LOG_ERR evs) = List.length (unregistered_reads evs)
    /\ deleted_global_refs evs = [].
Proof.
  induction callbacks as [|cb rest IH]; intros Hnonnull w.
  - exists []. cbn. rewrite set_trace_nil. repeat split. constructor.
  - assert (Hrest : forall cb, In cb rest -> cbi_type cb = CB_TYPE_INIT ->
                               cbi_object cb <> None /\ cbi_method cb <> None)
      by (intros cb' Hin; apply Hnonnull; right; exact Hin).
    cbn [cjni_init_plugins_loop filter].
    change (cbi_type cb =? CB_TYPE_INIT) with (is_type CB_TYPE_INIT cb).
    destruct (is_type CB_TYPE_INIT cb) eqn:Htype; cbn [negb].
    + apply Z.eqb_eq in Htype.
      destruct (Hnonnull cb (or_introl eq_refl) Htype) as [Ho Hm].
      destruct (cbi_object cb) as [o|] eqn:Eo; [|congruence].
      destruct (cbi_method cb) as [m|] eqn:Em; [|congruence].
      run. fields.
      set (status := CallIntMethod_status env (trace w) o m []).
      destruct (status =? 0) eqn:Hs; cbn [negb].
      * destruct (IH Hrest
                    (set_trace (trace w ++ [EvCallIntMethod o m [] status]) w))
          as (evs & Hrun & Hcalls & Hunreg & Hlog & Hdel).
        exists ([EvCallIntMethod o m [] status] ++ evs).
        rewrite Hrun, set_trace_twice. split; [reflexivity|].
        rewrite int_calls_app, unregistered_reads_app, logged_app.
        cbn [int_calls unregistered_reads logged deleted_global_refs
             flat_map app combine filter snd fst negb map].
        rewrite Hs. cbn [negb].
        split; [constructor; [split; assumption | exact Hcalls]|].
        split; [exact Hunreg|]. split; [exact Hlog|].
        exact Hdel.
      * match goal with
        | |- context [Ev_plugin_log LOG_ERR ?msg] => set (line := msg)
        end.
        destruct (IH Hrest
                    (set_trace
                       (trace w
                        ++ [EvCallIntMethod o m [] status;
                            Ev_plugin_log LOG_ERR line;
                            Ev_plugin_unregister_read (cbi_name cb)]) w))
          as (evs & Hrun & Hcalls & Hunreg & Hlog & Hdel).
        exists ([EvCallIntMethod o m [] status;
                 Ev_plugin_log LOG_ERR line;
                 Ev_plugin_unregister_read (cbi_name cb)] ++ evs).
        match goal with
        | |- context [cjni_init_plugins_loop env rest ?w2] =>
            replace w2
              with (set_trace
                      (trace w
                       ++ [EvCallIntMethod o m [] status;
                           Ev_plugin_log LOG_ERR line;
                           Ev_plugin_unregister_read (cbi_name cb)]) w)
              by (unfold set_trace; cbn; rewrite <- !app_assoc; reflexivity)
        end.
        rewrite Hrun, set_trace_twice. split; [reflexivity|].
        rewrite int_calls_app, unregistered_reads_app, logged_app.
        cbn [int_calls unregistered_reads logged deleted_global_refs
             flat_map app combine filter snd fst negb map List.length].
        rewrite Hs. cbn [negb map fst].
        split; [constructor; [split; assumption | exact Hcalls]|].
        split; [f_equal; exact Hunreg|]. split; [f_equal; exact Hlog|].
        exact Hdel.
    + apply IH. exact Hrest.
Qed.

(** C6: [cjni_init_plugins] returns 0 after it has invoked every callback
    of type [CB_TYPE_INIT] of the registry, in registration order; the
    names handed to [plugin_unregister_read] are, in order, the names of
    the callbacks that returned a non-zero status, each with one line
    logged with [ERROR], and the callbacks after a failing one are still
    invoked. *)
Theorem init_plugins_invokes_every_init_callback
  (env : JNIEnv) (w : world) :
  (forall cb, In cb (java_callbacks w) -> cbi_type cb = CB_TYPE_INIT ->
              cbi_object cb <> None /\ cbi_method cb <> None) ->
  exists evs w',
    cjni_init_plugins env w = Some (0, w')
    /\ w' = set_trace (trace w ++ evs) w
    /\ Forall2 (fun cb call => cbi_object cb = Some (fst (fst call))
                               /\ cbi_method cb = Some (snd (fst call)))
         (filter (is_type CB_TYPE_INIT) (java_callbacks w)) (int_calls evs)
    /\ unregistered_reads evs
       = map (fun p => cbi_name (fst p))
           (filter (fun p => negb (snd (snd p) =? 0))
              (combine (filter (is_type CB_TYPE_INIT) (java_callbacks w))
                 (int_calls evs)))
    /\ List.length (logged LOG_ERR evs) = List.length (unregistered_reads evs).
Proof.
  intros Hnonnull.
  destruct (cjni_init_plugins_loop_spec env (java_callbacks w) Hnonnull w)
    as (evs & Hrun & Hcalls & Hunreg & Hlog & _).
  exists evs. eexists. unfold cjni_init_plugins. run. rewrite Hrun.
  split; [reflexivity|]. auto.
Qed.

(** An Init callback that returns 1: called once, its Read registration
    withdrawn, 0 returned. *)
Lemma init_plugins_invokes_every_init_callback_witness :
  exists evs w',
    cjni_init_plugins (Sim.env_returning 1) (Sim.registered Sim.vm)
    = Some (0, w')
    /\ w' = set_trace (trace (Sim.registered Sim.vm) ++ evs)
              (Sim.registered Sim.vm)
    /\ Forall2 (fun cb call => cbi_object cb = Some (fst (fst call))
                               /\ cbi_method cb = Some (snd (fst call)))
         [Sim.init_cbi] (int_calls evs)
    /\ unregistered_reads evs
       = map (fun p => cbi_name (fst p))
           (filter (fun p => negb (snd (snd p) =? 0))
              (combine [Sim.init_cbi] (int_calls evs)))
    /\ List.length (logged LOG_ERR evs) = List.length (unregistered_reads evs).
Proof.
  apply (init_plugins_invokes_every_init_callback
           (Sim.env_returning 1) (Sim.registered Sim.vm)).
  intros cb [H|[H|[]]] _; subst cb; split; discriminate.
Defined.

(** ** Shutdown *)

Lemma deleted_global_refs_app (t u : list event) :
  deleted_global_refs (t ++ u) = deleted_global_refs t ++ deleted_global_refs u.
Proof. unfold deleted_global_refs. apply flat_map_app. Qed.

Lemma deleted_global_refs_map (l : list jobject) :
  deleted_global_refs (map EvDeleteGlobalRef l) = l.
Proof. induction l as [|o l IH]; [reflexivity | cbn; f_equal; exact IH]. Qed.

Lemma cjni_shutdown_callbacks_run (callbacks : list cjni_callback_info_t)
  (w : world) :
  cjni_shutdown_callbacks callbacks w
  = Some (tt,
          set_trace
            (trace w ++ map EvDeleteGlobalRef (held (map cbi_object callbacks)))
            w).
Proof.
  revert w. induction callbacks as [|cb rest IH]; intros w.
  - cbn. rewrite set_trace_nil. reflexivity.
  - cbn [cjni_shutdown_callbacks map held flat_map]. rewrite bind_run.
    destruct (cbi_object cb) as [o|]; run.
    + rewrite IH. fields. unfold set_trace. cbn.
      rewrite <- app_assoc. reflexivity.
    + rewrite IH. reflexivity.
Qed.

Lemma cjni_shutdown_classes_run (classes : list java_plugin_class_t)
  (w : world) :
  cjni_shutdown_classes classes w
  = Some (tt,
          set_trace
            (trace w ++ map EvDeleteGlobalRef (held (map jpc_object classes)))
            w).
Proof.
  revert w. induction classes as [|class rest IH]; intros w.
  - cbn. rewrite set_trace_nil. reflexivity.
  - cbn [cjni_shutdown_classes map held flat_map]. rewrite bind_run.
    destruct (jpc_object class) as [o|]; run.
    + rewrite IH. fields. unfold set_trace. cbn.
      rewrite <- app_assoc. reflexivity.
    + rewrite IH. reflexivity.
Qed.

(** ** Conversion of configuration trees *)

Lemma add_all_calls (m : jmethodID) (args : list jobject) (k : ref_kind)
  (c : jclass) (i : list jvalue) (calls : list (jmethodID * list jvalue)) :
  add_all m args (JRef k (DObject c i calls))
  = JRef k (DObject c i (calls ++ map (fun a => (m, [JV_object a])) args)).
Proof.
  revert calls. induction args as [|a args IH]; intros calls; cbn.
  - rewrite app_nil_r. reflexivity.
  - unfold add_all in IH. rewrite IH, <- app_assoc. reflexivity.
Qed.

Lemma add_all_app (m : jmethodID) (xs ys : list jobject) (o : jobject) :
  add_all m ys (add_all m xs o) = add_all m (xs ++ ys) o.
Proof. unfold add_all. rewrite fold_left_app. reflexivity. Qed.

Lemma ctoj_oconfig_item_values_spec (env : JNIEnv) (m : jmethodID)
  (values : list oconfig_value_t) (o o' : jobject) :
  ctoj_oconfig_item_values env m values o = Ok o' ->
  exists vs,
    Forall2 (fun v jv => ctoj_oconfig_value env v = Ok jv) values vs
    /\ o' = add_all m vs o.
Proof.
  revert o. induction values as [|v rest IH]; intros o H; cbn in H.
  - inversion H; subst. exists []. split; [constructor | reflexivity].
  - ok_steps H. destruct (IH _ H) as (vs & Hvs & Ho').
    exists (a :: vs). split; [constructor; assumption | exact Ho'].
Qed.

Lemma ctoj_oconfig_item_children_spec (self : oconfig_item_t -> res jobject)
  (m : jmethodID) (children : list oconfig_item_t) (o o' : jobject) :
  ctoj_oconfig_item_children self m children o = Ok o' ->
  exists cs,
    Forall2 (fun c jc => self c = Ok jc) children cs
    /\ o' = add_all m cs o.
Proof.
  revert o. induction children as [|c rest IH]; intros o H; cbn in H.
  - inversion H; subst. exists []. split; [constructor | reflexivity].
  - ok_steps H. destruct (IH _ H) as (cs & Hcs & Ho').
    exists (a :: cs). split; [constructor; assumption | exact Ho'].
Qed.

Lemma objects_passed_to_map (name : string) (m : jmethodID)
  (args : list jobject) (k : ref_kind) (c : jclass) (i : list jvalue) :
  objects_passed_to name
    (JRef k (DObject c i (map (fun a => (m, [JV_object a])) args)))
  = if String.eqb (m_name m) name then args else [].
Proof.
  unfold objects_passed_to. cbn [obj_calls ref_data].
  induction args as [|a args IH]; cbn.
  - destruct (String.eqb (m_name m) name); reflexivity.
  - rewrite IH. destruct (String.eqb (m_name m) name); reflexivity.
Qed.

(** The shape of a converted configuration node. *)
Lemma ctoj_oconfig_item_shape (env : JNIEnv) (ci : oconfig_item_t)
  (o : jobject) :
  ctoj_oconfig_item env ci = Ok o ->
  exists vs cs,
    Forall2 (fun v jv => ctoj_oconfig_value env v = Ok jv) (ci_values ci) vs
    /\ Forall2 (fun c jc => ctoj_oconfig_item env c = Ok jc) (ci_children ci) cs
    /\ o = JRef LocalRef
             (DObject "org.collectd.api.OConfigItem"%string
                [JV_object (JRef LocalRef (DString (ci_key ci)))]
                (map (fun a =>
                        (MethodID "org.collectd.api.OConfigItem"%string "addValue"
                           "(Lorg/collectd/api/OConfigValue;)V",
                         [JV_object a]))
                   (vs ++ cs))).
Proof.
  destruct ci as [key values children]. cbn [ci_key ci_values ci_children].
  intros H. cbn [ctoj_oconfig_item] in H.
  unfold FindClass, GetMethodID, NewStringUTF, NewObject in H.
  ok_steps H.
  repeat match goal with
         | E : Some _ = Some _ |- _ => inversion E; clear E; subst
         | E : (if ?b then Some _ else None) = Some _ |- _ =>
             destruct b; [inversion E; clear E; subst | discriminate E]
         end.
  destruct (ctoj_oconfig_item_values_spec _ _ _ _ _ E5) as (vs & Hvs & Ho1).
  destruct (ctoj_oconfig_item_children_spec _ _ _ _ _ H) as (cs & Hcs & Ho2).
  exists vs, cs. split; [exact Hvs|]. split; [exact Hcs|].
  subst. rewrite add_all_app, add_all_calls. reflexivity.
Qed.

(** C5: in the managed node [ctoj_oconfig_item] returns, the converted
    values and then the converted children, each list in the order of the
    native node, were all passed to the method addValue; nothing was
    passed to the method addChild, in particular none of the children. *)
Theorem config_children_are_passed_to_addValue
  (env : JNIEnv) (ci : oconfig_item_t) (o : jobject) :
  ctoj_oconfig_item env ci = Ok o ->
  exists vs cs,
    Forall2 (fun v jv => ctoj_oconfig_value env v = Ok jv) (ci_values ci) vs
    /\ Forall2 (fun c jc => ctoj_oconfig_item env c = Ok jc) (ci_children ci) cs
    /\ objects_passed_to "addValue" o = vs ++ cs
    /\ objects_passed_to "addChild" o = [].
Proof.
  intros H. destruct (ctoj_oconfig_item_shape env ci o H)
    as (vs & cs & Hvs & Hcs & Ho).
  exists vs, cs. split; [exact Hvs|]. split; [exact Hcs|].
  subst o. rewrite !objects_passed_to_map. split; reflexivity.
Qed.

(** A block with one value and one child block: two objects go to
    addValue, none to addChild. *)
Lemma config_children_are_passed_to_addValue_witness :
  exists vs cs,
    Forall2 (fun v jv => ctoj_oconfig_value Sim.env v = Ok jv)
      (ci_values Sim.block) vs
    /\ Forall2 (fun c jc => ctoj_oconfig_item Sim.env c = Ok jc)
         (ci_children Sim.block) cs
    /\ objects_passed_to "addValue" Sim.managed_block = vs ++ cs
    /\ objects_passed_to "addChild" Sim.managed_block = [].
Proof.
  exact (config_children_are_passed_to_addValue Sim.env Sim.block
           Sim.managed_block eq_refl).
Defined.

Example block_child_is_not_a_child :
  ctoj_oconfig_item Sim.env Sim.block = Ok Sim.managed_block
  /\ List.length (ci_children Sim.block) = 1%nat
  /\ objects_passed_to "addChild" Sim.managed_block = []
  /\ List.length (objects_passed_to "addValue" Sim.managed_block) = 2%nat.
Proof. repeat split. Qed.

(** ** Conversion of value lists *)

Lemma ctoj_value_list_add_value_spec (host : collectd) (env : JNIEnv)
  (v : value_t) (type : Z) (c : jclass) (o o' : jobject) :
  ctoj_value_list_add_value host env v type c o = Ok o' ->
  exists number,
    o' = CallVoidMethod o (MethodID c "addValue" "(Ljava/lang/Number;)V")
           [JV_object number].
Proof.
  unfold ctoj_value_list_add_value, GetMethodID. intros H. ok_steps H.
  destruct (GetMethodID_ok env c "addValue" "(Ljava/lang/Number;)V");
    [|discriminate].
  inversion E; subst. inversion H; subst. eexists. reflexivity.
Qed.

Lemma ctoj_value_list_values_spec (host : collectd) (env : JNIEnv)
  (ds : data_set_t) (c : jclass) (values : list value_t) (i : nat)
  (o o' : jobject) :
  ctoj_value_list_values host env ds c values i o = Ok o' ->
  exists numbers,
    o' = add_all (MethodID c "addValue" "(Ljava/lang/Number;)V") numbers o.
Proof.
  revert i o. induction values as [|v rest IH]; intros i o H; cbn in H.
  - inversion H; subst. exists []. reflexivity.
  - destruct (nth_error (ds_ds ds) i) as [dsrc|]; [|discriminate].
    ok_steps H.
    destruct (ctoj_value_list_add_value_spec _ _ _ _ _ _ _ E) as (n & Ha).
    destruct (IH _ _ H) as (numbers & Ho').
    exists (n :: numbers). subst. reflexivity.
Qed.

Lemma ctoj_string_spec (env : JNIEnv) (str class_ptr method_name : string)
  (o o' : jobject) :
  ctoj_string env (Some str) class_ptr o method_name = Ok o' ->
  o' = CallVoidMethod o (MethodID class_ptr method_name "(Ljava/lang/String;)V")
         [JV_object (JRef LocalRef (DString str))].
Proof.
  unfold ctoj_string, NewStringUTF, GetMethodID. intros H.
  destruct (NewStringUTF_ok env str); [|discriminate].
  destruct (GetMethodID_ok env class_ptr method_name "(Ljava/lang/String;)V");
    [|discriminate].
  inversion H; subst. reflexivity.
Qed.

Lemma ctoj_long_spec (env : JNIEnv) (value : Z) (class_ptr method_name : string)
  (o o' : jobject) :
  ctoj_long env value class_ptr o method_name = Ok o' ->
  o' = CallVoidMethod o (MethodID class_ptr method_name "(J)V") [JV_long value].
Proof.
  unfold ctoj_long, GetMethodID. intros H.
  destruct (GetMethodID_ok env class_ptr method_name "(J)V"); [|discriminate].
  inversion H; subst. reflexivity.
Qed.

Lemma ctoj_value_list_add_data_set_spec (env : JNIEnv) (c : jclass)
  (ds : data_set_t) (o o' : jobject) :
  ctoj_value_list_add_data_set env c o ds = Ok o' ->
  exists dataset,
    o' = CallVoidMethod o (MethodID c "setDataSet" "(Lorg.collectd.api.DataSet;)V")
           [JV_object dataset].
Proof.
  unfold ctoj_value_list_add_data_set, GetMethodID. intros H.
  destruct (GetMethodID_ok env c "setDataSet" "(Lorg.collectd.api.DataSet;)V");
    [|discriminate].
  cbn [nonnull] in H. ok_steps H. inversion H; subst. eexists. reflexivity.
Qed.

(** The shape of a converted value list: the setters received the data
    set, the five strings, the time and the interval, in this order, and
    then the values were added. *)
Lemma ctoj_value_list_shape (host : collectd) (env : JNIEnv) (ds : data_set_t)
  (vl : value_list_t) (o : jobject) :
  ctoj_value_list host env ds vl = Ok o ->
  exists dataset numbers,
    let c := "org.collectd.api.ValueList"%string in
    let str s := [JV_object (JRef LocalRef (DString s))] in
    o = JRef LocalRef
          (DObject c []
             ([(MethodID c "setDataSet" "(Lorg.collectd.api.DataSet;)V",
                [JV_object dataset]);
               (MethodID c "setHost" "(Ljava/lang/String;)V", str (vl_host vl));
               (MethodID c "setPlugin" "(Ljava/lang/String;)V",
                str (vl_plugin vl));
               (MethodID c "setPluginInstance" "(Ljava/lang/String;)V",
                str (vl_plugin_instance vl));
               (MethodID c "setType" "(Ljava/lang/String;)V", str (vl_type vl));
               (MethodID c "setTypeInstance" "(Ljava/lang/String;)V",
                str (vl_type_instance vl));
               (MethodID c "setTime" "(J)V",
                [JV_long (to_jlong (to_jlong (vl_time vl) * to_jlong 1000))]);
               (MethodID c "setInterval" "(J)V",
                [JV_long (to_jlong (vl_interval vl))])]
              ++ map (fun n => (MethodID c "addValue" "(Ljava/lang/Number;)V",
                                [JV_object n]))
                   numbers)).
Proof.
  intros H. unfold ctoj_value_list in H. cbv zeta in H.
  unfold FindClass, GetMethodID, NewObject in H.
  destruct (FindClass_ok env "org.collectd.api.ValueList"); [|discriminate].
  cbn [nonnull] in H.
  destruct (GetMethodID_ok env "org.collectd.api.ValueList"%string "<init>" "()V");
    [|discriminate].
  cbn [nonnull] in H.
  destruct (NewObject_ok env _ _ _); [|discriminate].
  cbn [nonnull] in H.
  ok_steps H.
  repeat match goal with
         | E : ctoj_string _ _ _ _ _ = Ok _ |- _ =>
             apply ctoj_string_spec in E
         | E : ctoj_long _ _ _ _ _ = Ok _ |- _ => apply ctoj_long_spec in E
         end.
  destruct (ctoj_value_list_add_data_set_spec _ _ _ _ _ E) as (dataset & Hd).
  destruct (ctoj_value_list_values_spec _ _ _ _ _ _ _ _ H) as (numbers & Ho).
  subst. cbn [CallVoidMethod app]. rewrite add_all_calls.
  exists dataset, numbers. reflexivity.
Qed.

Lemma to_jlong_range (x : Z) : - 2 ^ 63 <= to_jlong x < 2 ^ 63.
Proof.
  unfold to_jlong, wrap.
  pose proof (Z.mod_pos_bound (x + 2 ^ (64 - 1)) (2 ^ 64) eq_refl) as H.
  change (2 ^ (64 - 1)) with (2 ^ 63) in *.
  change (2 ^ 64) with (2 * 2 ^ 63) in *. lia.
Qed.

Lemma quot_1000_range (x : Z) :
  - 2 ^ 63 <= x < 2 ^ 63 -> - 2 ^ 63 <= Z.quot x 1000 < 2 ^ 63.
Proof.
  intros H. destruct (Z_le_gt_dec 0 x) as [Hx|Hx].
  - pose proof (Z.quot_rem' x 1000) as Hq.
    pose proof (Z.rem_bound_pos x 1000 Hx eq_refl). lia.
  - pose proof (Z.quot_rem' (- x) 1000) as Hq.
    assert (Hx' : 0 <= - x) by lia.
    pose proof (Z.rem_bound_pos (- x) 1000 Hx' eq_refl).
    rewrite Z.quot_opp_l in Hq by lia. lia.
Qed.

Lemma jtoc_long_spec (env : JNIEnv) (class_ptr method_name : string)
  (o : jobject) (ret : Z) :
  jtoc_long env class_ptr o method_name = Ok ret ->
  ret = to_jlong (CallLongMethod env o (MethodID class_ptr method_name "()J")).
Proof.
  unfold jtoc_long, GetMethodID. intros H.
  destruct (GetMethodID_ok env class_ptr method_name "()J"); [|discriminate].
  inversion H; subst. reflexivity.
Qed.

(** [jtoc_values_array] sets the values and leaves the other members. *)
Lemma jtoc_values_array_members (host : collectd) (env : JNIEnv)
  (ds : data_set_t) (vl vl' : value_list_t) (c : jclass) (o : jobject) :
  jtoc_values_array host env ds vl c o = Ok vl' ->
  vl_time vl' = vl_time vl /\ vl_interval vl' = vl_interval vl
  /\ vl_host vl' = vl_host vl /\ vl_plugin vl' = vl_plugin vl
  /\ vl_plugin_instance vl' = vl_plugin_instance vl
  /\ vl_type vl' = vl_type vl /\ vl_type_instance vl' = vl_type_instance vl
  /\ List.length (vl_values vl') = List.length (ds_ds ds).
Proof.
  unfold jtoc_values_array. intros H. ok_steps H.
  inversion H; subst. cbn. repeat split.
  match goal with
  | E : jtoc_values_array_loop _ _ _ _ _ = Ok ?vs |- _ =>
      revert E; generalize vs; generalize 0
  end.
  clear. induction (ds_ds ds) as [|dsrc rest IH]; intros i vs H; cbn in H.
  - inversion H; subst. reflexivity.
  - ok_steps H. inversion H; subst. cbn. f_equal. eapply IH. eassumption.
Qed.

(** What [jtoc_value_list] stores in the time and interval members. *)
Lemma jtoc_value_list_time_interval (host : collectd) (env : JNIEnv)
  (vl0 vl : value_list_t) (java_vl : jobject) :
  jtoc_value_list host env vl0 java_vl = Ok vl ->
  exists class_ptr,
    GetObjectClass env java_vl = Some class_ptr
    /\ vl_time vl
       = Z.quot (to_jlong (CallLongMethod env java_vl
                             (MethodID class_ptr "getTime" "()J"))) 1000
    /\ vl_interval vl
       = to_int (to_jlong (CallLongMethod env java_vl
                             (MethodID class_ptr "getInterval" "()J"))).
Proof.
  unfold jtoc_value_list. cbv zeta. intros H.
  destruct (GetObjectClass env java_vl) as [class_ptr|]; [|discriminate].
  cbn [nonnull] in H. ok_steps H. inversion H; subst.
  exists class_ptr. split; [reflexivity|].
  match goal with
  | E : jtoc_values_array _ _ _ _ _ _ = Ok _ |- _ =>
      destruct (jtoc_values_array_members _ _ _ _ _ _ _ E) as (Ht & Hi & _)
  end.
  rewrite Ht, Hi. cbn [vl_time vl_interval].
  repeat match goal with
         | E : jtoc_long _ _ _ _ = Ok _ |- _ => apply jtoc_long_spec in E
         end.
  subst. split; [|reflexivity].
  change (to_jlong 1000) with 1000. unfold to_time_t.
  apply wrap_small; [lia|]. apply quot_1000_range, to_jlong_range.
Qed.

(** What the setters of the time and of the interval receive. *)
Lemma ctoj_value_list_time_interval (host : collectd) (env : JNIEnv)
  (ds : data_set_t) (vl : value_list_t) (o : jobject) :
  ctoj_value_list host env ds vl = Ok o ->
  long_passed_to "setTime" o = Some (to_jlong (to_jlong (vl_time vl) * 1000))
  /\ long_passed_to "setInterval" o = Some (to_jlong (vl_interval vl)).
Proof.
  intros H.
  destruct (ctoj_value_list_shape host env ds vl o H)
    as (dataset & numbers & Ho).
  cbv zeta in Ho. subst o. split; reflexivity.
Qed.

(** C4, as stated, fails for the interval in both directions: the value
    list [Sim.vl] has an interval of 10 seconds, the managed object
    receives 10 and not 10000 through setInterval; and a managed value
    list that answers 10 to getInterval is converted to a native interval
    of 10 and not of 10 / 1000. *)
Lemma interval_is_not_converted_counterexample :
  ~ (forall o,
       ctoj_value_list Sim.host Sim.env Sim.ds Sim.vl = Ok o ->
       long_passed_to "setInterval" o = Some (vl_interval Sim.vl * 1000))
  /\ ~ (forall vl,
          jtoc_value_list Sim.host Sim.env (VALUE_LIST_INIT Sim.host)
            Sim.managed_vl = Ok vl ->
          vl_interval vl
          = Z.quot (CallLongMethod Sim.env Sim.managed_vl
                      (MethodID "org.collectd.api.ValueList"%string
                         "getInterval" "()J")) 1000).
Proof.
  split.
  - intros H. specialize (H Sim.managed_vl eq_refl). discriminate H.
  - intros H. specialize (H Sim.vl eq_refl). discriminate H.
Qed.

(** C4 (amended): the time member is converted between seconds and
    milliseconds, the interval member is not.  Going to the managed side,
    setTime receives the native time times 1000, computed in 64 bits, and
    setInterval receives the native interval as it is; coming back, the
    native time is the value of getTime divided by 1000 towards zero, and
    the native interval is the value of getInterval cut to an [int]. *)
Theorem time_is_converted_interval_is_passed_through
  (host : collectd) (env : JNIEnv) :
  (forall ds vl o,
     ctoj_value_list host env ds vl = Ok o ->
     long_passed_to "setTime" o
     = Some (to_jlong (to_jlong (vl_time vl) * 1000))
     /\ long_passed_to "setInterval" o = Some (to_jlong (vl_interval vl))
     /\ (- 2 ^ 63 <= vl_time vl * 1000 < 2 ^ 63 ->
         long_passed_to "setTime" o = Some (vl_time vl * 1000))
     /\ (- 2 ^ 31 <= vl_interval vl < 2 ^ 31 ->
         long_passed_to "setInterval" o = Some (vl_interval vl)))
  /\ (forall vl0 java_vl vl,
        jtoc_value_list host env vl0 java_vl = Ok vl ->
        exists class_ptr,
          GetObjectClass env java_vl = Some class_ptr
          /\ vl_time vl
             = Z.quot (to_jlong (CallLongMethod env java_vl
                                   (MethodID class_ptr "getTime" "()J"))) 1000
          /\ vl_interval vl
             = to_int (to_jlong (CallLongMethod env java_vl
                                   (MethodID class_ptr "getInterval" "()J")))).
Proof.
  split.
  - intros ds vl o H.
    destruct (ctoj_value_list_time_interval host env ds vl o H) as [Ht Hi].
    split; [exact Ht|]. split; [exact Hi|]. split.
    + intros Hrange. rewrite Ht. f_equal.
      assert (Htime : - 2 ^ 63 <= vl_time vl < 2 ^ 63) by lia.
      rewrite (to_jlong_small (vl_time vl) Htime).
      apply to_jlong_small. exact Hrange.
    + intros Hrange. rewrite Hi. f_equal. apply to_jlong_small. lia.
  - intros vl0 java_vl vl H.
    exact (jtoc_value_list_time_interval host env vl0 vl java_vl H).
Qed.

(** The value list of the end-to-end example: 1000 s and 10 s become
    1000000 and 10, and come back as 1000 and 10. *)
Lemma time_is_converted_interval_is_passed_through_witness :
  (long_passed_to "setTime" Sim.managed_vl = Some 1000000
   /\ long_passed_to "setInterval" Sim.managed_vl = Some 10
   /\ (- 2 ^ 63 <= vl_time Sim.vl * 1000 < 2 ^ 63 ->
       long_passed_to "setTime" Sim.managed_vl = Some (vl_time Sim.vl * 1000))
   /\ (- 2 ^ 31 <= vl_interval Sim.vl < 2 ^ 31 ->
       long_passed_to "setInterval" Sim.managed_vl
       = Some (vl_interval Sim.vl)))
  /\ (exists class_ptr,
        GetObjectClass Sim.env Sim.managed_vl = Some class_ptr
        /\ vl_time Sim.vl
           = Z.quot (to_jlong (CallLongMethod Sim.env Sim.managed_vl
                                 (MethodID class_ptr "getTime" "()J"))) 1000
        /\ vl_interval Sim.vl
           = to_int (to_jlong (CallLongMethod Sim.env Sim.managed_vl
                                 (MethodID class_ptr "getInterval" "()J")))).
Proof.
  split.
  - exact (proj1 (time_is_converted_interval_is_passed_through Sim.host Sim.env)
             Sim.ds Sim.vl Sim.managed_vl eq_refl).
  - exact (proj2 (time_is_converted_interval_is_passed_through Sim.host Sim.env)
             (VALUE_LIST_INIT Sim.host) Sim.managed_vl Sim.vl eq_refl).
Defined.

(** ** Every step of the managed-to-native conversion *)

Lemma jtoc_string_spec (env : JNIEnv) (n : nat) (class_ptr method_name : string)
  (o : jobject) (buffer : string) :
  jtoc_string env n class_ptr o method_name = Ok buffer ->
  GetMethodID_ok env class_ptr method_name "()Ljava/lang/String;" = true
  /\ exists string_obj c_str,
       CallObjectMethod env o
         (MethodID class_ptr method_name "()Ljava/lang/String;")
       = Some string_obj
       /\ GetStringUTFChars env string_obj = Some c_str
       /\ buffer = sstrncpy c_str n.
Proof.
  unfold jtoc_string, GetMethodID. intros H.
  destruct (GetMethodID_ok env class_ptr method_name "()Ljava/lang/String;");
    [|discriminate].
  cbn [nonnull] in H. ok_steps H. inversion H; subst.
  split; [reflexivity|]. eauto.
Qed.

Lemma jtoc_long_found (env : JNIEnv) (class_ptr method_name : string)
  (o : jobject) (ret : Z) :
  jtoc_long env class_ptr o method_name = Ok ret ->
  GetMethodID_ok env class_ptr method_name "()J" = true.
Proof.
  unfold jtoc_long, GetMethodID. intros H.
  destruct (GetMethodID_ok env class_ptr method_name "()J");
    [reflexivity | discriminate].
Qed.

(** A conversion that succeeds has passed every check: the class of the
    object, the eight accessors, the data set of the type the object
    names, and one value for each of its data sources. *)
Lemma jtoc_value_list_ok_steps (host : collectd) (env : JNIEnv)
  (vl0 vl : value_list_t) (java_vl : jobject) :
  jtoc_value_list host env vl0 java_vl = Ok vl ->
  exists class_ptr ds,
    GetObjectClass env java_vl = Some class_ptr
    /\ Forall (fun getter =>
                 GetMethodID_ok env class_ptr getter "()Ljava/lang/String;"
                 = true)
         ["getType"; "getHost"; "getPlugin"; "getPluginInstance";
          "getTypeInstance"]%string
    /\ plugin_get_ds host (vl_type vl) = Some ds
    /\ GetMethodID_ok env class_ptr "getTime" "()J" = true
    /\ GetMethodID_ok env class_ptr "getInterval" "()J" = true
    /\ GetMethodID_ok env class_ptr "getValues" "()Ljava/util/List;" = true
    /\ List.length (vl_values vl) = List.length (ds_ds ds).
Proof.
  unfold jtoc_value_list. cbv zeta. intros H.
  destruct (GetObjectClass env java_vl) as [class_ptr|]; [|discriminate].
  cbn [nonnull] in H. ok_steps H. inversion H; subst.
  match goal with
  | E : jtoc_values_array _ _ ?ds _ _ _ = Ok _ |- _ =>
      exists class_ptr, ds;
      destruct (jtoc_values_array_members _ _ _ _ _ _ _ E)
        as (_ & _ & _ & _ & _ & Htype & _ & Hlen);
      unfold jtoc_values_array, GetMethodID in E;
      destruct (GetMethodID_ok env class_ptr "getValues" "()Ljava/util/List;");
      [clear E | discriminate E]
  end.
  repeat match goal with
         | E : jtoc_string _ _ _ _ _ = Ok _ |- _ =>
             apply jtoc_string_spec in E; destruct E as [E _]
         | E : jtoc_long _ _ _ _ = Ok _ |- _ => apply jtoc_long_found in E
         end.
  rewrite Htype. cbn [vl_type].
  repeat split; try assumption.
  repeat constructor; assumption.
Qed.

(** ** The registry *)

(** A successful registration appends one descriptor, of the type asked
    for, with an object and a method. *)
Lemma cjni_callback_register_appends (host : collectd) (env : JNIEnv)
  (o_name o_callback : jobject) (type : Z) (w w' : world) :
  cjni_callback_register host env o_name o_callback type w = Some (0, w') ->
  exists cbi,
    java_callbacks w' = java_callbacks w ++ [cbi]
    /\ cbi_type cbi = type
    /\ cbi_object cbi = Some o_callback
    /\ cbi_method cbi <> None.
Proof.
  unfold cjni_callback_register. rewrite bind_run.
  destruct (cjni_callback_info_create host env o_name o_callback type w)
    as [[[cbi|] w1]|] eqn:Hcreate; [| |discriminate].
  - destruct (alloc_ok host realloc_java_callbacks); cbn [negb]; run.
    + intros H. inversion H; subst. exists cbi.
      revert Hcreate. unfold cjni_callback_info_create.
      destruct (if type =? CB_TYPE_CONFIG then _ else _)
        as [[method_name sig]|]; run; [|discriminate].
      destruct (GetStringUTFChars env o_name); [|discriminate].
      destruct (alloc_ok host malloc_cbi); cbn [negb]; [|discriminate].
      destruct (alloc_ok host strdup_cbi_name); cbn [negb]; [|discriminate].
      destruct (GetObjectClass env o_callback); [|discriminate].
      destruct (GetMethodID env j method_name sig); [|discriminate].
      intros Hc. inversion Hc; subst. fields. cbn.
      repeat split. discriminate.
    + destruct (cbi_object cbi); discriminate.
  - run. discriminate.
Qed.

(** ** The spec's end-to-end example *)

Example value_list_round_trip :
  ctoj_value_list Sim.host Sim.env Sim.ds Sim.vl = Ok Sim.managed_vl
  /\ long_passed_to "setTime" Sim.managed_vl = Some 1000000
  /\ long_passed_to "setInterval" Sim.managed_vl = Some 10
  /\ objects_passed_to "addValue" Sim.managed_vl
     = [JRef LocalRef (DObject "java.lang.Long"%string [JV_long 5] []);
        JRef LocalRef (DObject "java.lang.Double"%string
                         [JV_double 4612811918334230528] [])]
  /\ jtoc_value_list Sim.host Sim.env (VALUE_LIST_INIT Sim.host) Sim.managed_vl
     = Ok Sim.vl.
Proof. repeat split. Qed.

Example init_failure_withdraws_read :
  option_map (fun r => (fst r, trace (snd r)))
    (cjni_init_plugins (Sim.env_returning 1) (Sim.registered Sim.vm))
  = Some (0,
          [EvCallIntMethod Sim.plugin_object
             (MethodID "org/example/Plugin"%string "Init" "()I") [] 1;
           Ev_plugin_log LOG_ERR
             "java plugin: Initializing `example' failed with status 1. Removing read function.";
           Ev_plugin_unregister_read "example"]).
Proof. reflexivity. Qed.

Example registration_then_shutdown :
  option_map (fun r => (fst r, trace (snd r)))
    (bind (cjni_api_register_init Sim.host Sim.env Sim.plugin_name
             Sim.plugin_object)
       (fun _ => cjni_shutdown) (Sim.started Sim.vm))
  = Some (0,
          [EvNewGlobalRef Sim.plugin_object;
           EvAttachCurrentThread 0;
           EvDeleteGlobalRef Sim.plugin_object;
           EvDestroyJavaVM]).
Proof. reflexivity. Qed.

(** ** Every sequence of configuration children *)

Lemma cjni_config_add_jvm_arg_configs (host : collectd) (ci : oconfig_item_t)
  (w w' : world) (r : Z) :
  cjni_config_add_jvm_arg host ci w = Some (r, w') ->
  java_plugin_configs w' = java_plugin_configs w.
Proof.
  unfold cjni_config_add_jvm_arg.
  destruct (ci_values ci) as [|[arg|?|?|?] [|? ?]]; run;
    try (intros H; inversion H; subst; reflexivity).
  destruct (alloc_ok host realloc_jvm_argv); cbn;
    [|intros H; inversion H; subst; reflexivity].
  destruct (alloc_ok host strdup_jvm_arg); cbn;
    intros H; inversion H; subst; reflexivity.
Qed.

Lemma cjni_config_load_plugin_configs (host : collectd) (ci : oconfig_item_t)
  (w w' : world) (r : Z) :
  cjni_config_load_plugin host ci w = Some (r, w') ->
  java_plugin_configs w' = java_plugin_configs w.
Proof.
  unfold cjni_config_load_plugin.
  destruct (ci_values ci) as [|[arg|?|?|?] [|? ?]]; run;
    try (intros H; inversion H; subst; reflexivity).
  destruct (alloc_ok host realloc_java_classes_list); cbn;
    [|intros H; inversion H; subst; reflexivity].
  destruct (alloc_ok host strdup_class_name); cbn;
    intros H; inversion H; subst; reflexivity.
Qed.

(** The stored blocks keep distinct names, and a stored block is never
    replaced: one step. *)
Lemma cjni_config_plugin_block_distinct (host : collectd) (ci : oconfig_item_t)
  (w w' : world) (r : Z) :
  cjni_config_plugin_block host ci w = Some (r, w') ->
  NoDup (map jcfg_name (java_plugin_configs w)) ->
  NoDup (map jcfg_name (java_plugin_configs w'))
  /\ exists added, java_plugin_configs w' = java_plugin_configs w ++ added.
Proof.
  intros H Hnodup.
  destruct (cjni_config_plugin_block_extends host ci w w' r H)
    as [Hsame|(name & _ & Hnew & Happ)].
  - rewrite Hsame. split; [exact Hnodup|]. exists []. symmetry. apply app_nil_r.
  - rewrite Happ. split; [|eexists; reflexivity].
    rewrite map_app. cbn [map jcfg_name].
    apply NoDup_app_remove_l with (l := []). cbn.
    apply NoDup_incl_NoDup with (l := name :: map jcfg_name (java_plugin_configs w)).
    + constructor; assumption.
    + rewrite length_app. cbn. lia.
    + intros x [Hx|Hx]; apply in_or_app; [right; left; exact Hx | left; exact Hx].
Qed.

(** The same over the whole loop of [cjni_config]. *)
Lemma cjni_config_children_distinct (host : collectd)
  (children : list oconfig_item_t) :
  forall (success errors : Z) (w w' : world) (r : Z * Z),
  cjni_config_children host children success errors w = Some (r, w') ->
  NoDup (map jcfg_name (java_plugin_configs w)) ->
  NoDup (map jcfg_name (java_plugin_configs w'))
  /\ exists added, java_plugin_configs w' = java_plugin_configs w ++ added.
Proof.
  induction children as [|child rest IH]; intros success errors w w' r H Hnodup.
  - inversion H; subst. split; [exact Hnodup|]. exists []. symmetry.
    apply app_nil_r.
  - cbn [cjni_config_children] in H.
    destruct (strcaseeq "JVMArg" (ci_key child)).
    { rewrite bind_run in H.
      destruct (cjni_config_add_jvm_arg host child w) as [[status w1]|] eqn:E;
        [|discriminate].
      apply cjni_config_add_jvm_arg_configs in E. rewrite <- E.
      rewrite <- E in Hnodup.
      destruct (status =? 0); eapply IH; eassumption. }
    destruct (strcaseeq "LoadPlugin" (ci_key child)).
    { rewrite bind_run in H.
      destruct (cjni_config_load_plugin host child w) as [[status w1]|] eqn:E;
        [|discriminate].
      apply cjni_config_load_plugin_configs in E. rewrite <- E.
      rewrite <- E in Hnodup.
      destruct (status =? 0); eapply IH; eassumption. }
    destruct (strcaseeq "Plugin" (ci_key child)).
    { rewrite bind_run in H.
      destruct (cjni_config_plugin_block host child w) as [[status w1]|] eqn:E;
        [|discriminate].
      destruct (cjni_config_plugin_block_distinct host child w w1 status E Hnodup)
        as (Hnodup1 & added1 & Happ1).
      assert (Hrest : NoDup (map jcfg_name (java_plugin_configs w'))
                      /\ exists added,
                           java_plugin_configs w'
                           = java_plugin_configs w1 ++ added)
        by (destruct (status =? 0); eapply IH; eassumption).
      destruct Hrest as (Hnodup' & added & Happ).
      split; [exact Hnodup'|]. exists (added1 ++ added).
      rewrite Happ, Happ1, app_assoc. reflexivity. }
    revert H. run. intros H.
    eapply IH in H; [exact H | exact Hnodup].
Qed.

(** * Further properties of the bridge *)

(** ** No conversion to a managed object reads out of bounds *)

Lemma nonnull_defined {A B : Type} (x : option A) (msg : string)
  (k : A -> res B) :
  (forall a, k a <> Undefined) -> nonnull x msg k <> Undefined.
Proof. intros H. destruct x; cbn; [apply H | discriminate]. Qed.

Lemma checked_defined {A B : Type} (x : res A) (msg : string)
  (k : A -> res B) :
  x <> Undefined -> (forall a, k a <> Undefined) ->
  checked x msg k <> Undefined.
Proof.
  intros Hx H. destruct x; cbn; [apply H | discriminate | congruence].
Qed.

Lemma returned_defined {A : Type} (x : option A) : returned x <> Undefined.
Proof. destruct x; discriminate. Qed.

(** Reduce a goal [e <> Undefined] along the checks of [e]. *)
Ltac defined :=
  repeat match goal with
         | |- nonnull _ _ _ <> Undefined => apply nonnull_defined; intros ?
         | |- checked _ _ _ <> Undefined => apply checked_defined; [|intros ?]
         | |- returned _ <> Undefined => apply returned_defined
         | |- Ok _ <> Undefined => discriminate
         | |- Failed _ <> Undefined => discriminate
         end.

Lemma ctoj_string_defined (env : JNIEnv) (str : option string)
  (c method_name : string) (o : jobject) :
  ctoj_string env str c o method_name <> Undefined.
Proof. unfold ctoj_string. defined. Qed.

Lemma ctoj_int_defined (env : JNIEnv) (v : Z) (c method_name : string)
  (o : jobject) :
  ctoj_int env v c o method_name <> Undefined.
Proof. unfold ctoj_int. defined. Qed.

Lemma ctoj_long_defined (env : JNIEnv) (v : Z) (c method_name : string)
  (o : jobject) :
  ctoj_long env v c o method_name <> Undefined.
Proof. unfold ctoj_long. defined. Qed.

Lemma ctoj_double_defined (env : JNIEnv) (v : Z) (c method_name : string)
  (o : jobject) :
  ctoj_double env v c o method_name <> Undefined.
Proof. unfold ctoj_double. defined. Qed.

Lemma ctoj_value_to_number_defined (host : collectd) (env : JNIEnv)
  (v : value_t) (type : Z) :
  ctoj_value_to_number host env v type <> Undefined.
Proof.
  unfold ctoj_value_to_number, ctoj_jlong_to_number, ctoj_jdouble_to_number.
  destruct (type =? DS_TYPE_COUNTER host); [defined|].
  destruct (type =? DS_TYPE_GAUGE host); defined.
Qed.

Lemma ctoj_data_source_defined (env : JNIEnv) (dsrc : data_source_t) :
  ctoj_data_source env dsrc <> Undefined.
Proof.
  unfold ctoj_data_source. defined;
    first [ apply ctoj_string_defined | apply ctoj_int_defined
          | apply ctoj_double_defined ].
Qed.

Lemma ctoj_data_set_defined (env : JNIEnv) (ds : data_set_t) :
  ctoj_data_set env ds <> Undefined.
Proof.
  unfold ctoj_data_set. defined.
  match goal with |- ctoj_data_set_sources _ _ ?m _ ?o <> _ => revert o end.
  induction (ds_ds ds) as [|dsrc rest IH]; intros o; cbn.
  - discriminate.
  - defined; first [apply ctoj_data_source_defined | apply IH].
Qed.



Lemma ctoj_value_list_values_defined (host : collectd) (env : JNIEnv)
  (ds : data_set_t) (c : jclass) (values : list value_t) :
  forall (i : nat) (o : jobject),
  (i + List.length values <= List.length (ds_ds ds))%nat ->
  ctoj_value_list_values host env ds c values i o <> Undefined.
Proof.
  induction values as [|v rest IH]; intros i o Hlen; cbn in *.
  - discriminate.
  - destruct (nth_error (ds_ds ds) i) as [dsrc|] eqn:E.
    + defined.
      * unfold ctoj_value_list_add_value. defined.
        apply ctoj_value_to_number_defined.
      * apply IH. lia.
    + apply nth_error_None in E. lia.
Qed.
(** ** Data sets and values on their way into the JVM *)

Lemma ctoj_int_spec (env : JNIEnv) (value : Z) (class_ptr method_name : string)
  (o o' : jobject) :
  ctoj_int env value class_ptr o method_name = Ok o' ->
  o' = CallVoidMethod o (MethodID class_ptr method_name "(I)V") [JV_int value].
Proof.
  unfold ctoj_int, GetMethodID. intros H.
  destruct (GetMethodID_ok env class_ptr method_name "(I)V"); [|discriminate].
  inversion H; subst. reflexivity.
Qed.

Lemma ctoj_double_spec (env : JNIEnv) (value : Z)
  (class_ptr method_name : string) (o o' : jobject) :
  ctoj_double env value class_ptr o method_name = Ok o' ->
  o' = CallVoidMethod o (MethodID class_ptr method_name "(D)V")
         [JV_double value].
Proof.
  unfold ctoj_double, GetMethodID. intros H.
  destruct (GetMethodID_ok env class_ptr method_name "(D)V"); [|discriminate].
  inversion H; subst. reflexivity.
Qed.

(** Resolve the look-ups of a successful conversion. *)
Ltac lookups H :=
  unfold FindClass, GetMethodID, NewStringUTF, NewObject in H;
  repeat match type of H with
         | nonnull (if ?b then Some _ else None) _ _ = Ok _ =>
             destruct b; cbn [nonnull] in H; [|discriminate H]
         | returned (if ?b then Some _ else None) = Ok _ =>
             destruct b; cbn [returned] in H; [|discriminate H]
         end.

Lemma ctoj_data_source_spec (env : JNIEnv) (dsrc : data_source_t) (o : jobject) :
  ctoj_data_source env dsrc = Ok o -> o = managed_data_source dsrc.
Proof.
  unfold ctoj_data_source. intros H. lookups H. ok_steps H.
  repeat match goal with
         | E : ctoj_string _ _ _ _ _ = Ok _ |- _ => apply ctoj_string_spec in E
         | E : ctoj_int _ _ _ _ _ = Ok _ |- _ => apply ctoj_int_spec in E
         | E : ctoj_double _ _ _ _ _ = Ok _ |- _ => apply ctoj_double_spec in E
         end.
  inversion H; subst. reflexivity.
Qed.

Lemma ctoj_data_set_sources_spec (env : JNIEnv) (ds : data_set_t)
  (m : jmethodID) (sources : list data_source_t) (o o' : jobject) :
  ctoj_data_set_sources env ds m sources o = Ok o' ->
  o' = add_all m (map managed_data_source sources) o.
Proof.
  revert o. induction sources as [|dsrc rest IH]; intros o H; cbn in H.
  - inversion H; subst. reflexivity.
  - ok_steps H. apply ctoj_data_source_spec in E. subst a.
    apply IH in H. exact H.
Qed.

Lemma ctoj_data_set_spec (env : JNIEnv) (ds : data_set_t) (o : jobject) :
  ctoj_data_set env ds = Ok o -> o = managed_data_set ds.
Proof.
  unfold ctoj_data_set. intros H. lookups H.
  apply ctoj_data_set_sources_spec in H. subst o.
  rewrite add_all_calls. unfold managed_data_set. cbn [app].
  rewrite map_map. reflexivity.
Qed.

Lemma ERRORS_logged (log : list string) :
  logged LOG_ERR (map (Ev_plugin_log LOG_ERR) log) = log.
Proof.
  induction log as [|msg log IH]; [reflexivity|].
  cbn. f_equal. exact IH.
Qed.

(** X1: [cjni_api_get_ds] always returns.  When it returns an object, the
    name it was given is that of a registered data set, no line above the
    DEBUG level was written to the log, and the object is a DataSet
    constructed with the type name that received, through addDataSource
    and in the order of the native array, one DataSource per data source,
    each with its name, type, minimum and maximum set.  A name that is not
    registered gives [NULL], again without such a line. *)
Theorem cjni_api_get_ds_returns_the_registered_data_set
  (host : collectd) (env : JNIEnv) (o_string_type : jobject) (w : world) :
  exists r w',
    cjni_api_get_ds host env o_string_type w = Some (r, w')
    /\ (forall o_dataset,
          r = Some o_dataset ->
          exists ds_name ds,
            GetStringUTFChars env o_string_type = Some ds_name
            /\ plugin_get_ds host ds_name = Some ds
            /\ o_dataset = managed_data_set ds
            /\ forall level,
                 level <> LOG_DEBUG ->
                 logged level (trace w') = logged level (trace w))
    /\ (forall ds_name,
          GetStringUTFChars env o_string_type = Some ds_name ->
          plugin_get_ds host ds_name = None ->
          r = None
          /\ forall level,
               level <> LOG_DEBUG ->
               logged level (trace w') = logged level (trace w)).
Proof.
  unfold cjni_api_get_ds.
  destruct (GetStringUTFChars env o_string_type) as [ds_name|].
  - destruct (plugin_get_ds host ds_name) as [ds|] eqn:Eds.
    + destruct (ctoj_data_set env ds) as [o|log|] eqn:E.
      * eexists _, _. split; [reflexivity|]. split.
        -- intros o' Ho'. inversion Ho'; subst.
           exists ds_name, ds. repeat split; try assumption.
           apply ctoj_data_set_spec in E. exact E.
        -- intros n Hn. inversion Hn; subst. congruence.
      * rewrite bind_run, ERRORS_run. eexists _, _.
        split; [reflexivity|]. split.
        -- intros o' Ho'. discriminate.
        -- intros n Hn. inversion Hn; subst. congruence.
      * exfalso. exact (ctoj_data_set_defined env ds E).
    + eexists _, _. split; [reflexivity|]. split.
      * intros o' Ho'. discriminate.
      * intros n _ _. split; reflexivity.
  - run. eexists _, _. split; [reflexivity|]. split.
    + intros o' Ho'. discriminate.
    + intros n Hn. discriminate.
Qed.

Lemma cjni_api_get_ds_returns_the_registered_data_set_witness :
  exists r w',
    cjni_api_get_ds Sim.host Sim.env Sim.plugin_name (Sim.started Sim.vm)
    = Some (r, w')
    /\ (forall o_dataset,
          r = Some o_dataset ->
          exists ds_name ds,
            GetStringUTFChars Sim.env Sim.plugin_name = Some ds_name
            /\ plugin_get_ds Sim.host ds_name = Some ds
            /\ o_dataset = managed_data_set ds
            /\ forall level,
                 level <> LOG_DEBUG ->
                 logged level (trace w')
                 = logged level (trace (Sim.started Sim.vm)))
    /\ (forall ds_name,
          GetStringUTFChars Sim.env Sim.plugin_name = Some ds_name ->
          plugin_get_ds Sim.host ds_name = None ->
          r = None
          /\ forall level,
               level <> LOG_DEBUG ->
               logged level (trace w')
               = logged level (trace (Sim.started Sim.vm))).
Proof.
  exact (cjni_api_get_ds_returns_the_registered_data_set Sim.host Sim.env
           Sim.plugin_name (Sim.started Sim.vm)).
Defined.

Lemma ctoj_value_to_number_spec (host : collectd) (env : JNIEnv) (v : value_t)
  (type : Z) (n : jobject) :
  ctoj_value_to_number host env v type = Ok n ->
  (type = DS_TYPE_COUNTER host
   /\ n = managed_long (to_jlong (value_counter v)))
  \/ (type <> DS_TYPE_COUNTER host /\ type = DS_TYPE_GAUGE host
      /\ n = managed_double (value_gauge v)).
Proof.
  unfold ctoj_value_to_number. intros H.
  destruct (type =? DS_TYPE_COUNTER host) eqn:Ec.
  - left. apply Z.eqb_eq in Ec. split; [exact Ec|].
    unfold ctoj_jlong_to_number in H. lookups H. inversion H. reflexivity.
  - apply Z.eqb_neq in Ec.
    destruct (type =? DS_TYPE_GAUGE host) eqn:Eg; [|discriminate].
    right. apply Z.eqb_eq in Eg. split; [exact Ec|]. split; [exact Eg|].
    unfold ctoj_jdouble_to_number in H. lookups H. inversion H. reflexivity.
Qed.

Lemma skipn_nth_error {A : Type} (l : list A) :
  forall (i : nat) (x : A),
  nth_error l i = Some x -> skipn i l = x :: skipn (S i) l.
Proof.
  induction l as [|y l IH]; intros [|i] x H; cbn in *; try discriminate.
  - inversion H. reflexivity.
  - apply IH. exact H.
Qed.

(** The managed number that stands for the value [v] of a data source of
    type [type]. *)
Lemma ctoj_value_list_values_numbers (host : collectd) (env : JNIEnv)
  (ds : data_set_t) (c : jclass) (values : list value_t) :
  forall (i : nat) (o o' : jobject),
  ctoj_value_list_values host env ds c values i o = Ok o' ->
  exists numbers,
    o' = add_all (MethodID c "addValue" "(Ljava/lang/Number;)V") numbers o
    /\ Forall2 (fun p n =>
                  ctoj_value_to_number host env (fst p) (dsrc_type (snd p))
                  = Ok n)
         (combine values (skipn i (ds_ds ds))) numbers
    /\ (List.length values <= List.length (skipn i (ds_ds ds)))%nat.
Proof.
  induction values as [|v rest IH]; intros i o o' H; cbn in H.
  - inversion H; subst. exists []. cbn.
    split; [reflexivity|]. split; [constructor | lia].
  - destruct (nth_error (ds_ds ds) i) as [dsrc|] eqn:En; [|discriminate].
    ok_steps H.
    unfold ctoj_value_list_add_value in E. lookups E. ok_steps E.
    inversion E; subst a.
    destruct (IH _ _ _ H) as (numbers & Ho' & Hall & Hlen).
    rewrite (skipn_nth_error _ _ _ En).
    exists (a0 :: numbers). split; [subst o'; reflexivity|]. split.
    + cbn [combine]. constructor; [exact E0 | exact Hall].
    + cbn [List.length]. lia.
Qed.

(** X2: in the ValueList [ctoj_value_list] returns, setDataSet received
    the managed form of the data set, and addValue received one number for
    each value, in order: the value at index [i] as a java.lang.Long
    holding its counter view (cast to a [jlong]) when [ds->ds[i].type] is
    DS_TYPE_COUNTER, as a java.lang.Double holding its gauge view when the
    type is DS_TYPE_GAUGE; no other type gets through. *)
Theorem ctoj_value_list_numbers_follow_the_data_source_types
  (host : collectd) (env : JNIEnv) (ds : data_set_t) (vl : value_list_t)
  (o : jobject) :
  ctoj_value_list host env ds vl = Ok o ->
  objects_passed_to "setDataSet" o = [managed_data_set ds]
  /\ List.length (objects_passed_to "addValue" o) = List.length (vl_values vl)
  /\ Forall2 (fun p n =>
                let (v, dsrc) := (p : value_t * data_source_t) in
                (dsrc_type dsrc = DS_TYPE_COUNTER host
                 /\ n = managed_long (to_jlong (value_counter v)))
                \/ (dsrc_type dsrc <> DS_TYPE_COUNTER host
                    /\ dsrc_type dsrc = DS_TYPE_GAUGE host
                    /\ n = managed_double (value_gauge v)))
       (combine (vl_values vl) (ds_ds ds))
       (objects_passed_to "addValue" o).
Proof.
  intros H. unfold ctoj_value_list in H. cbv zeta in H. lookups H.
  ok_steps H.
  repeat match goal with
         | E : ctoj_string _ _ _ _ _ = Ok _ |- _ => apply ctoj_string_spec in E
         | E : ctoj_long _ _ _ _ _ = Ok _ |- _ => apply ctoj_long_spec in E
         end.
  match goal with
  | E : ctoj_value_list_add_data_set _ _ _ _ = Ok _ |- _ =>
      unfold ctoj_value_list_add_data_set in E; lookups E; ok_steps E;
      inversion E; clear E
  end.
  match goal with
  | E : ctoj_data_set _ _ = Ok _ |- _ => apply ctoj_data_set_spec in E
  end.
  subst.
  destruct (ctoj_value_list_values_numbers _ _ _ _ _ _ _ _ H)
    as (numbers & Ho & Hall & Hlen).
  subst o. cbn [CallVoidMethod app]. rewrite add_all_calls.
  cbn [skipn] in *.
  assert (Hadd : objects_passed_to "addValue"
            (JRef LocalRef
               (DObject "org.collectd.api.ValueList"%string []
                  ([(MethodID "org.collectd.api.ValueList"%string "setDataSet"
                       "(Lorg.collectd.api.DataSet;)V",
                     [JV_object (managed_data_set ds)]);
                    (MethodID "org.collectd.api.ValueList"%string "setHost"
                       "(Ljava/lang/String;)V",
                     [JV_object (JRef LocalRef (DString (vl_host vl)))]);
                    (MethodID "org.collectd.api.ValueList"%string "setPlugin"
                       "(Ljava/lang/String;)V",
                     [JV_object (JRef LocalRef (DString (vl_plugin vl)))]);
                    (MethodID "org.collectd.api.ValueList"%string
                       "setPluginInstance" "(Ljava/lang/String;)V",
                     [JV_object
                        (JRef LocalRef (DString (vl_plugin_instance vl)))]);
                    (MethodID "org.collectd.api.ValueList"%string "setType"
                       "(Ljava/lang/String;)V",
                     [JV_object (JRef LocalRef (DString (vl_type vl)))]);
                    (MethodID "org.collectd.api.ValueList"%string
                       "setTypeInstance" "(Ljava/lang/String;)V",
                     [JV_object
                        (JRef LocalRef (DString (vl_type_instance vl)))]);
                    (MethodID "org.collectd.api.ValueList"%string "setTime"
                       "(J)V",
                     [JV_long (to_jlong (to_jlong (vl_time vl) * to_jlong 1000))]);
                    (MethodID "org.collectd.api.ValueList"%string "setInterval"
                       "(J)V", [JV_long (to_jlong (vl_interval vl))])]
                   ++ map (fun a =>
                             (MethodID "org.collectd.api.ValueList"%string
                                "addValue" "(Ljava/lang/Number;)V",
                              [JV_object a])) numbers)))
          = numbers).
  { unfold objects_passed_to. cbn [obj_calls ref_data].
    rewrite flat_map_app. cbn [flat_map m_name String.eqb Ascii.eqb Bool.eqb app].
    clear. induction numbers as [|n numbers IH]; [reflexivity|].
    cbn. f_equal. exact IH. }
  split; [|split].
  - unfold objects_passed_to. cbn [obj_calls ref_data].
    rewrite flat_map_app. cbn [flat_map m_name String.eqb Ascii.eqb Bool.eqb app].
    f_equal. clear. induction numbers as [|n numbers IH]; [reflexivity|].
    cbn. exact IH.
  - rewrite Hadd. apply Forall2_length in Hall.
    rewrite <- Hall. rewrite length_combine. lia.
  - rewrite Hadd. clear Hadd.
    eapply Forall2_impl; [|exact Hall].
    intros [v dsrc] n Hn. cbn [fst snd] in Hn.
    apply ctoj_value_to_number_spec in Hn. exact Hn.
Qed.

Lemma ctoj_value_list_numbers_follow_the_data_source_types_witness :
  objects_passed_to "setDataSet" Sim.managed_vl = [managed_data_set Sim.ds]
  /\ List.length (objects_passed_to "addValue" Sim.managed_vl)
     = List.length (vl_values Sim.vl)
  /\ Forall2 (fun p n =>
                let (v, dsrc) := (p : value_t * data_source_t) in
                (dsrc_type dsrc = DS_TYPE_COUNTER Sim.host
                 /\ n = managed_long (to_jlong (value_counter v)))
                \/ (dsrc_type dsrc <> DS_TYPE_COUNTER Sim.host
                    /\ dsrc_type dsrc = DS_TYPE_GAUGE Sim.host
                    /\ n = managed_double (value_gauge v)))
       (combine (vl_values Sim.vl) (ds_ds Sim.ds))
       (objects_passed_to "addValue" Sim.managed_vl).
Proof.
  apply (ctoj_value_list_numbers_follow_the_data_source_types
           Sim.host Sim.env Sim.ds Sim.vl Sim.managed_vl).
  vm_compute. reflexivity.
Defined.

Lemma ctoj_value_list_defined (host : collectd) (env : JNIEnv)
  (ds : data_set_t) (vl : value_list_t) :
  (List.length (vl_values vl) <= List.length (ds_ds ds))%nat ->
  ctoj_value_list host env ds vl <> Undefined.
Proof.
  intros Hlen. unfold ctoj_value_list. cbv zeta. defined;
    try apply ctoj_string_defined; try apply ctoj_long_defined.
  - unfold ctoj_value_list_add_data_set. defined.
    apply ctoj_data_set_defined.
  - apply ctoj_value_list_values_defined. exact Hlen.
Qed.






(** ** A value on its way through the JVM and back *)

Lemma wrap_64_mod (x : Z) : wrap 64 x mod 2 ^ 64 = x mod 2 ^ 64.
Proof.
  unfold wrap. rewrite Zminus_mod_idemp_l. f_equal. lia.
Qed.

(** X4: a value survives the way into the JVM and back.  Let the JVM give
    the number [ctoj_value_to_number] created a class that has longValue
    and doubleValue, and let a java.lang.Long and a java.lang.Double
    answer these with the number they were constructed with.  Then
    [jtoc_value], for the same data source type, returns the eight bytes
    of the value that went in. *)
Theorem value_survives_the_way_through_the_jvm
  (host : collectd) (env : JNIEnv) (v : value_t) (type : Z) (n : jobject)
  (c : jclass) :
  ctoj_value_to_number host env v type = Ok n ->
  GetObjectClass env n = Some c ->
  GetMethodID_ok env c "longValue" "()J" = true ->
  GetMethodID_ok env c "doubleValue" "()D" = true ->
  (forall j m, CallLongMethod env (managed_long j) m = j) ->
  (forall d m, CallDoubleMethod env (managed_double d) m = d) ->
  jtoc_value host env type n = Ok (v mod 2 ^ 64)
  /\ (value_ok v -> jtoc_value host env type n = Ok v).
Proof.
  intros Hn Hc Hl Hd Hlong Hdouble.
  assert (H : jtoc_value host env type n = Ok (v mod 2 ^ 64)).
  { unfold jtoc_value, jtoc_long, jtoc_double, GetMethodID.
    rewrite Hc, Hl, Hd. cbn [nonnull checked].
    destruct (ctoj_value_to_number_spec _ _ _ _ _ Hn)
      as [(Ht & Ho) | (Hnt & Ht & Ho)]; subst n.
    - subst type. rewrite Z.eqb_refl. rewrite Hlong.
      unfold to_counter, to_jlong, value_counter, to_counter.
      rewrite !wrap_64_mod. rewrite Z.mod_mod by lia. reflexivity.
    - apply Z.eqb_neq in Hnt. rewrite Hnt. rewrite Hdouble.
      reflexivity. }
  split; [exact H|].
  intros Hv. rewrite H. unfold value_ok in Hv.
  rewrite Z.mod_small by exact Hv. reflexivity.
Qed.

Lemma value_survives_the_way_through_the_jvm_witness :
  jtoc_value Sim.host Sim.env 0 (managed_long 5) = Ok (5 mod 2 ^ 64)
  /\ (value_ok 5 -> jtoc_value Sim.host Sim.env 0 (managed_long 5) = Ok 5).
Proof.
  apply (value_survives_the_way_through_the_jvm Sim.host Sim.env 5 0
           (managed_long 5) "java.lang.Long"%string);
    try reflexivity; intros; reflexivity.
Defined.

(** ** Values on their way out of the JVM *)

Lemma jtoc_values_array_loop_spec (host : collectd) (env : JNIEnv)
  (o_number_array : jobject) (sources : list data_source_t) :
  forall (i : Z) (values : list value_t),
  jtoc_values_array_loop host env o_number_array sources i = Ok values ->
  List.length values = List.length sources
  /\ forall (k : nat) (dsrc : data_source_t),
       nth_error sources k = Some dsrc ->
       exists o_number v,
         GetObjectArrayElement env o_number_array (i + Z.of_nat k)
         = Some o_number
         /\ jtoc_value host env (dsrc_type dsrc) o_number = Ok v
         /\ nth_error values k = Some v.
Proof.
  induction sources as [|dsrc rest IH]; intros i values H; cbn in H.
  - inversion H; subst. split; [reflexivity|].
    intros [|k] d Hk; discriminate.
  - ok_steps H. inversion H; subst.
    match goal with
    | E : jtoc_values_array_loop _ _ _ _ _ = Ok _ |- _ =>
        destruct (IH _ _ E) as (Hlen & Hnth)
    end.
    split; [cbn; f_equal; exact Hlen|].
    intros [|k] d Hk; cbn in Hk.
    + inversion Hk; subst d. rewrite Z.add_0_r.
      eexists _, _. split; [eassumption|]. split; [eassumption|reflexivity].
    + destruct (Hnth k d Hk) as (o_number & v & Hget & Hv & Hn).
      exists o_number, v.
      replace (i + Z.of_nat (S k)) with (i + 1 + Z.of_nat k) by lia.
      split; [exact Hget|]. split; [exact Hv|exact Hn].
Qed.

(** X5: [jtoc_values_array] takes the values from the array that
    getValues().toArray() returns, one per data source of the data set:
    the value at index [k] is what [jtoc_value] makes of the array
    element [k] for the type of [ds->ds[k]].  An array that lacks one of
    these elements, or an element that is no number of that kind, is
    therefore no success; the other members of the value list are left as
    they were. *)
Theorem jtoc_values_array_reads_one_number_per_data_source
  (host : collectd) (env : JNIEnv) (ds : data_set_t) (vl vl' : value_list_t)
  (class_ptr : jclass) (object_ptr : jobject) :
  jtoc_values_array host env ds vl class_ptr object_ptr = Ok vl' ->
  exists o_list c_list o_number_array,
    CallObjectMethod env object_ptr
      (MethodID class_ptr "getValues" "()Ljava/util/List;") = Some o_list
    /\ GetObjectClass env o_list = Some c_list
    /\ CallObjectMethod env o_list
         (MethodID c_list "toArray" "()[Ljava/lang/Object;")
       = Some o_number_array
    /\ List.length (vl_values vl') = List.length (ds_ds ds)
    /\ (forall (k : nat) (dsrc : data_source_t),
          nth_error (ds_ds ds) k = Some dsrc ->
          exists o_number v,
            GetObjectArrayElement env o_number_array (Z.of_nat k)
            = Some o_number
            /\ jtoc_value host env (dsrc_type dsrc) o_number = Ok v
            /\ nth_error (vl_values vl') k = Some v)
    /\ vl_time vl' = vl_time vl /\ vl_interval vl' = vl_interval vl
    /\ vl_host vl' = vl_host vl /\ vl_plugin vl' = vl_plugin vl
    /\ vl_plugin_instance vl' = vl_plugin_instance vl
    /\ vl_type vl' = vl_type vl /\ vl_type_instance vl' = vl_type_instance vl.
Proof.
  unfold jtoc_values_array, GetMethodID. intros H.
  destruct (GetMethodID_ok env class_ptr "getValues" "()Ljava/util/List;");
    [|discriminate].
  cbn [nonnull] in H.
  destruct (CallObjectMethod env object_ptr _) as [o_list|] eqn:Hlist;
    [|discriminate].
  cbn [nonnull] in H.
  destruct (GetObjectClass env o_list) as [c_list|] eqn:Hclass; [|discriminate].
  destruct (GetMethodID_ok env c_list "toArray" "()[Ljava/lang/Object;");
    [|discriminate].
  cbn [nonnull] in H.
  destruct (CallObjectMethod env o_list _) as [o_number_array|] eqn:Harray;
    [|discriminate].
  cbn [nonnull] in H.
  destruct (negb (alloc_ok host calloc_values)); [discriminate|].
  destruct (jtoc_values_array_loop host env o_number_array (ds_ds ds) 0)
    as [values| |] eqn:Hloop; try discriminate.
  inversion H; subst vl'. cbn.
  destruct (jtoc_values_array_loop_spec _ _ _ _ _ _ Hloop) as (Hlen & Hnth).
  exists o_list, c_list, o_number_array.
  split; [first [exact Hlist | reflexivity]|].
  split; [first [exact Hclass | reflexivity]|].
  split; [first [exact Harray | reflexivity]|].
  split; [exact Hlen|]. split; [|repeat split].
  intros k dsrc Hk. destruct (Hnth k dsrc Hk) as (o_number & v & Hget & Hv).
  exists o_number, v. split; [exact Hget | exact Hv].
Qed.

Lemma jtoc_values_array_reads_one_number_per_data_source_witness :
  exists vl',
    jtoc_values_array Sim.host Sim.env Sim.ds (VALUE_LIST_INIT Sim.host)
      "org.collectd.api.ValueList"%string Sim.managed_vl = Ok vl'
    /\ exists o_list c_list o_number_array,
    CallObjectMethod Sim.env Sim.managed_vl
      (MethodID "org.collectd.api.ValueList"%string "getValues"
         "()Ljava/util/List;") = Some o_list
    /\ GetObjectClass Sim.env o_list = Some c_list
    /\ CallObjectMethod Sim.env o_list
         (MethodID c_list "toArray" "()[Ljava/lang/Object;")
       = Some o_number_array
    /\ List.length (vl_values vl') = List.length (ds_ds Sim.ds)
    /\ (forall (k : nat) (dsrc : data_source_t),
          nth_error (ds_ds Sim.ds) k = Some dsrc ->
          exists o_number v,
            GetObjectArrayElement Sim.env o_number_array (Z.of_nat k)
            = Some o_number
            /\ jtoc_value Sim.host Sim.env (dsrc_type dsrc) o_number = Ok v
            /\ nth_error (vl_values vl') k = Some v)
    /\ vl_time vl' = vl_time (VALUE_LIST_INIT Sim.host)
    /\ vl_interval vl' = vl_interval (VALUE_LIST_INIT Sim.host)
    /\ vl_host vl' = vl_host (VALUE_LIST_INIT Sim.host)
    /\ vl_plugin vl' = vl_plugin (VALUE_LIST_INIT Sim.host)
    /\ vl_plugin_instance vl' = vl_plugin_instance (VALUE_LIST_INIT Sim.host)
    /\ vl_type vl' = vl_type (VALUE_LIST_INIT Sim.host)
    /\ vl_type_instance vl' = vl_type_instance (VALUE_LIST_INIT Sim.host).
Proof.
  eexists. split; [vm_compute; reflexivity|].
  apply (jtoc_values_array_reads_one_number_per_data_source Sim.host Sim.env
           Sim.ds (VALUE_LIST_INIT Sim.host)).
  vm_compute. reflexivity.
Defined.

(** X6: whatever [cjni_api_dispatch_values] hands to
    [plugin_dispatch_values] fits the registry of data sets: the type of
    the value list names a registered data set and the list carries
    exactly one value per data source of it; its time and interval fit
    their native types.  The status of the daemon is returned
    unchanged. *)
Theorem dispatched_value_lists_fit_their_data_set
  (host : collectd) (env : JNIEnv) (java_vl : jobject) (w w' : world) (r : Z) :
  cjni_api_dispatch_values host env java_vl w = Some (r, w') ->
  forall vl,
    In vl (dispatch_calls (trace w')) ->
    In vl (dispatch_calls (trace w))
    \/ (exists ds,
          plugin_get_ds host (vl_type vl) = Some ds
          /\ List.length (vl_values vl) = List.length (ds_ds ds))
       /\ - 2 ^ 63 <= vl_time vl < 2 ^ 63
       /\ - 2 ^ 31 <= vl_interval vl < 2 ^ 31
       /\ r = plugin_dispatch_values_status host (trace w) vl.
Proof.
  intros H vl Hin. rewrite cjni_api_dispatch_values_run in H.
  destruct (jtoc_value_list host env (VALUE_LIST_INIT host) java_vl)
    as [vl1|log|] eqn:E; [| |discriminate].
  - cbv zeta in H. inversion H; subst r w'. clear H. fields.
    rewrite dispatch_calls_app in Hin. apply in_app_or in Hin.
    destruct Hin as [Hin|Hin]; [left; exact Hin|right].
    cbn in Hin. destruct Hin as [Hin|[]]. subst vl1.
    destruct (jtoc_value_list_ok_steps _ _ _ _ _ E)
      as (c & ds & _ & _ & Hds & _ & _ & _ & Hlen).
    destruct (jtoc_value_list_time_interval _ _ _ _ _ E)
      as (c' & _ & Ht & Hi).
    split; [exists ds; split; assumption|].
    rewrite Ht, Hi. split; [|split; [|reflexivity]].
    + apply quot_1000_range, to_jlong_range.
    + unfold to_int, wrap.
      pose proof (Z.mod_pos_bound
                    (to_jlong (CallLongMethod env java_vl
                                 (MethodID c' "getInterval" "()J"))
                     + 2 ^ (32 - 1)) (2 ^ 32) eq_refl) as Hb.
      change (2 ^ (32 - 1)) with (2 ^ 31) in *.
      change (2 ^ 32) with (2 * 2 ^ 31) in *. lia.
  - inversion H; subst r w'. clear H. fields.
    rewrite dispatch_calls_app, dispatch_calls_log, app_nil_r in Hin.
    left. exact Hin.
Qed.

Lemma dispatched_value_lists_fit_their_data_set_witness :
  In Sim.vl (dispatch_calls [Ev_plugin_dispatch_values Sim.vl 0])
  /\ (exists ds,
        plugin_get_ds Sim.host (vl_type Sim.vl) = Some ds
        /\ List.length (vl_values Sim.vl) = List.length (ds_ds ds))
  /\ - 2 ^ 63 <= vl_time Sim.vl < 2 ^ 63
  /\ - 2 ^ 31 <= vl_interval Sim.vl < 2 ^ 31
  /\ 0 = plugin_dispatch_values_status Sim.host (trace (Sim.started Sim.vm))
           Sim.vl.
Proof.
  split; [left; reflexivity|].
  assert (Hrun : cjni_api_dispatch_values Sim.host Sim.env Sim.managed_vl
                   (Sim.started Sim.vm)
                 = Some (0, set_trace [Ev_plugin_dispatch_values Sim.vl 0]
                              (Sim.started Sim.vm)))
    by (vm_compute; reflexivity).
  destruct (dispatched_value_lists_fit_their_data_set Sim.host Sim.env
              Sim.managed_vl (Sim.started Sim.vm) _ 0 Hrun Sim.vl
              (or_introl eq_refl)) as [[]|H].
  exact H.
Defined.

(** ** Logging from the JVM *)

(** X7: [cjni_api_log] always returns and writes exactly one line.  The
    message of a readable string is logged once at the severity it came
    with, brought into the range from LOG_ERR to LOG_DEBUG: a smaller
    number becomes LOG_ERR, a larger one LOG_DEBUG.  A string the JVM
    cannot hand out gives one line at LOG_ERR instead. *)
Theorem cjni_api_log_clamps_the_severity
  (env : JNIEnv) (severity : Z) (o_message : jobject) (w : world) :
  exists level msg,
    cjni_api_log env severity o_message w
    = Some (tt, set_trace (trace w ++ [Ev_plugin_log level msg]) w)
    /\ match GetStringUTFChars env o_message with
       | Some c_str =>
           msg = c_str
           /\ LOG_level level
              = Z.max (LOG_level LOG_ERR) (Z.min (LOG_level LOG_DEBUG) severity)
       | None => level = LOG_ERR
       end.
Proof.
  unfold cjni_api_log.
  destruct (GetStringUTFChars env o_message) as [c_str|].
  - cbv zeta. eexists _, c_str. split; [reflexivity|]. split; [reflexivity|].
    cbn [LOG_level].
    destruct (severity <? 3) eqn:E1.
    + apply Z.ltb_lt in E1. cbn. lia.
    + apply Z.ltb_ge in E1. destruct (7 <? severity) eqn:E2.
      * apply Z.ltb_lt in E2. cbn. lia.
      * apply Z.ltb_ge in E2. unfold severity_of_level.
        destruct (severity =? 3) eqn:H3; [apply Z.eqb_eq in H3; cbn; lia|].
        destruct (severity =? 4) eqn:H4; [apply Z.eqb_eq in H4; cbn; lia|].
        destruct (severity =? 5) eqn:H5; [apply Z.eqb_eq in H5; cbn; lia|].
        destruct (severity =? 6) eqn:H6; [apply Z.eqb_eq in H6; cbn; lia|].
        apply Z.eqb_neq in H3, H4, H5, H6. cbn. lia.
  - eexists _, _. split; [reflexivity|]. reflexivity.
Qed.

Lemma cjni_api_log_clamps_the_severity_witness :
  exists level msg,
    cjni_api_log Sim.env 12 Sim.plugin_name (Sim.started Sim.vm)
    = Some (tt, set_trace (trace (Sim.started Sim.vm)
                           ++ [Ev_plugin_log level msg]) (Sim.started Sim.vm))
    /\ match GetStringUTFChars Sim.env Sim.plugin_name with
       | Some c_str =>
           msg = c_str
           /\ LOG_level level
              = Z.max (LOG_level LOG_ERR) (Z.min (LOG_level LOG_DEBUG) 12)
       | None => level = LOG_ERR
       end.
Proof.
  exact (cjni_api_log_clamps_the_severity Sim.env 12 Sim.plugin_name
           (Sim.started Sim.vm)).
Defined.

(** ** The return value of [cjni_read] and [cjni_write] *)

(** Split the views of a trace along its parts. *)
Ltac views :=
  unfold callback_calls, int_calls, deleted_local_refs, deleted_global_refs,
    new_global_refs, logged, unregistered_reads, dispatch_calls in *;
  rewrite ?flat_map_app in *.

Lemma detach_events_silent (vm : JavaVM) (t : list event) :
  callback_calls (detach_events vm t) = []
  /\ deleted_local_refs (detach_events vm t) = []
  /\ deleted_global_refs (detach_events vm t) = []
  /\ new_global_refs (detach_events vm t) = [].
Proof.
  unfold detach_events. cbv zeta.
  destruct (DetachCurrentThread vm t =? 0); repeat split; reflexivity.
Qed.

Lemma log_events_silent (log : list string) :
  callback_calls (map (Ev_plugin_log LOG_ERR) log) = []
  /\ deleted_local_refs (map (Ev_plugin_log LOG_ERR) log) = []
  /\ deleted_global_refs (map (Ev_plugin_log LOG_ERR) log) = []
  /\ new_global_refs (map (Ev_plugin_log LOG_ERR) log) = []
  /\ int_calls (map (Ev_plugin_log LOG_ERR) log) = [].
Proof.
  induction log as [|msg log IH]; [repeat split|].
  destruct IH as (H1 & H2 & H3 & H4 & H5). cbn. repeat split; assumption.
Qed.

(** An attach either hands out a runtime context or fails after one line
    in the log, with the counter at zero before and after. *)
Lemma cjni_thread_attach_cases (host : collectd) (w : world) (vm : JavaVM) :
  jvm w = Some vm ->
  thread_state_ok w ->
  (exists env w1, cjni_thread_attach host w = Some (Some env, w1))
  \/ (exists w1 evs msg,
        cjni_thread_attach host w = Some (None, w1)
        /\ trace w1 = trace w ++ evs
        /\ (evs = [Ev_plugin_log LOG_ERR msg]
            \/ exists status,
                 evs = [EvAttachCurrentThread status; Ev_plugin_log LOG_ERR msg])
        /\ attach_count w = 0 /\ attach_count w1 = 0
        /\ jvm w1 = jvm w /\ java_callbacks w1 = java_callbacks w
        /\ java_classes_list w1 = java_classes_list w).
Proof.
  intros Hjvm Hok. unfold thread_state_ok, attach_count in *.
  destruct (jvm_env_key w) as [[e c]|] eqn:Hkey; fields.
  - destruct Hok as [[Hc He]|[Hc He]]; subst.
    + unfold cjni_thread_attach. run. rewrite Hkey. cbn. rewrite Hjvm. cbn.
      destruct (AttachCurrentThread vm (trace w)) as [status env'].
      destruct (status =? 0) eqn:Hs; cbn.
      * left. eexists _, _. reflexivity.
      * right. eexists _, _, _. split; [reflexivity|]. fields.
        rewrite <- app_assoc. split; [reflexivity|].
        split; [right; eexists; reflexivity|].
        repeat split; rewrite ?Hkey; auto.
    + destruct e as [env'|]; [|congruence]. left.
      rewrite (cjni_thread_attach_nested host w env' c Hkey) by lia.
      eexists _, _. reflexivity.
  - unfold cjni_thread_attach. run. rewrite Hkey. cbn.
    destruct (alloc_ok host malloc_cjni_env); cbn.
    + rewrite Hjvm. cbn.
      destruct (AttachCurrentThread vm (trace w)) as [status env'].
      destruct (status =? 0) eqn:Hs; cbn.
      * left. eexists _, _. reflexivity.
      * right. eexists _, _, _. split; [reflexivity|]. fields.
        rewrite <- app_assoc. split; [reflexivity|].
        split; [right; eexists; reflexivity|].
        repeat split; rewrite ?Hkey; auto.
    + right. eexists _, _, _. split; [reflexivity|]. fields.
      split; [reflexivity|]. split; [left; reflexivity|].
      repeat split; rewrite ?Hkey; auto.
Qed.



(** [cjni_write] past a successful attach and a successful conversion. *)
Lemma cjni_write_attached_trace (host : collectd) (w w1 : world) (vm : JavaVM)
  (env : JNIEnv) (cbi : cjni_callback_info_t) (o vl_java : jobject)
  (m : jmethodID) (ds : data_set_t) (vl : value_list_t) :
  jvm w = Some vm ->
  thread_state_ok w ->
  cbi_object cbi = Some o ->
  cbi_method cbi = Some m ->
  cjni_thread_attach host w = Some (Some env, w1) ->
  ctoj_value_list host env ds vl = Ok vl_java ->
  exists w',
    cjni_write host ds vl (Some {| ud_data := Some cbi |}) w = Some (0, w')
    /\ attach_count w' = attach_count w
    /\ callback_calls (trace w')
       = callback_calls (trace w)
         ++ [(o, m, [JV_object vl_java],
              CallIntMethod_status env (trace w1) o m [JV_object vl_java])]
    /\ exists released,
         deleted_local_refs (trace w')
         = deleted_local_refs (trace w) ++ released ++ [vl_java].
Proof.
  intros Hjvm Hok Ho Hm Hattach Hconv.
  pose proof (thread_state_ok_range w Hok) as Hrange.
  pose proof (cjni_thread_attach_success host w w1 vm env Hjvm Hok Hattach)
    as Hw1.
  unfold cjni_write. run. rewrite Hjvm, Hattach, Hconv, Ho, Hm.
  set (ret := CallIntMethod_status env (trace w1) o m [JV_object vl_java]).
  match goal with
  | |- context [cjni_thread_detach ?w2] =>
      rewrite (cjni_thread_detach_attached w2 vm env (attach_count w + 1))
        by first [subst w1; exact Hjvm | subst w1; reflexivity | lia]
  end.
  cbn [negb Z.eqb]. eexists. split; [reflexivity|].
  split; [unfold attach_count at 1; fields; lia|].
  split; [|exists []; cbn [app]];
    (fields; rewrite Hw1; fields;
     match goal with
     | |- context [detach_events vm ?t] =>
         destruct (detach_events_silent vm t) as (Hd1 & Hd2 & _)
     end;
     unfold callback_calls, deleted_local_refs in *;
     rewrite !flat_map_app;
     destruct (attach_count w + 1 =? 1); destruct (attach_count w =? 0);
     rewrite ?Hd1, ?Hd2; cbn [flat_map app]; rewrite ?app_nil_r;
     reflexivity).
Qed.

(** X9: [cjni_write], called on a consistent thread record with a
    descriptor that has an object and a method and with a value list no
    longer than its data set, always returns.  It returns 0 exactly when
    it has invoked the callback once, on the managed form of the value
    list, whose local reference is the last it hands to DeleteLocalRef;
    the status the callback returned has no part in the result.  In every
    other case it returns -1 after at least one ERROR line, without
    invoking anything. *)
Theorem cjni_write_returns_zero_exactly_when_the_callback_ran
  (host : collectd) (w : world) (ds : data_set_t) (vl : value_list_t)
  (ud : option user_data_t) :
  thread_state_ok w ->
  (forall cbi, ud = Some {| ud_data := Some cbi |} ->
               cbi_object cbi <> None /\ cbi_method cbi <> None) ->
  (List.length (vl_values vl) <= List.length (ds_ds ds))%nat ->
  exists r w',
    cjni_write host ds vl ud w = Some (r, w')
    /\ ((r = 0
         /\ attach_count w' = attach_count w
         /\ exists cbi o m env vl_java status,
              ud = Some {| ud_data := Some cbi |}
              /\ cbi_object cbi = Some o /\ cbi_method cbi = Some m
              /\ ctoj_value_list host env ds vl = Ok vl_java
              /\ callback_calls (trace w')
                 = callback_calls (trace w)
                   ++ [(o, m, [JV_object vl_java], status)]
              /\ exists released,
                   deleted_local_refs (trace w')
                   = deleted_local_refs (trace w) ++ released ++ [vl_java])
        \/ (r = -1
            /\ callback_calls (trace w') = callback_calls (trace w)
            /\ exists msg log,
                 logged LOG_ERR (trace w')
                 = logged LOG_ERR (trace w) ++ log ++ [msg])).
Proof.
  intros Hok Hud Hlen.
  destruct (jvm w) as [vm|] eqn:Hjvm.
  - destruct ud as [[[cbi|]]|].
    + destruct (Hud cbi eq_refl) as [Ho Hm].
      destruct (cbi_object cbi) as [o|] eqn:Eo; [|congruence].
      destruct (cbi_method cbi) as [m|] eqn:Em; [|congruence].
      destruct (cjni_thread_attach_cases host w vm Hjvm Hok)
        as [(env & w1 & Ha)
           |(w1 & evs & msg & Ha & Ht & Hevs & Hc & Hc1 & _)].
      * destruct (ctoj_value_list host env ds vl) as [vl_java|log|] eqn:Hconv.
        -- destruct (cjni_write_attached_trace host w w1 vm env cbi o vl_java
                       m ds vl Hjvm Hok Eo Em Ha Hconv)
             as (w' & Hr & Hcount & Hcalls & Hdel).
           exists 0, w'. split; [exact Hr|]. left. split; [reflexivity|].
           split; [exact Hcount|].
           eexists cbi, o, m, env, vl_java, _.
           split; [reflexivity|]. split; [exact Eo|]. split; [exact Em|].
           split; [exact Hconv|]. split; [exact Hcalls | exact Hdel].
        -- pose proof (cjni_thread_attach_success host w w1 vm env Hjvm Hok Ha)
             as Hw1.
           unfold cjni_write. run. rewrite Hjvm, Ha, Hconv, ERRORS_run.
           eexists _, _. split; [reflexivity|]. right.
           split; [reflexivity|]. fields. rewrite Hw1. fields.
           destruct (log_events_silent log) as (Hl1 & Hl2 & _).
           pose proof (ERRORS_logged log) as Hl3.
           unfold callback_calls, deleted_local_refs, logged in *.
           rewrite !flat_map_app, Hl1, Hl3.
           destruct (attach_count w =? 0); cbn [flat_map app];
             rewrite ?app_nil_r; (split; [reflexivity|]); exists
               "java plugin: cjni_write: ctoj_value_list failed."%string, log;
             rewrite <- ?app_assoc; reflexivity.
        -- exfalso.
           destruct (ctoj_value_list_defined host env ds vl Hlen Hconv).
      * exists (-1), w1. unfold cjni_write. run. rewrite Hjvm, Ha.
        split; [reflexivity|]. right.
        split; [reflexivity|]. rewrite Ht. views.
        destruct Hevs as [Hevs|[status Hevs]]; subst evs; cbn;
          rewrite ?app_nil_r; (split; [reflexivity|]);
          exists msg, []; reflexivity.
    + unfold cjni_write. run. rewrite Hjvm. eexists _, _.
      split; [reflexivity|]. right. fields. views. cbn.
      rewrite ?app_nil_r. split; [reflexivity|]. split; [reflexivity|].
      eexists _, []. reflexivity.
    + unfold cjni_write. run. rewrite Hjvm. eexists _, _.
      split; [reflexivity|]. right. fields. views. cbn.
      rewrite ?app_nil_r. split; [reflexivity|]. split; [reflexivity|].
      eexists _, []. reflexivity.
  - unfold cjni_write. run. rewrite Hjvm. eexists _, _.
    split; [reflexivity|]. right. fields. views. cbn.
    rewrite ?app_nil_r. split; [reflexivity|]. split; [reflexivity|].
    eexists _, []. reflexivity.
Qed.

Lemma cjni_write_returns_zero_exactly_when_the_callback_ran_witness :
  exists r w',
    cjni_write Sim.host Sim.ds Sim.vl (Some {| ud_data := Some Sim.write_cbi |})
      (Sim.started Sim.vm) = Some (r, w')
    /\ ((r = 0
         /\ attach_count w' = attach_count (Sim.started Sim.vm)
         /\ exists cbi o m env vl_java status,
              Some {| ud_data := Some Sim.write_cbi |}
              = Some {| ud_data := Some cbi |}
              /\ cbi_object cbi = Some o /\ cbi_method cbi = Some m
              /\ ctoj_value_list Sim.host env Sim.ds Sim.vl = Ok vl_java
              /\ callback_calls (trace w')
                 = callback_calls (trace (Sim.started Sim.vm))
                   ++ [(o, m, [JV_object vl_java], status)]
              /\ exists released,
                   deleted_local_refs (trace w')
                   = deleted_local_refs (trace (Sim.started Sim.vm))
                     ++ released ++ [vl_java])
        \/ (r = -1
            /\ callback_calls (trace w')
               = callback_calls (trace (Sim.started Sim.vm))
            /\ exists msg log,
                 logged LOG_ERR (trace w')
                 = logged LOG_ERR (trace (Sim.started Sim.vm)) ++ log ++ [msg])).
Proof.
  apply (cjni_write_returns_zero_exactly_when_the_callback_ran Sim.host
           (Sim.started Sim.vm) Sim.ds Sim.vl
           (Some {| ud_data := Some Sim.write_cbi |})).
  - exact I.
  - intros cbi H. inversion H; subst cbi. split; discriminate.
  - cbn. lia.
Defined.

(** ** Releasing a descriptor owned by the daemon *)



(** X11: [cjni_callback_info_destroy] has no test for a missing JVM.
    Called on a descriptor when [jvm] is [NULL] (as it is after
    [cjni_shutdown]) from a thread that is not attached, and with the
    per-thread record allocated, it reaches the call through the [NULL]
    [jvm] in [cjni_thread_attach] and does not return. *)
Theorem cjni_callback_info_destroy_without_jvm_does_not_return
  (host : collectd) (w : world) (cbi : cjni_callback_info_t) :
  jvm w = None ->
  attach_count w = 0 ->
  attached_env w = None ->
  alloc_ok host malloc_cjni_env = true ->
  cjni_callback_info_destroy host (Some cbi) w = None.
Proof.
  intros Hjvm Hc He Halloc.
  unfold cjni_callback_info_destroy, cjni_thread_attach. run.
  unfold attach_count, attached_env in *.
  destruct (jvm_env_key w) as [[e c]|] eqn:Hkey; fields.
  - subst e c. cbn. rewrite Hjvm. reflexivity.
  - rewrite Halloc. cbn. rewrite Hjvm. reflexivity.
Qed.

Lemma cjni_callback_info_destroy_without_jvm_does_not_return_witness :
  cjni_callback_info_destroy Sim.host (Some Sim.read_cbi) Sim.after_shutdown
  = None.
Proof.
  apply (cjni_callback_info_destroy_without_jvm_does_not_return Sim.host
           Sim.after_shutdown Sim.read_cbi); reflexivity.
Defined.

(** ** Registration *)

(** What [cjni_callback_info_create] returns and appends to the trace. *)
Lemma cjni_callback_info_create_cases (host : collectd) (env : JNIEnv)
  (o_name o_callback : jobject) (type : Z) (w : world) :
  (exists cbi,
     cjni_callback_info_create host env o_name o_callback type w
     = Some (Some cbi, set_trace (trace w ++ [EvNewGlobalRef o_callback]) w)
     /\ cbi_type cbi = type
     /\ GetStringUTFChars env o_name = Some (cbi_name cbi)
     /\ cbi_object cbi = Some o_callback
     /\ cbi_class cbi = GetObjectClass env o_callback
     /\ cbi_method cbi <> None
     /\ CB_TYPE_CONFIG <= type <= CB_TYPE_SHUTDOWN)
  \/ (exists msg,
        cjni_callback_info_create host env o_name o_callback type w
        = Some (None, set_trace (trace w ++ [Ev_plugin_log LOG_ERR msg]) w)).
Proof.
  unfold cjni_callback_info_create. cbv zeta.
  assert (Hrange : forall s,
             (if type =? CB_TYPE_CONFIG then
                Some ("Config", "(Lorg/collectd/api/OConfigItem;)I")%string
              else if type =? CB_TYPE_INIT then Some ("Init", "()I")%string
              else if type =? CB_TYPE_READ then Some ("Read", "()I")%string
              else if type =? CB_TYPE_WRITE then
                Some ("Write", "(Lorg/collectd/api/ValueList;)I")%string
              else if type =? CB_TYPE_SHUTDOWN then
                Some ("Shutdown", "()I")%string
              else None) = Some s ->
             CB_TYPE_CONFIG <= type <= CB_TYPE_SHUTDOWN).
  { intros s. unfold CB_TYPE_CONFIG, CB_TYPE_INIT, CB_TYPE_READ, CB_TYPE_WRITE,
      CB_TYPE_SHUTDOWN.
    destruct (type =? 1) eqn:E1; [apply Z.eqb_eq in E1; lia|].
    destruct (type =? 2) eqn:E2; [apply Z.eqb_eq in E2; lia|].
    destruct (type =? 3) eqn:E3; [apply Z.eqb_eq in E3; lia|].
    destruct (type =? 4) eqn:E4; [apply Z.eqb_eq in E4; lia|].
    destruct (type =? 5) eqn:E5; [apply Z.eqb_eq in E5; lia|].
    discriminate. }
  destruct (if type =? CB_TYPE_CONFIG then _ else _) as [[method_name sig]|];
    [|right; eexists; reflexivity].
  specialize (Hrange _ eq_refl).
  destruct (GetStringUTFChars env o_name) as [c_name|];
    [|right; eexists; reflexivity].
  destruct (alloc_ok host malloc_cbi); cbn [negb];
    [|right; eexists; reflexivity].
  destruct (alloc_ok host strdup_cbi_name); cbn [negb];
    [|right; eexists; reflexivity].
  destruct (GetObjectClass env o_callback) as [class|];
    [|right; eexists; reflexivity].
  destruct (GetMethodID env class method_name sig) as [method|];
    [|right; eexists; reflexivity].
  left. eexists. split; [reflexivity|]. cbn.
  repeat split; try reflexivity; try discriminate; lia.
Qed.

(** X12: [cjni_callback_register] always returns, 0 or -1.  It returns 0
    exactly when it has appended one descriptor at the end of
    [java_callbacks]: of the requested type, named after the string it
    was given, holding the object it was given.  When it returns -1 the
    registry is as before, one ERROR line was written, and every
    reference handed to NewGlobalRef was handed to DeleteGlobalRef.  A
    type outside the five callback types is never registered. *)
Theorem cjni_callback_register_changes_the_registry_only_on_success
  (host : collectd) (env : JNIEnv) (o_name o_callback : jobject) (type : Z)
  (w : world) :
  exists r w' evs,
    cjni_callback_register host env o_name o_callback type w = Some (r, w')
    /\ trace w' = trace w ++ evs
    /\ ((r = 0
         /\ CB_TYPE_CONFIG <= type <= CB_TYPE_SHUTDOWN
         /\ evs = [EvNewGlobalRef o_callback]
         /\ exists cbi,
              java_callbacks w' = java_callbacks w ++ [cbi]
              /\ cbi_type cbi = type
              /\ GetStringUTFChars env o_name = Some (cbi_name cbi)
              /\ cbi_object cbi = Some o_callback)
        \/ (r = -1
            /\ java_callbacks w' = java_callbacks w
            /\ new_global_refs evs = deleted_global_refs evs
            /\ exists msg, logged LOG_ERR evs = [msg])).
Proof.
  unfold cjni_callback_register. rewrite bind_run.
  destruct (cjni_callback_info_create_cases host env o_name o_callback type w)
    as [(cbi & Hc & Htype & Hname & Hobj & _ & _ & Hrange)|(msg & Hc)];
    rewrite Hc; cbv beta iota.
  - destruct (alloc_ok host realloc_java_callbacks); cbn [negb].
    + run. eexists _, _, _. split; [reflexivity|]. fields.
      split; [reflexivity|]. left.
      split; [reflexivity|]. split; [exact Hrange|]. split; [reflexivity|].
      exists cbi. repeat split; assumption.
    + run. rewrite Hobj. eexists _, _, _. split; [reflexivity|]. fields.
      rewrite <- !app_assoc. split; [reflexivity|]. right.
      split; [reflexivity|]. split; [reflexivity|]. split; [reflexivity|].
      eexists. reflexivity.
  - run. eexists _, _, _. split; [reflexivity|]. fields.
    split; [reflexivity|]. right.
    split; [reflexivity|]. split; [reflexivity|]. split; [reflexivity|].
    eexists. reflexivity.
Qed.

Lemma cjni_callback_register_changes_the_registry_only_on_success_witness :
  exists r w' evs,
    cjni_callback_register Sim.host Sim.env Sim.plugin_name Sim.plugin_object
      CB_TYPE_INIT (Sim.started Sim.vm) = Some (r, w')
    /\ trace w' = trace (Sim.started Sim.vm) ++ evs
    /\ ((r = 0
         /\ CB_TYPE_CONFIG <= CB_TYPE_INIT <= CB_TYPE_SHUTDOWN
         /\ evs = [EvNewGlobalRef Sim.plugin_object]
         /\ exists cbi,
              java_callbacks w' = java_callbacks (Sim.started Sim.vm) ++ [cbi]
              /\ cbi_type cbi = CB_TYPE_INIT
              /\ GetStringUTFChars Sim.env Sim.plugin_name = Some (cbi_name cbi)
              /\ cbi_object cbi = Some Sim.plugin_object)
        \/ (r = -1
            /\ java_callbacks w' = java_callbacks (Sim.started Sim.vm)
            /\ new_global_refs evs = deleted_global_refs evs
            /\ exists msg, logged LOG_ERR evs = [msg])).
Proof.
  exact (cjni_callback_register_changes_the_registry_only_on_success Sim.host
           Sim.env Sim.plugin_name Sim.plugin_object CB_TYPE_INIT
           (Sim.started Sim.vm)).
Defined.

(** X13: [cjni_api_register_read] and [cjni_api_register_write] never
    touch [java_callbacks].  On success they return 0 after three calls:
    NewGlobalRef on the callback object, the registration of a descriptor
    of type Read or Write with the daemon under the name they were given,
    and DeleteLocalRef on the callback object; the descriptor handed to
    the daemon holds that same reference.  Otherwise they return -1 after
    one ERROR line, with nothing registered. *)
Theorem read_and_write_callbacks_are_owned_by_the_daemon
  (host : collectd) (env : JNIEnv) (o_name o_callback : jobject) (w : world) :
  (exists r w',
     cjni_api_register_read host env o_name o_callback w = Some (r, w')
     /\ java_callbacks w' = java_callbacks w
     /\ ((r = 0
          /\ exists cbi,
               trace w'
               = trace w
                 ++ [EvNewGlobalRef o_callback;
                     Ev_plugin_register_complex_read (cbi_name cbi) cbi;
                     EvDeleteLocalRef o_callback]
               /\ cbi_type cbi = CB_TYPE_READ
               /\ GetStringUTFChars env o_name = Some (cbi_name cbi)
               /\ cbi_object cbi = Some o_callback)
         \/ (r = -1
             /\ exists msg, trace w' = trace w ++ [Ev_plugin_log LOG_ERR msg])))
  /\ (exists r w',
        cjni_api_register_write host env o_name o_callback w = Some (r, w')
        /\ java_callbacks w' = java_callbacks w
        /\ ((r = 0
             /\ exists cbi,
                  trace w'
                  = trace w
                    ++ [EvNewGlobalRef o_callback;
                        Ev_plugin_register_write (cbi_name cbi) cbi;
                        EvDeleteLocalRef o_callback]
                  /\ cbi_type cbi = CB_TYPE_WRITE
                  /\ GetStringUTFChars env o_name = Some (cbi_name cbi)
                  /\ cbi_object cbi = Some o_callback)
            \/ (r = -1
                /\ exists msg,
                     trace w' = trace w ++ [Ev_plugin_log LOG_ERR msg]))).
Proof.
  split.
  - unfold cjni_api_register_read. rewrite bind_run.
    destruct (cjni_callback_info_create_cases host env o_name o_callback
                CB_TYPE_READ w)
      as [(cbi & Hc & Htype & Hname & Hobj & _)|(msg & Hc)];
      rewrite Hc; cbv beta iota; run; eexists _, _;
      (split; [reflexivity|]); fields; (split; [reflexivity|]).
    + left. split; [reflexivity|]. exists cbi.
      rewrite <- !app_assoc. repeat split; assumption.
    + right. split; [reflexivity|]. exists msg. reflexivity.
  - unfold cjni_api_register_write. rewrite bind_run.
    destruct (cjni_callback_info_create_cases host env o_name o_callback
                CB_TYPE_WRITE w)
      as [(cbi & Hc & Htype & Hname & Hobj & _)|(msg & Hc)];
      rewrite Hc; cbv beta iota; run; eexists _, _;
      (split; [reflexivity|]); fields; (split; [reflexivity|]).
    + left. split; [reflexivity|]. exists cbi.
      rewrite <- !app_assoc. repeat split; assumption.
    + right. split; [reflexivity|]. exists msg. reflexivity.
Qed.

Lemma read_and_write_callbacks_are_owned_by_the_daemon_witness :
  (exists r w',
     cjni_api_register_read Sim.host Sim.env Sim.plugin_name Sim.plugin_object
       (Sim.started Sim.vm) = Some (r, w')
     /\ java_callbacks w' = java_callbacks (Sim.started Sim.vm)
     /\ ((r = 0
          /\ exists cbi,
               trace w'
               = trace (Sim.started Sim.vm)
                 ++ [EvNewGlobalRef Sim.plugin_object;
                     Ev_plugin_register_complex_read (cbi_name cbi) cbi;
                     EvDeleteLocalRef Sim.plugin_object]
               /\ cbi_type cbi = CB_TYPE_READ
               /\ GetStringUTFChars Sim.env Sim.plugin_name
                  = Some (cbi_name cbi)
               /\ cbi_object cbi = Some Sim.plugin_object)
         \/ (r = -1
             /\ exists msg,
                  trace w'
                  = trace (Sim.started Sim.vm) ++ [Ev_plugin_log LOG_ERR msg])))
  /\ (exists r w',
        cjni_api_register_write Sim.host Sim.env Sim.plugin_name
          Sim.plugin_object (Sim.started Sim.vm) = Some (r, w')
        /\ java_callbacks w' = java_callbacks (Sim.started Sim.vm)
        /\ ((r = 0
             /\ exists cbi,
                  trace w'
                  = trace (Sim.started Sim.vm)
                    ++ [EvNewGlobalRef Sim.plugin_object;
                        Ev_plugin_register_write (cbi_name cbi) cbi;
                        EvDeleteLocalRef Sim.plugin_object]
                  /\ cbi_type cbi = CB_TYPE_WRITE
                  /\ GetStringUTFChars Sim.env Sim.plugin_name
                     = Some (cbi_name cbi)
                  /\ cbi_object cbi = Some Sim.plugin_object)
            \/ (r = -1
                /\ exists msg,
                     trace w'
                     = trace (Sim.started Sim.vm)
                       ++ [Ev_plugin_log LOG_ERR msg]))).
Proof.
  exact (read_and_write_callbacks_are_owned_by_the_daemon Sim.host Sim.env
           Sim.plugin_name Sim.plugin_object (Sim.started Sim.vm)).
Defined.

(** ** The per-thread record *)

(** X14: the per-thread record stays consistent.  With the JVM running,
    an attach of a thread whose counter has room for one more returns,
    adds one to the counter when it hands out a context and leaves it at
    zero when it fails.  A detach that returns either returns 0 and has
    taken one from a positive counter, or returns -1 because the thread
    has no record at all, after one ERROR line and no call to the JVM.  A
    detach on a record whose counter is zero trips the assertion: the
    counter never becomes negative. *)
Theorem thread_record_stays_consistent
  (host : collectd) (w : world) (vm : JavaVM) :
  jvm w = Some vm ->
  thread_state_ok w ->
  (attach_count w + 1 < 2 ^ 31 - 1 ->
   exists r w',
     cjni_thread_attach host w = Some (r, w')
     /\ thread_state_ok w' /\ jvm w' = Some vm
     /\ attach_count w'
        = attach_count w + (match r with Some _ => 1 | None => 0 end))
  /\ (forall r w',
        cjni_thread_detach w = Some (r, w') ->
        thread_state_ok w' /\ jvm w' = Some vm
        /\ ((r = 0 /\ 0 < attach_count w
             /\ attach_count w' = attach_count w - 1)
            \/ (r = -1 /\ jvm_env_key w = None
                /\ exists msg,
                     w' = set_trace (trace w ++ [Ev_plugin_log LOG_ERR msg]) w)))
  /\ (jvm_env_key w <> None -> attach_count w = 0 ->
      cjni_thread_detach w = None).
Proof.
  intros Hjvm Hok.
  pose proof (thread_state_ok_range w Hok) as Hrange.
  split; [|split].
  - intros Hroom.
    destruct (cjni_thread_attach_cases host w vm Hjvm Hok)
      as [(env & w1 & Ha)
         |(w1 & evs & msg & Ha & Ht & Hevs & Hc & Hc1 & Hj & _)].
    + pose proof (cjni_thread_attach_success host w w1 vm env Hjvm Hok Ha)
        as Hw1.
      exists (Some env), w1. split; [exact Ha|]. subst w1.
      unfold thread_state_ok. fields.
      split; [right; split; [lia|discriminate]|].
      split; [exact Hjvm | unfold attach_count at 1; fields; reflexivity].
    + exists None, w1. split; [exact Ha|].
      split; [|split; [congruence | lia]].
      revert Ha. unfold cjni_thread_attach. run.
      unfold thread_state_ok, attach_count in *.
      destruct (jvm_env_key w) as [[e c]|] eqn:Hkey; fields.
      * destruct Hok as [[Hz He]|[Hz He]]; [|lia]. subst.
        cbn. rewrite Hjvm. cbn.
        destruct (AttachCurrentThread vm (trace w)) as [status env'].
        destruct (status =? 0); cbn; [discriminate|].
        intros H. inversion H; subst w1. fields. rewrite Hkey.
        left. split; reflexivity.
      * destruct (alloc_ok host malloc_cjni_env); cbn.
        -- rewrite Hjvm. cbn.
           destruct (AttachCurrentThread vm (trace w)) as [status env'].
           destruct (status =? 0); cbn; [discriminate|].
           intros H. inversion H; subst w1. fields.
           left. split; reflexivity.
        -- intros H. inversion H; subst w1. fields. rewrite Hkey. exact I.
  - intros r w' H.
    unfold thread_state_ok, attach_count in *.
    destruct (jvm_env_key w) as [[e c]|] eqn:Hkey; fields.
    + destruct Hok as [[Hz He]|[Hz He]].
      * subst. revert H. unfold cjni_thread_detach. run. rewrite Hkey.
        cbn. discriminate.
      * destruct e as [env|]; [|congruence].
        rewrite (cjni_thread_detach_attached w vm env c Hjvm Hkey) in H
          by lia.
        inversion H; subst r w'. fields.
        split; [|split; [exact Hjvm|left; repeat split; lia]].
        destruct (c =? 1) eqn:E1.
        -- apply Z.eqb_eq in E1. subst c. left. split; reflexivity.
        -- apply Z.eqb_neq in E1. right. split; [lia|discriminate].
    + revert H. unfold cjni_thread_detach. run. rewrite Hkey.
      intros H. inversion H; subst r w'. fields. rewrite Hkey.
      split; [exact I|]. split; [exact Hjvm|]. right.
      split; [reflexivity|]. split; [reflexivity|]. eexists. reflexivity.
  - intros Hrec Hz. unfold cjni_thread_detach, attach_count in *. run.
    destruct (jvm_env_key w) as [[e c]|] eqn:Hkey; [|congruence].
    fields. subst c. reflexivity.
Qed.

Lemma thread_record_stays_consistent_witness :
  (attach_count (Sim.started Sim.vm) + 1 < 2 ^ 31 - 1 ->
   exists r w',
     cjni_thread_attach Sim.host (Sim.started Sim.vm) = Some (r, w')
     /\ thread_state_ok w' /\ jvm w' = Some Sim.vm
     /\ attach_count w'
        = attach_count (Sim.started Sim.vm)
          + (match r with Some _ => 1 | None => 0 end))
  /\ (forall r w',
        cjni_thread_detach (Sim.started Sim.vm) = Some (r, w') ->
        thread_state_ok w' /\ jvm w' = Some Sim.vm
        /\ ((r = 0 /\ 0 < attach_count (Sim.started Sim.vm)
             /\ attach_count w' = attach_count (Sim.started Sim.vm) - 1)
            \/ (r = -1 /\ jvm_env_key (Sim.started Sim.vm) = None
                /\ exists msg,
                     w' = set_trace (trace (Sim.started Sim.vm)
                                     ++ [Ev_plugin_log LOG_ERR msg])
                            (Sim.started Sim.vm))))
  /\ (jvm_env_key (Sim.started Sim.vm) <> None ->
      attach_count (Sim.started Sim.vm) = 0 ->
      cjni_thread_detach (Sim.started Sim.vm) = None).
Proof.
  apply (thread_record_stays_consistent Sim.host (Sim.started Sim.vm) Sim.vm).
  - reflexivity.
  - exact I.
Defined.

(** ** The configuration block of the plugin *)

Lemma cjni_config_add_jvm_arg_cases (host : collectd) (ci : oconfig_item_t)
  (w : world) :
  (exists arg,
     ci_values ci = [OCONFIG_TYPE_STRING arg]
     /\ cjni_config_add_jvm_arg host ci w
        = Some (0, set_jvm_argv (jvm_argv w ++ [arg]) w))
  \/ (exists level msg,
        cjni_config_add_jvm_arg host ci w
        = Some (-1, set_trace (trace w ++ [Ev_plugin_log level msg]) w)
        /\ ((forall site, alloc_ok host site = true) ->
            forall arg, ci_values ci <> [OCONFIG_TYPE_STRING arg])).
Proof.
  unfold cjni_config_add_jvm_arg.
  destruct (ci_values ci) as [|[arg|?|?|?] [|? ?]];
    try (right; eexists _, _; split; [reflexivity|];
         intros _ arg'; discriminate).
  destruct (alloc_ok host realloc_jvm_argv) eqn:E1; cbn [negb].
  - destruct (alloc_ok host strdup_jvm_arg) eqn:E2; cbn [negb].
    + left. exists arg. split; reflexivity.
    + right. eexists _, _. split; [reflexivity|].
      intros Hall. rewrite Hall in E2. discriminate.
  - right. eexists _, _. split; [reflexivity|].
    intros Hall. rewrite Hall in E1. discriminate.
Qed.

Lemma cjni_config_load_plugin_cases (host : collectd) (ci : oconfig_item_t)
  (w : world) :
  (exists name,
     ci_values ci = [OCONFIG_TYPE_STRING name]
     /\ cjni_config_load_plugin host ci w
        = Some (0,
                set_java_classes_list
                  (java_classes_list w
                   ++ [{| jpc_name := name; jpc_class := None;
                          jpc_object := None |}]) w))
  \/ (exists level msg,
        cjni_config_load_plugin host ci w
        = Some (-1, set_trace (trace w ++ [Ev_plugin_log level msg]) w)
        /\ ((forall site, alloc_ok host site = true) ->
            forall name, ci_values ci <> [OCONFIG_TYPE_STRING name])).
Proof.
  unfold cjni_config_load_plugin.
  destruct (ci_values ci) as [|[name|?|?|?] [|? ?]];
    try (right; eexists _, _; split; [reflexivity|];
         intros _ name'; discriminate).
  destruct (alloc_ok host realloc_java_classes_list) eqn:E1; cbn [negb].
  - destruct (alloc_ok host strdup_class_name) eqn:E2; cbn [negb].
    + left. exists name. split; reflexivity.
    + right. eexists _, _. split; [reflexivity|].
      intros Hall. rewrite Hall in E2. discriminate.
  - right. eexists _, _. split; [reflexivity|].
    intros Hall. rewrite Hall in E1. discriminate.
Qed.

Lemma cjni_config_plugin_block_cases (host : collectd) (ci : oconfig_item_t)
  (w : world) :
  exists r w',
    cjni_config_plugin_block host ci w = Some (r, w')
    /\ (r = 0 \/ r = -1)
    /\ jvm_argv w' = jvm_argv w
    /\ java_classes_list w' = java_classes_list w
    /\ java_callbacks w' = java_callbacks w
    /\ jvm w' = jvm w
    /\ jvm_env_key w' = jvm_env_key w
    /\ (r = -1 -> java_plugin_configs w' = java_plugin_configs w).
Proof.
  unfold cjni_config_plugin_block.
  destruct (ci_values ci) as [|[name|?|?|?] [|? ?]];
    try (run; eexists _, _; split; [reflexivity|]; fields;
         repeat split; right; reflexivity).
  destruct (alloc_ok host strdup_block_name); cbn [negb];
    [|run; eexists _, _; split; [reflexivity|]; fields;
      repeat split; right; reflexivity].
  run.
  destruct (existsb (fun c => streq (jcfg_name c) name) (java_plugin_configs w));
    [eexists _, _; split; [reflexivity|]; fields;
     repeat split; try (left; reflexivity); discriminate|].
  destruct (alloc_ok host realloc_java_plugin_configs); cbn [negb];
    [|eexists _, _; split; [reflexivity|]; fields;
      repeat split; right; reflexivity].
  destruct (alloc_ok host oconfig_clone_ci); cbn [negb];
    [|eexists _, _; split; [reflexivity|]; fields;
      repeat split; right; reflexivity].
  eexists _, _; split; [reflexivity|]; fields.
  repeat split; try (left; reflexivity); discriminate.
Qed.

(** The loop of [cjni_config]: it counts every child once, and changes
    nothing while no child has succeeded. *)
Lemma cjni_config_children_counts (host : collectd)
  (children : list oconfig_item_t) :
  forall (success errors : Z) (w : world),
  exists success' errors' w',
    cjni_config_children host children success errors w
    = Some ((success', errors'), w')
    /\ success <= success' /\ errors <= errors'
    /\ success' + errors'
       = success + errors + Z.of_nat (List.length children)
    /\ java_callbacks w' = java_callbacks w
    /\ jvm w' = jvm w
    /\ jvm_env_key w' = jvm_env_key w
    /\ (success' = success ->
        jvm_argv w' = jvm_argv w
        /\ java_classes_list w' = java_classes_list w
        /\ java_plugin_configs w' = java_plugin_configs w).
Proof.
  induction children as [|child rest IH]; intros success errors w.
  - exists success, errors, w. cbn. repeat split; lia.
  - cbn [cjni_config_children List.length].
    assert (Hfail : forall level msg,
              exists success' errors' w',
                cjni_config_children host rest success (errors + 1)
                  (set_trace (trace w ++ [Ev_plugin_log level msg]) w)
                = Some ((success', errors'), w')
                /\ success <= success' /\ errors <= errors'
                /\ success' + errors'
                   = success + errors + Z.of_nat (S (List.length rest))
                /\ java_callbacks w' = java_callbacks w
                /\ jvm w' = jvm w
                /\ jvm_env_key w' = jvm_env_key w
                /\ (success' = success ->
                    jvm_argv w' = jvm_argv w
                    /\ java_classes_list w' = java_classes_list w
                    /\ java_plugin_configs w' = java_plugin_configs w)).
    { intros level msg.
      destruct (IH success (errors + 1)
                  (set_trace (trace w ++ [Ev_plugin_log level msg]) w))
        as (s' & e' & w' & Hrun & Hs & He & Hsum & Hcb & Hjvm & Hkey & Hsame).
      exists s', e', w'. split; [exact Hrun|]. fields.
      repeat split; try assumption; try lia; apply Hsame; assumption. }
    destruct (strcaseeq "JVMArg" (ci_key child)).
    { rewrite bind_run.
      destruct (cjni_config_add_jvm_arg_cases host child w)
        as [(arg & _ & Hstep)|(level & msg & Hstep & _)]; rewrite Hstep;
        cbv beta iota; cbn [Z.eqb]; [|apply Hfail].
      destruct (IH (success + 1) errors
                  (set_jvm_argv (jvm_argv w ++ [arg]) w))
        as (s' & e' & w' & Hrun & Hs & He & Hsum & Hcb & Hjvm & Hkey & Hsame).
      exists s', e', w'. split; [exact Hrun|]. fields.
      repeat split; try assumption; lia. }
    destruct (strcaseeq "LoadPlugin" (ci_key child)).
    { rewrite bind_run.
      destruct (cjni_config_load_plugin_cases host child w)
        as [(name & _ & Hstep)|(level & msg & Hstep & _)]; rewrite Hstep;
        cbv beta iota; cbn [Z.eqb]; [|apply Hfail].
      match goal with
      | |- context [cjni_config_children host rest _ _ ?w1] =>
          destruct (IH (success + 1) errors w1)
            as (s' & e' & w' & Hrun & Hs & He & Hsum & Hcb & Hjvm & Hkey
                & Hsame)
      end.
      exists s', e', w'. split; [exact Hrun|]. fields.
      repeat split; try assumption; lia. }
    destruct (strcaseeq "Plugin" (ci_key child)).
    { rewrite bind_run.
      destruct (cjni_config_plugin_block_cases host child w)
        as (r & w1 & Hstep & Hr & Hargv & Hcls & Hcb1 & Hjvm1 & Hkey1 & Hcfg);
        rewrite Hstep; cbv beta iota.
      destruct Hr as [Hr|Hr]; subst r; cbn [Z.eqb].
      - destruct (IH (success + 1) errors w1)
          as (s' & e' & w' & Hrun & Hs & He & Hsum & Hcb & Hjvm & Hkey & Hsame).
        exists s', e', w'. split; [exact Hrun|].
        repeat split; try congruence; lia.
      - destruct (IH success (errors + 1) w1)
          as (s' & e' & w' & Hrun & Hs & He & Hsum & Hcb & Hjvm & Hkey & Hsame).
        exists s', e', w'. split; [exact Hrun|].
        specialize (Hcfg eq_refl).
        repeat split; try congruence; try lia;
          destruct (Hsame H) as (H1 & H2 & H3); congruence. }
    rewrite bind_run. unfold WARNING at 1, emit at 1, update at 1.
    cbv beta iota. apply Hfail.
Qed.

(** X15: [cjni_config] always returns, 0 or -1, and touches neither the
    registry of callbacks nor the JVM handle.  It returns -1 only for a
    block that has children none of which was accepted, and then the JVM
    arguments, the list of classes to load and the stored plugin blocks
    are as they were before, and the last line of the log is the ERROR
    line saying that all statements failed; a block without children
    returns 0 and changes nothing. *)
Theorem cjni_config_fails_only_when_every_statement_failed
  (host : collectd) (ci : oconfig_item_t) (w : world) :
  exists r w',
    cjni_config host ci w = Some (r, w')
    /\ (r = 0 \/ r = -1)
    /\ java_callbacks w' = java_callbacks w
    /\ jvm w' = jvm w
    /\ (ci_children ci = [] -> r = 0 /\ w' = w)
    /\ (r = -1 ->
        ci_children ci <> []
        /\ jvm_argv w' = jvm_argv w
        /\ java_classes_list w' = java_classes_list w
        /\ java_plugin_configs w' = java_plugin_configs w
        /\ exists t,
             trace w'
             = t ++ [Ev_plugin_log LOG_ERR "java plugin: All statements failed."]).
Proof.
  unfold cjni_config. rewrite bind_run.
  destruct (cjni_config_children_counts host (ci_children ci) 0 0 w)
    as (s' & e' & w1 & Hrun & Hs & He & Hsum & Hcb & Hjvm & Hkey & Hsame).
  rewrite Hrun. cbv beta iota.
  destruct (andb (s' =? 0) (0 <? e')) eqn:Hall.
  - apply andb_true_iff in Hall. destruct Hall as [H0 Hpos].
    apply Z.eqb_eq in H0. apply Z.ltb_lt in Hpos.
    destruct (Hsame H0) as (Ha & Hc & Hp).
    run. eexists _, _. split; [reflexivity|]. fields.
    split; [right; reflexivity|]. split; [exact Hcb|]. split; [exact Hjvm|].
    split.
    + intros Hnil. rewrite Hnil in Hsum. cbn in Hsum. lia.
    + intros _. split.
      * intros Hnil. rewrite Hnil in Hsum. cbn in Hsum. lia.
      * repeat split; try assumption. eexists. reflexivity.
  - eexists _, _. split; [reflexivity|].
    split; [left; reflexivity|]. split; [exact Hcb|]. split; [exact Hjvm|].
    split.
    + intros Hnil. split; [reflexivity|].
      rewrite Hnil in Hrun. cbn in Hrun. inversion Hrun. reflexivity.
    + discriminate.
Qed.

Lemma cjni_config_fails_only_when_every_statement_failed_witness :
  exists r w',
    cjni_config Sim.host Sim.block (Sim.started Sim.vm) = Some (r, w')
    /\ (r = 0 \/ r = -1)
    /\ java_callbacks w' = java_callbacks (Sim.started Sim.vm)
    /\ jvm w' = jvm (Sim.started Sim.vm)
    /\ (ci_children Sim.block = [] -> r = 0 /\ w' = Sim.started Sim.vm)
    /\ (r = -1 ->
        ci_children Sim.block <> []
        /\ jvm_argv w' = jvm_argv (Sim.started Sim.vm)
        /\ java_classes_list w' = java_classes_list (Sim.started Sim.vm)
        /\ java_plugin_configs w' = java_plugin_configs (Sim.started Sim.vm)
        /\ exists t,
             trace w'
             = t ++ [Ev_plugin_log LOG_ERR "java plugin: All statements failed."]).
Proof.
  exact (cjni_config_fails_only_when_every_statement_failed Sim.host Sim.block
           (Sim.started Sim.vm)).
Defined.

Lemma cjni_config_children_order (host : collectd)
  (children : list oconfig_item_t) :
  (forall site, alloc_ok host site = true) ->
  forall (success errors : Z) (w : world),
  exists r w',
    cjni_config_children host children success errors w = Some (r, w')
    /\ jvm_argv w' = jvm_argv w ++ jvm_args_of children
    /\ java_classes_list w'
       = java_classes_list w
         ++ map (fun name => {| jpc_name := name; jpc_class := None;
                                jpc_object := None |})
              (load_plugins_of children).
Proof.
  intros Hall.
  induction children as [|child rest IH]; intros success errors w.
  - eexists _, _. split; [reflexivity|]. cbn. rewrite !app_nil_r.
    split; reflexivity.
  - cbn [cjni_config_children]. unfold jvm_args_of, load_plugins_of.
    cbn [flat_map]. fold (jvm_args_of rest). fold (load_plugins_of rest).
    destruct (strcaseeq "JVMArg" (ci_key child)).
    { rewrite bind_run.
      destruct (cjni_config_add_jvm_arg_cases host child w)
        as [(arg & Hv & Hstep)|(level & msg & Hstep & Hno)]; rewrite Hstep;
        cbv beta iota; cbn [Z.eqb].
      - match goal with
        | |- context [cjni_config_children host rest ?s ?e ?w1] =>
            destruct (IH s e w1) as (r & w' & Hrun & Hargv & Hcls)
        end.
        exists r, w'. split; [exact Hrun|]. fields. rewrite Hv.
        rewrite Hargv, Hcls, <- app_assoc. split; reflexivity.
      - match goal with
        | |- context [cjni_config_children host rest ?s ?e ?w1] =>
            destruct (IH s e w1) as (r & w' & Hrun & Hargv & Hcls)
        end.
        exists r, w'. split; [exact Hrun|]. fields.
        specialize (Hno Hall).
        destruct (ci_values child) as [|[arg|?|?|?] [|? ?]];
          try (split; assumption).
        exfalso. exact (Hno arg eq_refl). }
    destruct (strcaseeq "LoadPlugin" (ci_key child)).
    { rewrite bind_run.
      destruct (cjni_config_load_plugin_cases host child w)
        as [(name & Hv & Hstep)|(level & msg & Hstep & Hno)]; rewrite Hstep;
        cbv beta iota; cbn [Z.eqb].
      - match goal with
        | |- context [cjni_config_children host rest ?s ?e ?w1] =>
            destruct (IH s e w1) as (r & w' & Hrun & Hargv & Hcls)
        end.
        exists r, w'. split; [exact Hrun|]. fields. rewrite Hv.
        rewrite Hargv, Hcls. cbn [app map]. rewrite <- app_assoc.
        split; reflexivity.
      - match goal with
        | |- context [cjni_config_children host rest ?s ?e ?w1] =>
            destruct (IH s e w1) as (r & w' & Hrun & Hargv & Hcls)
        end.
        exists r, w'. split; [exact Hrun|]. fields.
        specialize (Hno Hall).
        destruct (ci_values child) as [|[name|?|?|?] [|? ?]];
          try (split; assumption).
        exfalso. exact (Hno name eq_refl). }
    cbn [app].
    destruct (strcaseeq "Plugin" (ci_key child)).
    { rewrite bind_run.
      destruct (cjni_config_plugin_block_cases host child w)
        as (r1 & w1 & Hstep & Hr & Hargv1 & Hcls1 & _); rewrite Hstep;
        cbv beta iota.
      destruct (r1 =? 0);
        match goal with
        | |- context [cjni_config_children host rest ?s ?e w1] =>
            destruct (IH s e w1) as (r & w' & Hrun & Hargv & Hcls)
        end;
        exists r, w'; (split; [exact Hrun|]);
        rewrite Hargv, Hcls, Hargv1, Hcls1; split; reflexivity. }
    rewrite bind_run. unfold WARNING at 1, emit at 1, update at 1.
    cbv beta iota.
    match goal with
    | |- context [cjni_config_children host rest ?s ?e ?w1] =>
        destruct (IH s e w1) as (r & w' & Hrun & Hargv & Hcls)
    end.
    exists r, w'. split; [exact Hrun|]. fields. split; assumption.
Qed.

(** X16: when no allocation fails, [cjni_config] appends to the JVM
    arguments the strings of the well-formed JVMArg children, and to the
    list of classes the names of the well-formed LoadPlugin children,
    each in the order of the block and after what was there before; the
    keys are compared without regard to case, a child with any other
    number or kind of values contributes nothing, and the new classes are
    not yet loaded. *)
Theorem cjni_config_keeps_the_order_of_the_block
  (host : collectd) (ci : oconfig_item_t) (w : world) :
  (forall site, alloc_ok host site = true) ->
  exists r w',
    cjni_config host ci w = Some (r, w')
    /\ jvm_argv w' = jvm_argv w ++ jvm_args_of (ci_children ci)
    /\ java_classes_list w'
       = java_classes_list w
         ++ map (fun name => {| jpc_name := name; jpc_class := None;
                                jpc_object := None |})
              (load_plugins_of (ci_children ci)).
Proof.
  intros Hall. unfold cjni_config. rewrite bind_run.
  destruct (cjni_config_children_order host (ci_children ci) Hall 0 0 w)
    as ([s' e'] & w1 & Hrun & Hargv & Hcls).
  rewrite Hrun. cbv beta iota.
  destruct (andb (s' =? 0) (0 <? e')); run; eexists _, _;
    (split; [reflexivity|]); fields; split; assumption.
Qed.

Lemma cjni_config_keeps_the_order_of_the_block_witness :
  exists r w',
    cjni_config Sim.host Sim.java_block (Sim.started Sim.vm) = Some (r, w')
    /\ jvm_argv w'
       = jvm_argv (Sim.started Sim.vm)
         ++ jvm_args_of (ci_children Sim.java_block)
    /\ java_classes_list w'
       = java_classes_list (Sim.started Sim.vm)
         ++ map (fun name => {| jpc_name := name; jpc_class := None;
                                jpc_object := None |})
              (load_plugins_of (ci_children Sim.java_block)).
Proof.
  apply (cjni_config_keeps_the_order_of_the_block Sim.host Sim.java_block
           (Sim.started Sim.vm)).
  intros site. reflexivity.
Defined.

(** ** Configuring, shutting down and loading the plugins *)


Lemma set_trace_callbacks (t : list event) (w : world) :
  java_callbacks (set_trace t w) = java_callbacks w.
Proof. reflexivity. Qed.




Lemma cjni_shutdown_plugins_loop_calls (env : JNIEnv)
  (callbacks : list cjni_callback_info_t) :
  (forall cb, In cb callbacks -> cbi_type cb = CB_TYPE_SHUTDOWN ->
              cbi_object cb <> None /\ cbi_method cb <> None) ->
  forall w,
  exists evs,
    cjni_shutdown_plugins_loop env callbacks w
    = Some (tt, set_trace (trace w ++ evs) w)
    /\ Forall2 (fun cb call => invoked cb [] call)
         (filter (is_type CB_TYPE_SHUTDOWN) callbacks) (callback_calls evs)
    /\ List.length (logged LOG_ERR evs)
       = List.length (filter (fun call => negb (snd call =? 0))
                        (callback_calls evs))
    /\ deleted_global_refs evs = []
    /\ unregistered_reads evs = []
    /\ detach_calls evs = 0%nat
    /\ new_global_refs evs = [].
Proof.
  induction callbacks as [|cb rest IH]; intros Hnonnull w.
  - exists []. cbn. rewrite set_trace_nil. repeat split. constructor.
  - assert (Hrest : forall cb, In cb rest -> cbi_type cb = CB_TYPE_SHUTDOWN ->
                               cbi_object cb <> None /\ cbi_method cb <> None)
      by (intros cb' Hin; apply Hnonnull; right; exact Hin).
    cbn [cjni_shutdown_plugins_loop filter].
    change (cbi_type cb =? CB_TYPE_SHUTDOWN)
      with (is_type CB_TYPE_SHUTDOWN cb).
    destruct (is_type CB_TYPE_SHUTDOWN cb) eqn:Htype; cbn [negb].
    + apply Z.eqb_eq in Htype.
      destruct (Hnonnull cb (or_introl eq_refl) Htype) as [Ho Hm].
      destruct (cbi_object cb) as [o|] eqn:Eo; [|congruence].
      destruct (cbi_method cb) as [m|] eqn:Em; [|congruence].
      run. fields.
      set (status := CallIntMethod_status env (trace w) o m []).
      destruct (status =? 0) eqn:Hs; cbn [negb].
      * destruct (IH Hrest
                    (set_trace (trace w ++ [EvCallIntMethod o m [] status]) w))
          as (evs & Hrun & Hcalls & Hlog & Hdel & Hun & Hdet & Hnew).
        exists ([EvCallIntMethod o m [] status] ++ evs).
        rewrite Hrun, set_trace_twice. split; [reflexivity|].
        rewrite detach_calls_app, Hdet.
        unfold callback_calls, logged, deleted_global_refs, unregistered_reads,
          new_global_refs in *.
        rewrite !flat_map_app. cbn [flat_map app filter snd].
        rewrite Hs. cbn [negb].
        split; [constructor; [|exact Hcalls]|].
        -- cbn. repeat split; assumption.
        -- repeat split; assumption.
      * match goal with
        | |- context [Ev_plugin_log LOG_ERR ?msg] => set (line := msg)
        end.
        match goal with
        | |- context [cjni_shutdown_plugins_loop env rest ?w2] =>
            replace w2
              with (set_trace
                      (trace w
                       ++ [EvCallIntMethod o m [] status;
                           Ev_plugin_log LOG_ERR line]) w)
              by (unfold set_trace; cbn; rewrite <- !app_assoc; reflexivity)
        end.
        match goal with
        | |- context [cjni_shutdown_plugins_loop env rest ?w2] =>
            destruct (IH Hrest w2)
              as (evs & Hrun & Hcalls & Hlog & Hdel & Hun & Hdet & Hnew)
        end.
        rewrite Hrun, set_trace_twice. eexists. split; [reflexivity|].
        rewrite detach_calls_app, Hdet.
        unfold callback_calls, logged, deleted_global_refs, unregistered_reads,
          new_global_refs in *.
        rewrite !flat_map_app. cbn [flat_map app filter snd List.length].
        rewrite Hs. cbn [negb List.length].
        split; [constructor; [|exact Hcalls]|].
        -- cbn. repeat split; assumption.
        -- split; [f_equal; exact Hlog|]. repeat split; assumption.
    + apply IH. exact Hrest.
Qed.

(** X18: [cjni_shutdown_plugins], on a registry whose Shutdown descriptors
    have an object and a method, returns 0 after it has invoked every
    callback of type Shutdown, in registration order and without
    arguments.  A callback that returns a non-zero status costs one ERROR
    line and nothing else: the callbacks after it are still invoked, no
    read function is withdrawn and no reference is released. *)
Theorem cjni_shutdown_plugins_invokes_every_shutdown_callback
  (env : JNIEnv) (w : world) :
  (forall cb, In cb (java_callbacks w) -> cbi_type cb = CB_TYPE_SHUTDOWN ->
              cbi_object cb <> None /\ cbi_method cb <> None) ->
  exists evs,
    cjni_shutdown_plugins env w = Some (0, set_trace (trace w ++ evs) w)
    /\ Forall2 (fun cb call => invoked cb [] call)
         (filter (is_type CB_TYPE_SHUTDOWN) (java_callbacks w))
         (callback_calls evs)
    /\ List.length (logged LOG_ERR evs)
       = List.length (filter (fun call => negb (snd call =? 0))
                        (callback_calls evs))
    /\ deleted_global_refs evs = []
    /\ unregistered_reads evs = [].
Proof.
  intros Hnonnull.
  destruct (cjni_shutdown_plugins_loop_calls env (java_callbacks w) Hnonnull w)
    as (evs & Hrun & Hcalls & Hlog & Hdel & Hun & _ & _).
  exists evs. unfold cjni_shutdown_plugins. run. rewrite Hrun.
  split; [reflexivity|]. repeat split; assumption.
Qed.

Lemma cjni_shutdown_plugins_invokes_every_shutdown_callback_witness :
  exists evs,
    cjni_shutdown_plugins (Sim.env_returning 1) (Sim.registered Sim.vm)
    = Some (0, set_trace (trace (Sim.registered Sim.vm) ++ evs)
                 (Sim.registered Sim.vm))
    /\ Forall2 (fun cb call => invoked cb [] call)
         (filter (is_type CB_TYPE_SHUTDOWN)
            (java_callbacks (Sim.registered Sim.vm)))
         (callback_calls evs)
    /\ List.length (logged LOG_ERR evs)
       = List.length (filter (fun call => negb (snd call =? 0))
                        (callback_calls evs))
    /\ deleted_global_refs evs = []
    /\ unregistered_reads evs = [].
Proof.
  apply (cjni_shutdown_plugins_invokes_every_shutdown_callback
           (Sim.env_returning 1) (Sim.registered Sim.vm)).
  intros cb [H|[H|[]]] _; subst cb; split; discriminate.
Defined.

(** What the body of the loop of [cjni_load_plugins] does for one class. *)
Lemma cjni_load_plugins_class_cases (env : JNIEnv)
  (class : java_plugin_class_t) (w : world) :
  jpc_object class = None ->
  exists class' evs,
    cjni_load_plugins_class env class w
    = Some (class', set_trace (trace w ++ evs) w)
    /\ jpc_name class' = jpc_name class
    /\ ((exists o,
           evs = [EvNewGlobalRef o]
           /\ jpc_object class' = Some o
           /\ jpc_class class' = Some (jpc_name class)
           /\ o = JRef LocalRef (DObject (jpc_name class) [] []))
        \/ (exists msg,
              evs = [Ev_plugin_log LOG_ERR msg]
              /\ jpc_object class' = None)).
Proof.
  intros Hnone. unfold cjni_load_plugins_class, FindClass, GetMethodID, NewObject.
  cbv zeta.
  destruct (FindClass_ok env (jpc_name class)); cbn [jpc_name].
  - destruct (GetMethodID_ok env (jpc_name class) "<init>" "()V").
    + destruct (NewObject_ok env (jpc_name class) _ []).
      * run. eexists _, _. split; [reflexivity|]. cbn [jpc_name].
        split; [reflexivity|]. left. eexists. repeat split.
      * run. eexists _, _. split; [reflexivity|]. cbn [jpc_name].
        split; [reflexivity|]. right. eexists. split; reflexivity.
    + run. eexists _, _. split; [reflexivity|]. cbn [jpc_name jpc_object].
      split; [reflexivity|]. right. eexists. split; [reflexivity|exact Hnone].
  - run. eexists _, _. split; [reflexivity|]. cbn [jpc_name jpc_object].
    split; [reflexivity|]. right. eexists. split; [reflexivity|exact Hnone].
Qed.

Lemma cjni_load_plugins_loop_spec (env : JNIEnv)
  (classes : list java_plugin_class_t) :
  Forall (fun class => jpc_object class = None) classes ->
  forall w,
  exists classes' evs,
    cjni_load_plugins_loop env classes w
    = Some (classes', set_trace (trace w ++ evs) w)
    /\ map jpc_name classes' = map jpc_name classes
    /\ new_global_refs evs = held (map jpc_object classes')
    /\ Forall (fun o => ref_kind_of o = LocalRef)
         (held (map jpc_object classes'))
    /\ List.length (logged LOG_ERR evs)
       = List.length (filter (fun class =>
                                match jpc_object class with
                                | None => true
                                | Some _ => false
                                end) classes')
    /\ callback_calls evs = []
    /\ deleted_global_refs evs = [].
Proof.
  induction classes as [|class rest IH]; intros Hnone w.
  - exists [], []. cbn. rewrite set_trace_nil. repeat split. constructor.
  - inversion Hnone as [|? ? Hclass Hrest]; subst.
    cbn [cjni_load_plugins_loop]. rewrite bind_run.
    destruct (cjni_load_plugins_class_cases env class w Hclass)
      as (class' & evs1 & Hrun1 & Hname & Hcase).
    rewrite Hrun1. cbv beta iota. rewrite bind_run.
    destruct (IH Hrest (set_trace (trace w ++ evs1) w))
      as (rest' & evs & Hrun & Hnames & Hrefs & Hlocal & Hlog & Hcalls & Hdel).
    rewrite Hrun. cbv beta iota. unfold ret.
    rewrite set_trace_twice. eexists _, _. split; [reflexivity|].
    cbn [map held flat_map filter].
    split; [rewrite Hname, Hnames; reflexivity|].
    unfold callback_calls, logged, deleted_global_refs, new_global_refs in *.
    rewrite !flat_map_app.
    destruct Hcase as [(o & Hevs & Hobj & _ & Ho)|(msg & Hevs & Hobj)];
      subst evs1; rewrite Hobj; cbn [flat_map app List.length].
    + split; [f_equal; exact Hrefs|].
      split; [constructor; [subst o; reflexivity | exact Hlocal]|].
      repeat split; assumption.
    + split; [exact Hrefs|]. split; [exact Hlocal|].
      split; [f_equal; exact Hlog|]. split; assumption.
Qed.



(** ** Shutdown and start-up as a whole *)

Lemma world_ext (w1 w2 : world) :
  jvm w1 = jvm w2 ->
  jvm_env_key w1 = jvm_env_key w2 ->
  jvm_argv w1 = jvm_argv w2 ->
  java_classes_list w1 = java_classes_list w2 ->
  java_plugin_configs w1 = java_plugin_configs w2 ->
  java_callbacks w1 = java_callbacks w2 ->
  trace w1 = trace w2 ->
  w1 = w2.
Proof.
  destruct w1, w2. cbn. intros. subst. reflexivity.
Qed.

(** X20: the order of [cjni_shutdown].  With the JVM running, a
    successful attach and Shutdown descriptors that have an object and a
    method, it returns 0 and has, in this order: attached the thread
    through the JVM directly, invoked every Shutdown callback, released
    the references of the registry and then those of the class list, and
    destroyed the JVM; it never detaches the thread, and it leaves every
    global of the bridge empty.  When the attach fails it returns -1 after
    one ERROR line and changes nothing else, so that nothing is released
    and the JVM handle stays. *)
Theorem cjni_shutdown_runs_the_callbacks_before_it_releases
  (w : world) (vm : JavaVM) :
  jvm w = Some vm ->
  (forall cb, In cb (java_callbacks w) -> cbi_type cb = CB_TYPE_SHUTDOWN ->
              cbi_object cb <> None /\ cbi_method cb <> None) ->
  (fst (AttachCurrentThread vm (trace w)) = 0 ->
   exists evs,
     cjni_shutdown w
     = Some (0,
             {| jvm := None; jvm_env_key := None; jvm_argv := [];
                java_classes_list := []; java_plugin_configs := [];
                java_callbacks := [];
                trace :=
                  trace w ++ [EvAttachCurrentThread 0] ++ evs
                  ++ map EvDeleteGlobalRef
                       (held (map cbi_object (java_callbacks w))
                        ++ held (map jpc_object (java_classes_list w)))
                  ++ [EvDestroyJavaVM] |})
     /\ Forall2 (fun cb call => invoked cb [] call)
          (filter (is_type CB_TYPE_SHUTDOWN) (java_callbacks w))
          (callback_calls evs)
     /\ deleted_global_refs evs = []
     /\ detach_calls evs = 0%nat)
  /\ (fst (AttachCurrentThread vm (trace w)) <> 0 ->
      exists msg,
        cjni_shutdown w
        = Some (-1,
                set_trace
                  (trace w
                   ++ [EvAttachCurrentThread
                         (fst (AttachCurrentThread vm (trace w)));
                       Ev_plugin_log LOG_ERR msg]) w)).
Proof.
  intros Hjvm Hnonnull. split.
  - intros Hattach. unfold cjni_shutdown. run. rewrite Hjvm.
    destruct (AttachCurrentThread vm (trace w)) as [status env].
    cbn [fst] in Hattach. subst status. cbn [negb Z.eqb].
    unfold cjni_shutdown_plugins. run. fields.
    destruct (cjni_shutdown_plugins_loop_calls env (java_callbacks w) Hnonnull
                (set_trace (trace w ++ [EvAttachCurrentThread 0]) w))
      as (evs & Hrun & Hcalls & Hlog & Hdel & Hun & Hdet & _).
    rewrite Hrun. fields.
    rewrite cjni_shutdown_callbacks_run. fields.
    rewrite cjni_shutdown_classes_run. fields.
    exists evs. split.
    + f_equal. f_equal. apply world_ext; fields; try reflexivity.
      rewrite map_app, <- !app_assoc. reflexivity.
    + split; [exact Hcalls|]. split; [exact Hdel | exact Hdet].
  - intros Hattach. unfold cjni_shutdown. run. rewrite Hjvm.
    destruct (AttachCurrentThread vm (trace w)) as [status env].
    cbn [fst] in *. apply Z.eqb_neq in Hattach. rewrite Hattach. cbn [negb].
    eexists. f_equal. f_equal. apply world_ext; fields; try reflexivity.
    rewrite <- !app_assoc. reflexivity.
Qed.

Lemma cjni_shutdown_runs_the_callbacks_before_it_releases_witness :
  (fst (AttachCurrentThread Sim.vm (trace (Sim.registered Sim.vm))) = 0 ->
   exists evs,
     cjni_shutdown (Sim.registered Sim.vm)
     = Some (0,
             {| jvm := None; jvm_env_key := None; jvm_argv := [];
                java_classes_list := []; java_plugin_configs := [];
                java_callbacks := [];
                trace :=
                  trace (Sim.registered Sim.vm)
                  ++ [EvAttachCurrentThread 0] ++ evs
                  ++ map EvDeleteGlobalRef
                       (held (map cbi_object
                                (java_callbacks (Sim.registered Sim.vm)))
                        ++ held (map jpc_object
                                   (java_classes_list (Sim.registered Sim.vm))))
                  ++ [EvDestroyJavaVM] |})
     /\ Forall2 (fun cb call => invoked cb [] call)
          (filter (is_type CB_TYPE_SHUTDOWN)
             (java_callbacks (Sim.registered Sim.vm)))
          (callback_calls evs)
     /\ deleted_global_refs evs = []
     /\ detach_calls evs = 0%nat)
  /\ (fst (AttachCurrentThread Sim.vm (trace (Sim.registered Sim.vm))) <> 0 ->
      exists msg,
        cjni_shutdown (Sim.registered Sim.vm)
        = Some (-1,
                set_trace
                  (trace (Sim.registered Sim.vm)
                   ++ [EvAttachCurrentThread
                         (fst (AttachCurrentThread Sim.vm
                                 (trace (Sim.registered Sim.vm))));
                       Ev_plugin_log LOG_ERR msg])
                  (Sim.registered Sim.vm))).
Proof.
  apply (cjni_shutdown_runs_the_callbacks_before_it_releases
           (Sim.registered Sim.vm) Sim.vm).
  - reflexivity.
  - intros cb [H|[H|[]]] _; subst cb; split; discriminate.
Defined.

(** A successful registration, as a state. *)
Lemma cjni_callback_register_success (host : collectd) (env : JNIEnv)
  (o_name o_callback : jobject) (type : Z) (w w' : world) :
  cjni_callback_register host env o_name o_callback type w = Some (0, w') ->
  exists cbi,
    w' = set_java_callbacks (java_callbacks w ++ [cbi])
           (set_trace (trace w ++ [EvNewGlobalRef o_callback]) w)
    /\ cbi_type cbi = type
    /\ cbi_object cbi = Some o_callback
    /\ cbi_method cbi <> None.
Proof.
  unfold cjni_callback_register. rewrite bind_run.
  destruct (cjni_callback_info_create_cases host env o_name o_callback type w)
    as [(cbi & Hc & Htype & _ & Hobj & _ & Hm & _)|(msg & Hc)]; rewrite Hc.
  - destruct (alloc_ok host realloc_java_callbacks); cbn [negb]; run.
    + intros H. inversion H. exists cbi. repeat split; assumption.
    + rewrite Hobj. discriminate.
  - run. discriminate.
Qed.

Lemma cjni_api_register_read_success (host : collectd) (env : JNIEnv)
  (o_name o_read : jobject) (w w' : world) :
  cjni_api_register_read host env o_name o_read w = Some (0, w') ->
  exists cbi,
    w' = set_trace
           (trace w
            ++ [EvNewGlobalRef o_read;
                Ev_plugin_register_complex_read (cbi_name cbi) cbi;
                EvDeleteLocalRef o_read]) w
    /\ cbi_object cbi = Some o_read.
Proof.
  unfold cjni_api_register_read. rewrite bind_run.
  destruct (cjni_callback_info_create_cases host env o_name o_read
              CB_TYPE_READ w)
    as [(cbi & Hc & _ & _ & Hobj & _)|(msg & Hc)]; rewrite Hc;
    cbv beta iota; run; intros H; inversion H.
  exists cbi. split; [|exact Hobj].
  apply world_ext; fields; try reflexivity.
  rewrite <- !app_assoc. reflexivity.
Qed.

(** C8: [cjni_shutdown] does not release the global references.  Take a
    state with the JVM running and a registry that holds local references,
    load the classes of the configuration, register one callback in the
    registry and one Read callback with the daemon, each through the
    local reference the native method received, and shut down with a JVM
    that accepts the attach.  NewGlobalRef was called once for every
    object created and once for each callback, and its results were
    dropped.  [cjni_shutdown] returns 0 after it has handed to
    DeleteGlobalRef, once each and in order, the references the registry
    and the class list hold: every one of them is a local reference, no
    reference NewGlobalRef returned is among them, and the Read
    descriptor, which the registry does not hold, has no part in it.  It
    leaves the registry and the class list empty and the JVM handle
    cleared, so that a second call returns 0 and changes nothing. *)
Theorem cjni_shutdown_releases_no_global_reference
  (host : collectd) (env : JNIEnv) (o_name o_callback o_read : jobject)
  (type : Z) (w w1 w2 w3 : world) (vm : JavaVM) :
  jvm w = Some vm ->
  Forall (fun class => jpc_object class = None) (java_classes_list w) ->
  Forall (fun o => ref_kind_of o = LocalRef)
    (held (map cbi_object (java_callbacks w))) ->
  (forall cb, In cb (java_callbacks w) -> cbi_type cb = CB_TYPE_SHUTDOWN ->
              cbi_object cb <> None /\ cbi_method cb <> None) ->
  ref_kind_of o_callback = LocalRef ->
  cjni_load_plugins env w = Some (0, w1) ->
  cjni_callback_register host env o_name o_callback type w1 = Some (0, w2) ->
  cjni_api_register_read host env o_name o_read w2 = Some (0, w3) ->
  fst (AttachCurrentThread vm (trace w3)) = 0 ->
  exists w4 created released,
    cjni_shutdown w3 = Some (0, w4)
    /\ created = held (map jpc_object (java_classes_list w1))
    /\ new_global_refs (trace w3)
       = new_global_refs (trace w) ++ created ++ [o_callback; o_read]
    /\ released
       = held (map cbi_object (java_callbacks w)) ++ [o_callback] ++ created
    /\ deleted_global_refs (trace w4)
       = deleted_global_refs (trace w) ++ released
    /\ Forall (fun o => ref_kind_of o = LocalRef) released
    /\ (forall o, ~ In (NewGlobalRef o) released)
    /\ java_callbacks w4 = []
    /\ java_classes_list w4 = []
    /\ jvm w4 = None
    /\ cjni_shutdown w4 = Some (0, w4).
Proof.
  intros Hjvm Hnone Hlocal Hnonnull Hcb Hload Hreg Hread Hattach.
  destruct (cjni_load_plugins_loop_spec env (java_classes_list w) Hnone w)
    as (classes' & evs1 & Hrun1 & _ & Hrefs & Hlocal1 & _ & _ & Hdel1).
  assert (Hw1 : w1 = set_java_classes_list classes'
                       (set_trace (trace w ++ evs1) w)).
  { revert Hload. unfold cjni_load_plugins. run. rewrite Hrun1.
    intros H. inversion H. reflexivity. }
  destruct (cjni_callback_register_success host env o_name o_callback type
              w1 w2 Hreg) as (cbi & Hw2 & Htype & Hobj & Hm).
  destruct (cjni_api_register_read_success host env o_name o_read w2 w3 Hread)
    as (cbi_read & Hw3 & _).
  set (evs_read := [EvNewGlobalRef o_read;
                    Ev_plugin_register_complex_read (cbi_name cbi_read)
                      cbi_read;
                    EvDeleteLocalRef o_read]) in Hw3.
  assert (Hjvm3 : jvm w3 = Some vm) by (subst w3 w2 w1; exact Hjvm).
  assert (Hcbs3 : java_callbacks w3 = java_callbacks w ++ [cbi])
    by (subst w3 w2 w1; reflexivity).
  assert (Hcls3 : java_classes_list w3 = classes')
    by (subst w3 w2 w1; reflexivity).
  assert (Ht3 : trace w3
                = trace w ++ evs1 ++ [EvNewGlobalRef o_callback] ++ evs_read)
    by (subst w3 w2 w1; fields; rewrite <- !app_assoc; reflexivity).
  assert (Hnonnull3 : forall cb, In cb (java_callbacks w3) ->
            cbi_type cb = CB_TYPE_SHUTDOWN ->
            cbi_object cb <> None /\ cbi_method cb <> None).
  { rewrite Hcbs3. intros cb Hin Hty. apply in_app_or in Hin.
    destruct Hin as [Hin|[Hin|[]]]; [apply Hnonnull; assumption|].
    subst cb. rewrite Hobj. split; [discriminate | exact Hm]. }
  destruct (AttachCurrentThread vm (trace w3)) as [status env'] eqn:Eattach.
  cbn [fst] in Hattach. subst status.
  destruct (cjni_shutdown_plugins_loop_calls env' (java_callbacks w3) Hnonnull3
              (set_trace (trace w3 ++ [EvAttachCurrentThread 0]) w3))
    as (evs & Hrun & _ & _ & Hdel & _ & _ & _).
  assert (Hreleased : Forall (fun o => ref_kind_of o = LocalRef)
            (held (map cbi_object (java_callbacks w)) ++ [o_callback]
             ++ held (map jpc_object classes'))).
  { apply Forall_app. split; [exact Hlocal|]. constructor; assumption. }
  eexists _, _, _. split.
  { unfold cjni_shutdown. run. rewrite Hjvm3, Eattach. cbn [negb Z.eqb].
    unfold cjni_shutdown_plugins. run. fields. rewrite Hrun. fields.
    rewrite cjni_shutdown_callbacks_run. fields.
    rewrite cjni_shutdown_classes_run. fields. reflexivity. }
  split; [reflexivity|].
  split.
  { rewrite Ht3, Hw1. fields. unfold new_global_refs in *.
    rewrite !flat_map_app, Hrefs. reflexivity. }
  split; [reflexivity|].
  split.
  { fields. rewrite Hcbs3, Hcls3, Ht3, Hw1. fields.
    pose proof deleted_global_refs_map as Hmap.
    rewrite map_app. cbn [map]. rewrite Hobj.
    unfold deleted_global_refs, held in *.
    rewrite !flat_map_app, !Hmap, Hdel, Hdel1.
    cbn [map flat_map app]. rewrite !app_nil_r, <- ?app_assoc. reflexivity. }
  split; [rewrite Hw1; exact Hreleased|].
  split.
  { intros o Hin. rewrite Hw1 in Hin. fields.
    rewrite Forall_forall in Hreleased. apply Hreleased in Hin.
    discriminate. }
  repeat split.
Qed.

Lemma cjni_shutdown_releases_no_global_reference_witness :
  exists w4 created released,
    cjni_shutdown Sim.after_registration = Some (0, w4)
    /\ created = held (map jpc_object (java_classes_list Sim.after_load))
    /\ new_global_refs (trace Sim.after_registration)
       = new_global_refs (trace Sim.with_classes)
         ++ created ++ [Sim.plugin_object; Sim.plugin_object]
    /\ released
       = held (map cbi_object (java_callbacks Sim.with_classes))
         ++ [Sim.plugin_object] ++ created
    /\ deleted_global_refs (trace w4)
       = deleted_global_refs (trace Sim.with_classes) ++ released
    /\ Forall (fun o => ref_kind_of o = LocalRef) released
    /\ (forall o, ~ In (NewGlobalRef o) released)
    /\ java_callbacks w4 = []
    /\ java_classes_list w4 = []
    /\ jvm w4 = None
    /\ cjni_shutdown w4 = Some (0, w4).
Proof.
  apply (cjni_shutdown_releases_no_global_reference Sim.host
           Sim.env_missing_one_class Sim.plugin_name Sim.plugin_object
           Sim.plugin_object CB_TYPE_SHUTDOWN Sim.with_classes Sim.after_load
           Sim.with_shutdown_callback Sim.after_registration Sim.vm);
    try reflexivity.
  - repeat constructor.
  - constructor.
  - intros cb [].
Defined.

Lemma cjni_init_native_cases (sys : launcher) (env : JNIEnv) (w : world) :
  (FindClass_ok env "org.collectd.api.CollectdAPI" = true
   /\ RegisterNatives_status sys "org.collectd.api.CollectdAPI"%string
        jni_api_functions = 0
   /\ cjni_init_native sys env w = Some (0, w))
  \/ ((FindClass_ok env "org.collectd.api.CollectdAPI" = false
       \/ RegisterNatives_status sys "org.collectd.api.CollectdAPI"%string
            jni_api_functions <> 0)
      /\ exists msg,
           cjni_init_native sys env w
           = Some (-1, set_trace (trace w ++ [Ev_plugin_log LOG_ERR msg]) w)).
Proof.
  unfold cjni_init_native, FindClass.
  destruct (FindClass_ok env "org.collectd.api.CollectdAPI").
  - cbv zeta.
    destruct (RegisterNatives_status sys "org.collectd.api.CollectdAPI"%string
                jni_api_functions =? 0) eqn:E; cbn [negb].
    + apply Z.eqb_eq in E. left. repeat split. exact E.
    + apply Z.eqb_neq in E. right. split; [right; exact E|].
      eexists. reflexivity.
  - right. split; [left; reflexivity|]. eexists. reflexivity.
Qed.

Lemma cjni_init_idle (sys : launcher) (w : world) (vm : JavaVM) :
  jvm w = Some vm -> cjni_init sys w = Some (0, w).
Proof.
  intros Hjvm. unfold cjni_init. rewrite bind_run. unfold read at 1.
  cbv beta iota. rewrite Hjvm. reflexivity.
Qed.

(** X22: the ways [cjni_init] fails, and what a later call sees.  Once
    [jvm] is set, [cjni_init] returns 0 and does nothing.  With [jvm]
    unset: a failing [pthread_key_create] or a failing
    [JNI_CreateJavaVM], which is given the JVM arguments of the
    configuration, gives -1 after one ERROR line and leaves [jvm] unset,
    so that a later call starts again.  When the API class is not found
    or RegisterNatives fails, the call gives -1 after two ERROR lines
    with [jvm] set: no class is loaded and no callback invoked, by this
    call or, since a later call returns 0 at once, by any later one. *)
Theorem cjni_init_failures (sys : launcher) (w : world) :
  (jvm w <> None -> cjni_init sys w = Some (0, w))
  /\ (jvm w = None ->
      pthread_key_create_status sys <> 0 ->
      exists msg,
        cjni_init sys w
        = Some (-1, set_trace (trace w ++ [Ev_plugin_log LOG_ERR msg]) w))
  /\ (jvm w = None ->
      pthread_key_create_status sys = 0 ->
      fst (fst (JNI_CreateJavaVM sys (jvm_argv w))) <> 0 ->
      exists msg w',
        cjni_init sys w = Some (-1, w')
        /\ jvm w' = None
        /\ trace w' = trace w ++ [Ev_plugin_log LOG_ERR msg]
        /\ java_classes_list w' = java_classes_list w)
  /\ (forall vm env,
        jvm w = None ->
        pthread_key_create_status sys = 0 ->
        JNI_CreateJavaVM sys (jvm_argv w) = (0, vm, env) ->
        FindClass_ok env "org.collectd.api.CollectdAPI" = false
        \/ RegisterNatives_status sys "org.collectd.api.CollectdAPI"%string
             jni_api_functions <> 0 ->
        exists msg1 msg2 w',
          cjni_init sys w = Some (-1, w')
          /\ jvm w' = Some vm
          /\ trace w'
             = trace w
               ++ [Ev_plugin_log LOG_ERR msg1; Ev_plugin_log LOG_ERR msg2]
          /\ java_classes_list w' = java_classes_list w
          /\ cjni_init sys w' = Some (0, w')).
Proof.
  split; [|split; [|split]].
  - intros Hjvm. destruct (jvm w) as [vm|] eqn:E; [|congruence].
    apply (cjni_init_idle sys w vm E).
  - intros Hjvm Hkey. unfold cjni_init. run. rewrite Hjvm.
    apply Z.eqb_neq in Hkey. rewrite Hkey. cbn [negb].
    eexists. reflexivity.
  - intros Hjvm Hkey Hvm. unfold cjni_init. run. rewrite Hjvm, Hkey.
    cbn [negb Z.eqb]. fields.
    destruct (JNI_CreateJavaVM sys (jvm_argv w)) as [[status vm] env].
    cbn [fst] in Hvm. apply Z.eqb_neq in Hvm. rewrite Hvm. cbn [negb].
    eexists _, _. split; [reflexivity|]. fields. repeat split. exact Hjvm.
  - intros vm env Hjvm Hkey Hvm Hnative. unfold cjni_init at 1. run.
    rewrite Hjvm, Hkey. cbn [negb Z.eqb]. fields. rewrite Hvm.
    cbn [negb Z.eqb].
    match goal with
    | |- context [cjni_init_native sys env ?w0] =>
        destruct (cjni_init_native_cases sys env w0)
          as [(Hc & Hr & _)|(_ & msg & Hrun)]
    end.
    + destruct Hnative as [Hn|Hn]; [congruence | contradiction].
    + rewrite Hrun. cbn [negb Z.eqb]. eexists _, _, _.
      split; [reflexivity|]. fields.
      split; [reflexivity|]. split; [rewrite <- app_assoc; reflexivity|].
      split; [reflexivity|]. apply (cjni_init_idle sys _ vm). reflexivity.
Qed.

Lemma cjni_init_failures_witness :
  (jvm (Sim.started Sim.vm) <> None ->
   cjni_init Sim.sys_without_api (Sim.started Sim.vm)
   = Some (0, Sim.started Sim.vm))
  /\ (forall vm env,
        jvm Sim.configured_java = None ->
        pthread_key_create_status Sim.sys_without_api = 0 ->
        JNI_CreateJavaVM Sim.sys_without_api (jvm_argv Sim.configured_java)
        = (0, vm, env) ->
        FindClass_ok env "org.collectd.api.CollectdAPI" = false
        \/ RegisterNatives_status Sim.sys_without_api
             "org.collectd.api.CollectdAPI"%string jni_api_functions <> 0 ->
        exists msg1 msg2 w',
          cjni_init Sim.sys_without_api Sim.configured_java
          = Some (-1, w')
          /\ jvm w' = Some vm
          /\ trace w'
             = trace Sim.configured_java
               ++ [Ev_plugin_log LOG_ERR msg1; Ev_plugin_log LOG_ERR msg2]
          /\ java_classes_list w' = java_classes_list Sim.configured_java
          /\ cjni_init Sim.sys_without_api w' = Some (0, w')).
Proof.
  split.
  - apply (cjni_init_failures Sim.sys_without_api
             (Sim.started Sim.vm)).
  - apply (cjni_init_failures Sim.sys_without_api
             Sim.configured_java).
Defined.

(** ** Attaches nested to any depth *)

Lemma thread_ops_app (host : collectd) (a b : list thread_op) (w : world) :
  thread_ops host (a ++ b) w
  = match thread_ops host a w with
    | Some (_, w1) => thread_ops host b w1
    | None => None
    end.
Proof.
  revert w. induction a as [|op a IH]; intros w; [reflexivity|].
  destruct op; cbn [thread_ops app]; rewrite !bind_run.
  - destruct (cjni_thread_attach host w) as [[r w1]|]; [apply IH | reflexivity].
  - destruct (cjni_thread_detach w) as [[r w1]|]; [apply IH | reflexivity].
Qed.

Lemma nested_attaches (host : collectd) (env : JNIEnv) (k : nat) :
  forall (c : Z) (w : world),
  jvm_env_key w = Some {| jvm_env := Some env; reference_counter := c |} ->
  0 < c -> c + Z.of_nat k < 2 ^ 31 ->
  thread_ops host (repeat attach k) w
  = Some (tt,
          set_jvm_env_key
            (Some {| jvm_env := Some env;
                     reference_counter := c + Z.of_nat k |}) w).
Proof.
  induction k as [|k IH]; intros c w Hkey Hc Hroom.
  - cbn [repeat thread_ops]. unfold ret. f_equal. f_equal.
    apply world_ext; fields; try reflexivity.
    rewrite Hkey, Z.add_0_r. reflexivity.
  - cbn [repeat thread_ops]. rewrite bind_run.
    rewrite (cjni_thread_attach_nested host w env c Hkey Hc).
    rewrite to_int_small by lia.
    rewrite (IH (c + 1)) by first [reflexivity | lia].
    f_equal. f_equal. apply world_ext; fields; try reflexivity.
    do 2 f_equal. lia.
Qed.

Lemma nested_detaches (host : collectd) (env : JNIEnv) (k : nat) :
  forall (c : Z) (w : world),
  jvm_env_key w
  = Some {| jvm_env := Some env; reference_counter := c + Z.of_nat k |} ->
  0 < c -> c + Z.of_nat k < 2 ^ 31 ->
  thread_ops host (repeat detach k) w
  = Some (tt,
          set_jvm_env_key
            (Some {| jvm_env := Some env; reference_counter := c |}) w).
Proof.
  induction k as [|k IH]; intros c w Hkey Hc Hroom.
  - cbn [repeat thread_ops]. unfold ret. f_equal. f_equal.
    apply world_ext; fields; try reflexivity.
    rewrite Hkey, Z.add_0_r. reflexivity.
  - cbn [repeat thread_ops]. rewrite bind_run.
    rewrite (cjni_thread_detach_nested w env (c + Z.of_nat (S k)) Hkey)
      by lia.
    rewrite (IH c);
      [|fields; do 2 f_equal; lia | exact Hc | lia].
    f_equal.
Qed.

(** X24: attaches nest to any depth.  With a JVM that accepts the attach,
    a thread that holds no runtime context and issues [n] attaches
    followed by [n] detaches (0 < n < INT_MAX) enters the runtime attach
    once, with the first attach, and the runtime detach once, with the
    last detach; every call returns, and the thread ends with its counter
    at zero and without context. *)
Theorem nested_attaches_cost_one_runtime_attach
  (host : collectd) (vm : JavaVM) (n : nat) (w : world) :
  alloc_ok host malloc_cjni_env = true ->
  (forall t, fst (AttachCurrentThread vm t) = 0) ->
  jvm w = Some vm ->
  attach_count w = 0 ->
  attached_env w = None ->
  (0 < n)%nat ->
  Z.of_nat n < 2 ^ 31 - 1 ->
  exists w',
    thread_ops host (repeat attach n ++ repeat detach n) w = Some (tt, w')
    /\ attach_calls (trace w') = (attach_calls (trace w) + 1)%nat
    /\ detach_calls (trace w') = (detach_calls (trace w) + 1)%nat
    /\ attach_count w' = 0
    /\ attached_env w' = None.
Proof.
  intros Halloc Hattach Hjvm Hc He Hpos Hmax.
  destruct n as [|m]; [lia|].
  replace (repeat detach (S m)) with (repeat detach m ++ [detach])
    by (rewrite <- repeat_cons; reflexivity).
  rewrite thread_ops_app. cbn [repeat thread_ops]. rewrite bind_run.
  rewrite (cjni_thread_attach_runtime host vm Halloc Hattach w Hjvm Hc He).
  set (env := snd (AttachCurrentThread vm (trace w))).
  rewrite (nested_attaches host env m 1) by first [reflexivity | lia].
  rewrite thread_ops_app.
  rewrite (nested_detaches host env m 1) by first [reflexivity | lia].
  cbn [thread_ops]. rewrite bind_run.
  rewrite (cjni_thread_detach_last _ vm env) by first [exact Hjvm | reflexivity].
  cbv beta iota. eexists. split; [reflexivity|]. fields.
  rewrite !attach_calls_app, !detach_calls_app.
  match goal with
  | |- context [detach_events vm ?t] =>
      destruct (detach_events_counts vm t) as (Ha & Hd & _); rewrite Ha, Hd
  end.
  repeat split; try reflexivity; cbn; lia.
Qed.

Lemma nested_attaches_cost_one_runtime_attach_witness :
  exists w',
    thread_ops Sim.host (repeat attach 5 ++ repeat detach 5) (Sim.started Sim.vm)
    = Some (tt, w')
    /\ attach_calls (trace w')
       = (attach_calls (trace (Sim.started Sim.vm)) + 1)%nat
    /\ detach_calls (trace w')
       = (detach_calls (trace (Sim.started Sim.vm)) + 1)%nat
    /\ attach_count w' = 0
    /\ attached_env w' = None.
Proof.
  apply (nested_attaches_cost_one_runtime_attach Sim.host Sim.vm 5
           (Sim.started Sim.vm)); try reflexivity.
  lia.
Defined.

(** ** The managed form of a configuration tree *)

Lemma ctoj_oconfig_value_spec (env : JNIEnv) (v : oconfig_value_t)
  (o : jobject) :
  ctoj_oconfig_value env v = Ok o -> managed_oconfig_value v = Some o.
Proof.
  unfold ctoj_oconfig_value. intros H.
  unfold FindClass in H.
  destruct (FindClass_ok env "org.collectd.api.OConfigValue");
    [|discriminate].
  cbn [nonnull] in H. destruct v as [s|number|b|tag]; cbn [managed_oconfig_value].
  - lookups H. inversion H. reflexivity.
  - lookups H.
    destruct (ctoj_jdouble_to_number env number) as [a| |] eqn:E;
      cbn [checked] in H; try discriminate.
    unfold ctoj_jdouble_to_number in E. lookups E. inversion E; subst a.
    lookups H. inversion H. reflexivity.
  - cbv zeta in H. lookups H. inversion H.
    destruct (b =? 0); reflexivity.
  - discriminate.
Qed.

Lemma all_some_Forall2 {A B : Type} (f : A -> option B) (R : A -> B -> Prop)
  (l : list A) (l' : list B) :
  (forall a b, In a l -> R a b -> f a = Some b) ->
  Forall2 R l l' -> all_some (map f l) = Some l'.
Proof.
  intros Hf H. induction H as [|a b l l' Hab Hrest IH]; [reflexivity|].
  cbn [map all_some]. rewrite (Hf a b (or_introl eq_refl) Hab).
  rewrite IH; [reflexivity|].
  intros a' b' Hin. apply Hf. right. exact Hin.
Qed.

Lemma oconfig_item_children_ind (P : oconfig_item_t -> Prop) :
  (forall key values children,
     (forall child, In child children -> P child) ->
     P (OConfigItem key values children)) ->
  forall ci, P ci.
Proof.
  intros H. fix IH 1. intros [key values children]. apply H.
  revert children. fix IHc 1. intros [|child rest] c Hin.
  - destruct Hin.
  - destruct Hin as [Heq|Hin].
    + subst c. apply IH.
    + apply (IHc rest c Hin).
Qed.

(** X25: the result of [ctoj_oconfig_item] is determined by the native
    tree alone.  Whenever the conversion returns an object, for whatever
    JVM, the object is an OConfigItem constructed with the key of the
    node that received through addValue, in order, the managed values of
    the node (a String, a Double wrapped as Number, or a boolean that is
    true for every non-zero native value) and then the managed forms of
    its children, built in the same way; a value of any other type,
    anywhere in the tree, leaves no object to return. *)
Theorem ctoj_oconfig_item_returns_the_managed_tree
  (env : JNIEnv) (ci : oconfig_item_t) (o : jobject) :
  ctoj_oconfig_item env ci = Ok o -> managed_oconfig_item ci = Some o.
Proof.
  revert o. induction ci as [key values children IH]
    using oconfig_item_children_ind.
  intros o H.
  destruct (ctoj_oconfig_item_shape env _ o H) as (vs & cs & Hvs & Hcs & Ho).
  cbn [ci_key ci_values ci_children] in *.
  cbn [managed_oconfig_item]. cbv zeta.
  rewrite (all_some_Forall2 managed_oconfig_value
             (fun v jv => ctoj_oconfig_value env v = Ok jv) values vs);
    [|intros v jv _; apply ctoj_oconfig_value_spec | exact Hvs].
  rewrite (all_some_Forall2 managed_oconfig_item
             (fun c jc => ctoj_oconfig_item env c = Ok jc) children cs);
    [|intros c jc Hin Hc; apply (IH c Hin jc Hc) | exact Hcs].
  subst o. reflexivity.
Qed.

Lemma ctoj_oconfig_item_returns_the_managed_tree_witness :
  managed_oconfig_item Sim.java_block = Some Sim.managed_java_block.
Proof.
  apply (ctoj_oconfig_item_returns_the_managed_tree Sim.env).
  vm_compute. reflexivity.
Defined.

(** ** A value list on its way through the JVM and back *)

Lemma ctoj_value_list_object (host : collectd) (env : JNIEnv) (ds : data_set_t)
  (vl : value_list_t) (o : jobject) :
  ctoj_value_list host env ds vl = Ok o ->
  exists numbers,
    o = managed_value_list ds vl numbers
    /\ Forall2 (fun p n =>
                  ctoj_value_to_number host env (fst p) (dsrc_type (snd p))
                  = Ok n)
         (combine (vl_values vl) (ds_ds ds)) numbers.
Proof.
  intros H. unfold ctoj_value_list in H. cbv zeta in H. lookups H.
  ok_steps H.
  repeat match goal with
         | E : ctoj_string _ _ _ _ _ = Ok _ |- _ => apply ctoj_string_spec in E
         | E : ctoj_long _ _ _ _ _ = Ok _ |- _ => apply ctoj_long_spec in E
         end.
  match goal with
  | E : ctoj_value_list_add_data_set _ _ _ _ = Ok _ |- _ =>
      unfold ctoj_value_list_add_data_set in E; lookups E; ok_steps E;
      inversion E; clear E
  end.
  match goal with
  | E : ctoj_data_set _ _ = Ok _ |- _ => apply ctoj_data_set_spec in E
  end.
  subst.
  destruct (ctoj_value_list_values_numbers _ _ _ _ _ _ _ _ H)
    as (numbers & Ho & Hall & Hlen).
  exists numbers. split; [|exact Hall].
  subst o. cbn [CallVoidMethod app]. rewrite add_all_calls. reflexivity.
Qed.

Lemma substring_all (s : string) :
  forall k, (String.length s <= k)%nat -> substring 0 k s = s.
Proof.
  induction s as [|c s IH]; intros [|k] Hk; cbn in *; try reflexivity;
    try lia.
  f_equal. apply IH. lia.
Qed.

Lemma sstrncpy_short (s : string) (n : nat) :
  (String.length s < n)%nat -> sstrncpy s n = s.
Proof. intros H. unfold sstrncpy. apply substring_all. lia. Qed.

Lemma last_call_managed_value_list (name : string) (ds : data_set_t)
  (vl : value_list_t) (numbers : list jobject) :
  String.eqb "addValue" name = false ->
  Sim.last_call name (managed_value_list ds vl numbers)
  = Sim.last_call name (managed_value_list ds vl []).
Proof.
  intros Hname. unfold Sim.last_call, managed_value_list.
  cbn [obj_calls ref_data map]. rewrite app_nil_r, fold_left_app.
  match goal with
  | |- fold_left _ _ ?acc = _ => generalize acc
  end.
  induction numbers as [|n numbers IH]; intros acc; [reflexivity|].
  cbn [map fold_left fst snd m_name]. rewrite Hname. apply IH.
Qed.

Lemma objects_passed_to_managed_value_list (ds : data_set_t)
  (vl : value_list_t) (numbers : list jobject) :
  objects_passed_to "addValue" (managed_value_list ds vl numbers) = numbers.
Proof.
  unfold objects_passed_to, managed_value_list. cbn [obj_calls ref_data].
  rewrite flat_map_app.
  cbn [flat_map m_name String.eqb Ascii.eqb Bool.eqb app].
  induction numbers as [|n numbers IH]; [reflexivity|].
  cbn. f_equal. exact IH.
Qed.

(** The getters of the reference JVM on a managed value list. *)
Lemma getter_of_managed_value_list (ds : data_set_t) (vl : value_list_t)
  (numbers : list jobject) (c : jclass) (sig : string) :
  let o := managed_value_list ds vl numbers in
  Sim.call_object o (MethodID c "getHost" sig)
  = Some (JRef LocalRef (DString (vl_host vl)))
  /\ Sim.call_object o (MethodID c "getPlugin" sig)
     = Some (JRef LocalRef (DString (vl_plugin vl)))
  /\ Sim.call_object o (MethodID c "getPluginInstance" sig)
     = Some (JRef LocalRef (DString (vl_plugin_instance vl)))
  /\ Sim.call_object o (MethodID c "getType" sig)
     = Some (JRef LocalRef (DString (vl_type vl)))
  /\ Sim.call_object o (MethodID c "getTypeInstance" sig)
     = Some (JRef LocalRef (DString (vl_type_instance vl)))
  /\ Sim.call_long o (MethodID c "getTime" sig)
     = to_jlong (to_jlong (vl_time vl) * to_jlong 1000)
  /\ Sim.call_long o (MethodID c "getInterval" sig)
     = to_jlong (vl_interval vl)
  /\ Sim.call_object o (MethodID c "getValues" sig)
     = Some (JRef LocalRef (DArray numbers)).
Proof.
  cbv zeta. repeat split;
    unfold Sim.call_object, Sim.call_long; cbn [m_name];
    rewrite ?objects_passed_to_managed_value_list;
    try rewrite last_call_managed_value_list by reflexivity;
    reflexivity.
Qed.

Lemma skipn_cons_nth_error {A : Type} (l : list A) :
  forall (k : nat) (x : A) (rest : list A),
  skipn k l = x :: rest ->
  nth_error l k = Some x /\ skipn (S k) l = rest.
Proof.
  induction l as [|y l IH]; intros [|k] x rest H; cbn in *;
    try discriminate.
  - inversion H. split; reflexivity.
  - apply IH. exact H.
Qed.

(** What [jtoc_value] makes, in the reference JVM, of the number
    [ctoj_value_to_number] created. *)
Lemma jtoc_value_after_ctoj (host : collectd) (env : JNIEnv) (v : value_t)
  (type : Z) (n : jobject) (c : jclass) :
  ctoj_value_to_number host env v type = Ok n ->
  GetObjectClass env n = Some c ->
  GetMethodID_ok env c "longValue" "()J" = true ->
  GetMethodID_ok env c "doubleValue" "()D" = true ->
  (forall j m, CallLongMethod env (managed_long j) m = j) ->
  (forall d m, CallDoubleMethod env (managed_double d) m = d) ->
  jtoc_value host env type n = Ok (v mod 2 ^ 64).
Proof.
  intros Hn Hc Hl Hd Hlong Hdouble.
  unfold jtoc_value, jtoc_long, jtoc_double, GetMethodID.
  rewrite Hc, Hl, Hd. cbn [nonnull checked].
  destruct (ctoj_value_to_number_spec _ _ _ _ _ Hn)
    as [(Ht & Ho) | (Hnt & Ht & Ho)]; subst n.
  - subst type. rewrite Z.eqb_refl. rewrite Hlong.
    unfold to_counter, to_jlong, value_counter, to_counter.
    rewrite !wrap_64_mod. rewrite Z.mod_mod by lia. reflexivity.
  - apply Z.eqb_neq in Hnt. rewrite Hnt. rewrite Hdouble.
    reflexivity.
Qed.

Lemma jtoc_values_array_loop_sim (host : collectd) (all : list jobject)
  (sources : list data_source_t) :
  forall (values : list value_t) (i : Z),
  0 <= i ->
  Forall2 (fun p n =>
             ctoj_value_to_number host Sim.env (fst p) (dsrc_type (snd p))
             = Ok n)
    (combine values sources) (skipn (Z.to_nat i) all) ->
  List.length values = List.length sources ->
  Forall value_ok values ->
  jtoc_values_array_loop host Sim.env (JRef LocalRef (DArray all)) sources i
  = Ok values.
Proof.
  induction sources as [|dsrc rest IH]; intros values i Hi Hall Hlen Hok.
  - destruct values; [reflexivity | discriminate].
  - destruct values as [|v vs]; [discriminate|].
    cbn [combine] in Hall.
    inversion Hall as [|p n ps ns Hn Hns Hp Hskip]. subst p ps.
    symmetry in Hskip.
    destruct (skipn_cons_nth_error _ _ _ _ Hskip) as [Hnth Hskip'].
    apply Forall_cons_iff in Hok. destruct Hok as [Hv Hvs].
    cbn [jtoc_values_array_loop].
    change (GetObjectArrayElement Sim.env (JRef LocalRef (DArray all)) i)
      with (nth_error all (Z.to_nat i)).
    rewrite Hnth. cbn [nonnull fst snd] in *.
    assert (Hclass : exists c, GetObjectClass Sim.env n = Some c)
      by (eexists; reflexivity).
    destruct Hclass as [c Hclass].
    rewrite (jtoc_value_after_ctoj host Sim.env v (dsrc_type dsrc) n c Hn
               Hclass eq_refl eq_refl)
      by (intros; reflexivity).
    cbn [checked].
    rewrite (IH vs (i + 1));
      [| lia
       | replace (Z.to_nat (i + 1)) with (S (Z.to_nat i)) by lia;
         rewrite Hskip'; exact Hns
       | cbn in Hlen; lia
       | exact Hvs].
    unfold value_ok in Hv. rewrite Z.mod_small by exact Hv. reflexivity.
Qed.

(** X26: a value list survives the way into the JVM and back.  Take the
    reference JVM of this development, in which a getter answers what the
    matching setter received and getValues answers the numbers addValue
    received.  If [ctoj_value_list] returns an object for a value list
    whose type names its data set, with one value per data source, each
    value fitting 64 bits, a time whose milliseconds fit a [jlong], an
    interval that fits an [int] and names shorter than DATA_MAX_NAME_LEN,
    then [jtoc_value_list] on that object returns the value list that
    went in, whatever the list it was given to fill held before. *)
Theorem value_list_survives_the_way_through_the_jvm
  (host : collectd) (ds : data_set_t) (vl vl0 : value_list_t) (o : jobject) :
  ctoj_value_list host Sim.env ds vl = Ok o ->
  plugin_get_ds host (vl_type vl) = Some ds ->
  alloc_ok host calloc_values = true ->
  List.length (vl_values vl) = List.length (ds_ds ds) ->
  Forall value_ok (vl_values vl) ->
  - 2 ^ 63 <= vl_time vl * 1000 < 2 ^ 63 ->
  - 2 ^ 31 <= vl_interval vl < 2 ^ 31 ->
  Forall (fun s => (String.length s < DATA_MAX_NAME_LEN host)%nat)
    [vl_host vl; vl_plugin vl; vl_plugin_instance vl; vl_type vl;
     vl_type_instance vl] ->
  jtoc_value_list host Sim.env vl0 o = Ok vl.
Proof.
  intros Hconv Hds Halloc Hlen Hok Htime Hinterval Hnames.
  destruct (ctoj_value_list_object host Sim.env ds vl o Hconv)
    as (numbers & Ho & Hnumbers).
  subst o.
  inversion Hnames as [|? ? Hhost Hn1]; subst.
  inversion Hn1 as [|? ? Hplugin Hn2]; subst.
  inversion Hn2 as [|? ? Hpi Hn3]; subst.
  inversion Hn3 as [|? ? Htype Hn4]; subst.
  inversion Hn4 as [|? ? Hti _]; subst.
  unfold jtoc_value_list. cbv zeta.
  change (GetObjectClass Sim.env (managed_value_list ds vl numbers))
    with (Some "org.collectd.api.ValueList"%string).
  cbn [nonnull].
  unfold jtoc_string, jtoc_long, jtoc_values_array, GetMethodID.
  change (GetMethodID_ok Sim.env) with (fun (_ : jclass) (_ _ : string) => true).
  cbv beta iota.
  change (CallObjectMethod Sim.env) with Sim.call_object.
  change (CallLongMethod Sim.env) with Sim.call_long.
  cbn [nonnull].
  destruct (getter_of_managed_value_list ds vl numbers
              "org.collectd.api.ValueList"%string "()Ljava/lang/String;")
    as (Gh & Gp & Gpi & Gt & Gti & _).
  destruct (getter_of_managed_value_list ds vl numbers
              "org.collectd.api.ValueList"%string "()J")
    as (_ & _ & _ & _ & _ & Gtime & Ginterval & _).
  destruct (getter_of_managed_value_list ds vl numbers
              "org.collectd.api.ValueList"%string "()Ljava/util/List;")
    as (_ & _ & _ & _ & _ & _ & _ & Gvalues).
  cbv zeta in Gh, Gp, Gpi, Gt, Gti, Gtime, Ginterval, Gvalues.
  rewrite Gt, Gh, Gp, Gpi, Gti, Gtime, Ginterval, Gvalues.
  cbn [nonnull checked].
  assert (Hchars : forall s,
             GetStringUTFChars Sim.env (JRef LocalRef (DString s)) = Some s)
    by reflexivity.
  repeat rewrite Hchars. cbn [nonnull checked].
  rewrite (sstrncpy_short (vl_type vl)) by exact Htype.
  rewrite (sstrncpy_short (vl_host vl)) by exact Hhost.
  rewrite (sstrncpy_short (vl_plugin vl)) by exact Hplugin.
  rewrite (sstrncpy_short (vl_plugin_instance vl)) by exact Hpi.
  rewrite (sstrncpy_short (vl_type_instance vl)) by exact Hti.
  rewrite Hds. cbn [nonnull checked].
  change (GetObjectClass Sim.env (JRef LocalRef (DArray numbers)))
    with (Some "[Ljava/lang/Object;"%string).
  cbv beta iota.
  change (Sim.call_object (JRef LocalRef (DArray numbers))
            (MethodID "[Ljava/lang/Object;"%string "toArray"
               "()[Ljava/lang/Object;"))
    with (Some (JRef LocalRef (DArray numbers))).
  cbn [nonnull]. rewrite Halloc. cbn [negb].
  rewrite (jtoc_values_array_loop_sim host numbers (ds_ds ds) (vl_values vl) 0);
    [| lia | exact Hnumbers | exact Hlen | exact Hok].
  cbn [checked vl_time vl_interval vl_host vl_plugin vl_plugin_instance vl_type
       vl_type_instance].
  f_equal. destruct vl as [values time interval h p pi ty ti].
  cbn [vl_time vl_interval vl_values vl_host vl_plugin vl_plugin_instance
       vl_type vl_type_instance] in *.
  change (to_jlong 1000) with 1000.
  assert (Ht : - 2 ^ 63 <= time < 2 ^ 63) by lia.
  rewrite (to_jlong_small time) by exact Ht.
  rewrite (to_jlong_small (time * 1000)) by exact Htime.
  rewrite (to_jlong_small (time * 1000)) by exact Htime.
  rewrite Z.quot_mul by lia.
  unfold to_time_t. rewrite (wrap_small 64 time) by (cbn; lia).
  rewrite (to_jlong_small interval) by lia.
  rewrite (to_jlong_small interval) by lia.
  rewrite (to_int_small interval) by exact Hinterval.
  reflexivity.
Qed.

Lemma value_list_survives_the_way_through_the_jvm_witness :
  jtoc_value_list Sim.host Sim.env (VALUE_LIST_INIT Sim.host) Sim.managed_vl
  = Ok Sim.vl.
Proof.
  apply (value_list_survives_the_way_through_the_jvm Sim.host Sim.ds Sim.vl);
    try reflexivity.
  - repeat constructor; cbn; lia.
  - cbn. lia.
  - cbn. lia.
  - repeat constructor.
Defined.
